(** * Material trial requests: the request lifecycle of sample-trials

    A shallow embedding of the storage layer ([storageUtils]), of the submit
    handlers of the stage modals and of the dashboard that opens them,
    followed by the properties of the lifecycle that hold on them.

    Conventions of the embedding.
    - A JavaScript string is a [string]; its characters are the code units
      U+0000..U+00FF.
    - An optional key of an object ([quantity?: string]) is an [option];
      a key holding [undefined] is dropped by [JSON.stringify], so that in
      local storage "absent" and "undefined" are both [None].
    - A number that a request holds is finite: [JSON.stringify] writes [NaN]
      and the infinities as [null], which the embedding leaves aside.
    - [new Date()] and [Date.now()] read the wall clock of the world, in
      milliseconds since the epoch; an ISO-8601 instant is kept as that
      number. Before every reading an amount of time elapses that the
      world supplies; it is negative when the clock has been set back. The
      statements that need a clock that does not step back say so
      ([steady]).
    - A stage modal stays mounted between its openings, so that its state
      (the action of the procurement and of the evaluation modal among it)
      is whatever it was left at: the form of a submission is any state of
      the modal, whatever the status of the request.
    - [Math.random().toString(36).substr(2, 9)] draws the next string of
      the world's entropy tape. *)

From Stdlib Require Import ZArith Floats Ascii String DecimalString.
From stdpp Require Import base option list strings.

Local Open Scope string_scope.
Local Open Scope list_scope.
Local Open Scope Z_scope.

(** ** Types (src/types/index.ts) *)

Inductive Role :=
  | requestor | cmk | ppc | procurement | evaluation | admin | stores.

Inductive Status :=
  | pending_cmk | approved_trial | approved_pilot | rejected | pending_ppc
  | pending_procurement | ordered | delivered | pending_evaluation
  | pending_final_cmk | completed
  | received (* written by StoresModal only *).

Inductive Currency := USD | INR | YUAN.
Inductive Decision := trial | pilot | decision_rejected.
Inductive FinalDecision := final_approved | final_rejected.

#[global] Instance Role_eq_dec : EqDecision Role.
Proof. solve_decision. Defined.
#[global] Instance Status_eq_dec : EqDecision Status.
Proof. solve_decision. Defined.
#[global] Instance Decision_eq_dec : EqDecision Decision.
Proof. solve_decision. Defined.
#[global] Instance FinalDecision_eq_dec : EqDecision FinalDecision.
Proof. solve_decision. Defined.

(** An instant, in milliseconds since the epoch. *)
Definition Instant := Z.
Definition number := float.

Record User := {
  user_id : string;
  username : string;
  password : string;
  role : Role;
  name : string
}.

Record AuditEntry := {
  entry_id : string;
  action : string;
  userId : string;
  timestamp : Instant;
  details : string
}.

(** [Omit<AuditEntry, 'id'>] *)
Record AuditEntryInput := {
  in_action : string;
  in_userId : string;
  in_timestamp : Instant;
  in_details : string
}.

Record CmkDecision := {
  cmk_decision : Decision;
  cmk_reason : option string;
  cmk_plant : option string;
  cmk_quantityRevised : option string;
  approvedBy : string;
  approvedAt : Instant
}.

Record PpcData := {
  prNumber : string;
  materialCode : string;
  description : string;
  enteredBy : string;
  enteredAt : Instant
}.

Record ProcurementData := {
  orderType : option string;
  estimatedDelivery : option string;
  remarks : option string;
  deliveredAt : option Instant;
  proc_updatedBy : string;
  proc_updatedAt : Instant
}.

Record StoresData := {
  receivedBy : option string;
  documents : option (list string);
  stores_updatedBy : string;
  stores_updatedAt : Instant
}.

Record EvaluationData := {
  eval_received : bool;
  completionDate : option string;
  report : option string;
  eval_updatedBy : string;
  eval_updatedAt : Instant
}.

Record FinalCmkReview := {
  final_decision : FinalDecision;
  final_reason : option string;
  comments : option string;
  reviewedBy : string;
  reviewedAt : Instant
}.

Record MaterialRequest := {
  id : string;
  dateReceived : string;
  materialCategory : string;
  materialDetails : string;
  supplierName : string;
  quantity : option string;
  trialAtPlant : bool;
  purpose : string;
  bisRequired : bool;
  bisCost : option number;
  bisCurrency : option Currency;
  bisCostBorneBy : option string;
  bisSplitSupplier : option number;
  bisSplitPremier : option number;
  iecRequired : bool;
  iecCost : option number;
  iecCurrency : option Currency;
  iecCostBorneBy : option string;
  iecSplitSupplier : option number;
  iecSplitPremier : option number;
  status : Status;
  requestorId : string;
  plant : option string;
  cmkDecision : option CmkDecision;
  ppcData : option PpcData;
  procurementData : option ProcurementData;
  storesData : option StoresData;
  evaluationData : option EvaluationData;
  finalCmkReview : option FinalCmkReview;
  auditTrail : list AuditEntry
}.

(** [Partial<MaterialRequest>]: every key may be missing ([None]); a key of
    an optional field that is there may hold [undefined] ([Some None]). *)
Record Partial := {
  p_id : option string;
  p_dateReceived : option string;
  p_materialCategory : option string;
  p_materialDetails : option string;
  p_supplierName : option string;
  p_quantity : option (option string);
  p_trialAtPlant : option bool;
  p_purpose : option string;
  p_bisRequired : option bool;
  p_bisCost : option (option number);
  p_bisCurrency : option (option Currency);
  p_bisCostBorneBy : option (option string);
  p_bisSplitSupplier : option (option number);
  p_bisSplitPremier : option (option number);
  p_iecRequired : option bool;
  p_iecCost : option (option number);
  p_iecCurrency : option (option Currency);
  p_iecCostBorneBy : option (option string);
  p_iecSplitSupplier : option (option number);
  p_iecSplitPremier : option (option number);
  p_status : option Status;
  p_requestorId : option string;
  p_plant : option (option string);
  p_cmkDecision : option (option CmkDecision);
  p_ppcData : option (option PpcData);
  p_procurementData : option (option ProcurementData);
  p_storesData : option (option StoresData);
  p_evaluationData : option (option EvaluationData);
  p_finalCmkReview : option (option FinalCmkReview);
  p_auditTrail : option (list AuditEntry)
}.

Record AppSettings := {
  materialCategories : list string;
  purposes : list string
}.

Inductive DropdownType := dd_materialCategories | dd_purposes.

(** ** Strings *)

(** The white space and line terminators of ECMAScript below U+0100. *)
Definition is_white_space (c : ascii) : bool :=
  let n := nat_of_ascii c in
  bool_decide (n ∈ [9; 10; 11; 12; 13; 32; 160]%nat).

Fixpoint trimStart (s : string) : string :=
  match s with
  | String c s' => if is_white_space c then trimStart s' else s
  | EmptyString => EmptyString
  end.

Fixpoint trimEnd (s : string) : string :=
  match s with
  | String c s' =>
      match trimEnd s' with
      | EmptyString => if is_white_space c then EmptyString else String c EmptyString
      | t => String c t
      end
  | EmptyString => EmptyString
  end.

(** [String.prototype.trim] *)
Definition trim (s : string) : string := trimEnd (trimStart s).

(** Truthiness of a string: [!s] holds of the empty string only. *)
Definition truthy (s : string) : bool := bool_decide (s ≠ "").

Definition lower_ascii (c : ascii) : ascii :=
  let n := nat_of_ascii c in
  if bool_decide ((65 ≤ n ∧ n ≤ 90) ∨ (192 ≤ n ∧ n ≤ 222 ∧ n ≠ 215))%nat
  then ascii_of_nat (n + 32) else c.

Fixpoint toLowerCase (s : string) : string :=
  match s with
  | String c s' => String (lower_ascii c) (toLowerCase s')
  | EmptyString => EmptyString
  end.

(** [n.toString()] of an integer. *)
Definition toString (n : Z) : string := NilZero.string_of_int (Z.to_int n).

(** ** The world: local storage, the clock and the entropy *)

Record LocalStorage := {
  item_materialRequests : option (list MaterialRequest);
  item_appSettings : option AppSettings
}.

Record World := {
  localStorage : LocalStorage;
  clock : Instant;
  elapsed : list Z;      (* the time that passes before each clock reading to
                            come; negative when the clock is set back *)
  entropy : list string  (* the random strings to come *)
}.

Definition M (A : Type) : Type := World → A * World.

#[global] Instance M_ret : MRet M := λ A a w, (a, w).
#[global] Instance M_bind : MBind M := λ A B f m w, let (a, w') := m w in f a w'.

Definition getStorage : M LocalStorage := λ w, (localStorage w, w).
Definition setStorage (ls : LocalStorage) : M unit :=
  λ w, (tt, {| localStorage := ls; clock := clock w;
               elapsed := elapsed w; entropy := entropy w |}).

(** [Date.now()] and [new Date()] *)
Definition dateNow : M Instant := λ w,
  let t := clock w + hd 0 (elapsed w) in
  (t, {| localStorage := localStorage w; clock := t;
         elapsed := tl (elapsed w); entropy := entropy w |}).

(** [Math.random().toString(36).substr(2, 9)] *)
Definition random36 : M string := λ w,
  (hd "" (entropy w),
   {| localStorage := localStorage w; clock := clock w;
      elapsed := elapsed w; entropy := tl (entropy w) |}).

Definition exec {A} (m : M A) (w : World) : World := snd (m w).
Definition eval {A} (m : M A) (w : World) : A := fst (m w).

(** ** Object spread and assignment on the records *)

(** The object without any key. *)
Definition noUpdates : Partial :=
  Build_Partial None None None None None None None None None None
                None None None None None None None None None None
                None None None None None None None None None None.

(** [{ ...p, key: v }] for the keys that the forms and handlers write. *)
Definition with_dateReceived v (p : Partial) : Partial :=
  Build_Partial
    (p_id p) (Some v) (p_materialCategory p) (p_materialDetails p)
    (p_supplierName p) (p_quantity p) (p_trialAtPlant p) (p_purpose p)
    (p_bisRequired p) (p_bisCost p) (p_bisCurrency p) (p_bisCostBorneBy p)
    (p_bisSplitSupplier p) (p_bisSplitPremier p) (p_iecRequired p)
    (p_iecCost p) (p_iecCurrency p) (p_iecCostBorneBy p)
    (p_iecSplitSupplier p) (p_iecSplitPremier p) (p_status p)
    (p_requestorId p) (p_plant p) (p_cmkDecision p) (p_ppcData p)
    (p_procurementData p) (p_storesData p) (p_evaluationData p)
    (p_finalCmkReview p) (p_auditTrail p).

Definition with_materialCategory v (p : Partial) : Partial :=
  Build_Partial
    (p_id p) (p_dateReceived p) (Some v) (p_materialDetails p)
    (p_supplierName p) (p_quantity p) (p_trialAtPlant p) (p_purpose p)
    (p_bisRequired p) (p_bisCost p) (p_bisCurrency p) (p_bisCostBorneBy p)
    (p_bisSplitSupplier p) (p_bisSplitPremier p) (p_iecRequired p)
    (p_iecCost p) (p_iecCurrency p) (p_iecCostBorneBy p)
    (p_iecSplitSupplier p) (p_iecSplitPremier p) (p_status p)
    (p_requestorId p) (p_plant p) (p_cmkDecision p) (p_ppcData p)
    (p_procurementData p) (p_storesData p) (p_evaluationData p)
    (p_finalCmkReview p) (p_auditTrail p).

Definition with_materialDetails v (p : Partial) : Partial :=
  Build_Partial
    (p_id p) (p_dateReceived p) (p_materialCategory p) (Some v)
    (p_supplierName p) (p_quantity p) (p_trialAtPlant p) (p_purpose p)
    (p_bisRequired p) (p_bisCost p) (p_bisCurrency p) (p_bisCostBorneBy p)
    (p_bisSplitSupplier p) (p_bisSplitPremier p) (p_iecRequired p)
    (p_iecCost p) (p_iecCurrency p) (p_iecCostBorneBy p)
    (p_iecSplitSupplier p) (p_iecSplitPremier p) (p_status p)
    (p_requestorId p) (p_plant p) (p_cmkDecision p) (p_ppcData p)
    (p_procurementData p) (p_storesData p) (p_evaluationData p)
    (p_finalCmkReview p) (p_auditTrail p).

Definition with_supplierName v (p : Partial) : Partial :=
  Build_Partial
    (p_id p) (p_dateReceived p) (p_materialCategory p) (p_materialDetails p)
    (Some v) (p_quantity p) (p_trialAtPlant p) (p_purpose p)
    (p_bisRequired p) (p_bisCost p) (p_bisCurrency p) (p_bisCostBorneBy p)
    (p_bisSplitSupplier p) (p_bisSplitPremier p) (p_iecRequired p)
    (p_iecCost p) (p_iecCurrency p) (p_iecCostBorneBy p)
    (p_iecSplitSupplier p) (p_iecSplitPremier p) (p_status p)
    (p_requestorId p) (p_plant p) (p_cmkDecision p) (p_ppcData p)
    (p_procurementData p) (p_storesData p) (p_evaluationData p)
    (p_finalCmkReview p) (p_auditTrail p).

Definition with_quantity v (p : Partial) : Partial :=
  Build_Partial
    (p_id p) (p_dateReceived p) (p_materialCategory p) (p_materialDetails p)
    (p_supplierName p) (Some v) (p_trialAtPlant p) (p_purpose p)
    (p_bisRequired p) (p_bisCost p) (p_bisCurrency p) (p_bisCostBorneBy p)
    (p_bisSplitSupplier p) (p_bisSplitPremier p) (p_iecRequired p)
    (p_iecCost p) (p_iecCurrency p) (p_iecCostBorneBy p)
    (p_iecSplitSupplier p) (p_iecSplitPremier p) (p_status p)
    (p_requestorId p) (p_plant p) (p_cmkDecision p) (p_ppcData p)
    (p_procurementData p) (p_storesData p) (p_evaluationData p)
    (p_finalCmkReview p) (p_auditTrail p).

Definition with_trialAtPlant v (p : Partial) : Partial :=
  Build_Partial
    (p_id p) (p_dateReceived p) (p_materialCategory p) (p_materialDetails p)
    (p_supplierName p) (p_quantity p) (Some v) (p_purpose p)
    (p_bisRequired p) (p_bisCost p) (p_bisCurrency p) (p_bisCostBorneBy p)
    (p_bisSplitSupplier p) (p_bisSplitPremier p) (p_iecRequired p)
    (p_iecCost p) (p_iecCurrency p) (p_iecCostBorneBy p)
    (p_iecSplitSupplier p) (p_iecSplitPremier p) (p_status p)
    (p_requestorId p) (p_plant p) (p_cmkDecision p) (p_ppcData p)
    (p_procurementData p) (p_storesData p) (p_evaluationData p)
    (p_finalCmkReview p) (p_auditTrail p).

Definition with_purpose v (p : Partial) : Partial :=
  Build_Partial
    (p_id p) (p_dateReceived p) (p_materialCategory p) (p_materialDetails p)
    (p_supplierName p) (p_quantity p) (p_trialAtPlant p) (Some v)
    (p_bisRequired p) (p_bisCost p) (p_bisCurrency p) (p_bisCostBorneBy p)
    (p_bisSplitSupplier p) (p_bisSplitPremier p) (p_iecRequired p)
    (p_iecCost p) (p_iecCurrency p) (p_iecCostBorneBy p)
    (p_iecSplitSupplier p) (p_iecSplitPremier p) (p_status p)
    (p_requestorId p) (p_plant p) (p_cmkDecision p) (p_ppcData p)
    (p_procurementData p) (p_storesData p) (p_evaluationData p)
    (p_finalCmkReview p) (p_auditTrail p).

Definition with_status v (p : Partial) : Partial :=
  Build_Partial
    (p_id p) (p_dateReceived p) (p_materialCategory p) (p_materialDetails p)
    (p_supplierName p) (p_quantity p) (p_trialAtPlant p) (p_purpose p)
    (p_bisRequired p) (p_bisCost p) (p_bisCurrency p) (p_bisCostBorneBy p)
    (p_bisSplitSupplier p) (p_bisSplitPremier p) (p_iecRequired p)
    (p_iecCost p) (p_iecCurrency p) (p_iecCostBorneBy p)
    (p_iecSplitSupplier p) (p_iecSplitPremier p) (Some v) (p_requestorId p)
    (p_plant p) (p_cmkDecision p) (p_ppcData p) (p_procurementData p)
    (p_storesData p) (p_evaluationData p) (p_finalCmkReview p)
    (p_auditTrail p).

Definition with_plant v (p : Partial) : Partial :=
  Build_Partial
    (p_id p) (p_dateReceived p) (p_materialCategory p) (p_materialDetails p)
    (p_supplierName p) (p_quantity p) (p_trialAtPlant p) (p_purpose p)
    (p_bisRequired p) (p_bisCost p) (p_bisCurrency p) (p_bisCostBorneBy p)
    (p_bisSplitSupplier p) (p_bisSplitPremier p) (p_iecRequired p)
    (p_iecCost p) (p_iecCurrency p) (p_iecCostBorneBy p)
    (p_iecSplitSupplier p) (p_iecSplitPremier p) (p_status p)
    (p_requestorId p) (Some v) (p_cmkDecision p) (p_ppcData p)
    (p_procurementData p) (p_storesData p) (p_evaluationData p)
    (p_finalCmkReview p) (p_auditTrail p).

Definition with_cmkDecision v (p : Partial) : Partial :=
  Build_Partial
    (p_id p) (p_dateReceived p) (p_materialCategory p) (p_materialDetails p)
    (p_supplierName p) (p_quantity p) (p_trialAtPlant p) (p_purpose p)
    (p_bisRequired p) (p_bisCost p) (p_bisCurrency p) (p_bisCostBorneBy p)
    (p_bisSplitSupplier p) (p_bisSplitPremier p) (p_iecRequired p)
    (p_iecCost p) (p_iecCurrency p) (p_iecCostBorneBy p)
    (p_iecSplitSupplier p) (p_iecSplitPremier p) (p_status p)
    (p_requestorId p) (p_plant p) (Some v) (p_ppcData p)
    (p_procurementData p) (p_storesData p) (p_evaluationData p)
    (p_finalCmkReview p) (p_auditTrail p).

Definition with_ppcData v (p : Partial) : Partial :=
  Build_Partial
    (p_id p) (p_dateReceived p) (p_materialCategory p) (p_materialDetails p)
    (p_supplierName p) (p_quantity p) (p_trialAtPlant p) (p_purpose p)
    (p_bisRequired p) (p_bisCost p) (p_bisCurrency p) (p_bisCostBorneBy p)
    (p_bisSplitSupplier p) (p_bisSplitPremier p) (p_iecRequired p)
    (p_iecCost p) (p_iecCurrency p) (p_iecCostBorneBy p)
    (p_iecSplitSupplier p) (p_iecSplitPremier p) (p_status p)
    (p_requestorId p) (p_plant p) (p_cmkDecision p) (Some v)
    (p_procurementData p) (p_storesData p) (p_evaluationData p)
    (p_finalCmkReview p) (p_auditTrail p).

Definition with_procurementData v (p : Partial) : Partial :=
  Build_Partial
    (p_id p) (p_dateReceived p) (p_materialCategory p) (p_materialDetails p)
    (p_supplierName p) (p_quantity p) (p_trialAtPlant p) (p_purpose p)
    (p_bisRequired p) (p_bisCost p) (p_bisCurrency p) (p_bisCostBorneBy p)
    (p_bisSplitSupplier p) (p_bisSplitPremier p) (p_iecRequired p)
    (p_iecCost p) (p_iecCurrency p) (p_iecCostBorneBy p)
    (p_iecSplitSupplier p) (p_iecSplitPremier p) (p_status p)
    (p_requestorId p) (p_plant p) (p_cmkDecision p) (p_ppcData p) (Some v)
    (p_storesData p) (p_evaluationData p) (p_finalCmkReview p)
    (p_auditTrail p).

Definition with_storesData v (p : Partial) : Partial :=
  Build_Partial
    (p_id p) (p_dateReceived p) (p_materialCategory p) (p_materialDetails p)
    (p_supplierName p) (p_quantity p) (p_trialAtPlant p) (p_purpose p)
    (p_bisRequired p) (p_bisCost p) (p_bisCurrency p) (p_bisCostBorneBy p)
    (p_bisSplitSupplier p) (p_bisSplitPremier p) (p_iecRequired p)
    (p_iecCost p) (p_iecCurrency p) (p_iecCostBorneBy p)
    (p_iecSplitSupplier p) (p_iecSplitPremier p) (p_status p)
    (p_requestorId p) (p_plant p) (p_cmkDecision p) (p_ppcData p)
    (p_procurementData p) (Some v) (p_evaluationData p) (p_finalCmkReview p)
    (p_auditTrail p).

Definition with_evaluationData v (p : Partial) : Partial :=
  Build_Partial
    (p_id p) (p_dateReceived p) (p_materialCategory p) (p_materialDetails p)
    (p_supplierName p) (p_quantity p) (p_trialAtPlant p) (p_purpose p)
    (p_bisRequired p) (p_bisCost p) (p_bisCurrency p) (p_bisCostBorneBy p)
    (p_bisSplitSupplier p) (p_bisSplitPremier p) (p_iecRequired p)
    (p_iecCost p) (p_iecCurrency p) (p_iecCostBorneBy p)
    (p_iecSplitSupplier p) (p_iecSplitPremier p) (p_status p)
    (p_requestorId p) (p_plant p) (p_cmkDecision p) (p_ppcData p)
    (p_procurementData p) (p_storesData p) (Some v) (p_finalCmkReview p)
    (p_auditTrail p).

Definition with_finalCmkReview v (p : Partial) : Partial :=
  Build_Partial
    (p_id p) (p_dateReceived p) (p_materialCategory p) (p_materialDetails p)
    (p_supplierName p) (p_quantity p) (p_trialAtPlant p) (p_purpose p)
    (p_bisRequired p) (p_bisCost p) (p_bisCurrency p) (p_bisCostBorneBy p)
    (p_bisSplitSupplier p) (p_bisSplitPremier p) (p_iecRequired p)
    (p_iecCost p) (p_iecCurrency p) (p_iecCostBorneBy p)
    (p_iecSplitSupplier p) (p_iecSplitPremier p) (p_status p)
    (p_requestorId p) (p_plant p) (p_cmkDecision p) (p_ppcData p)
    (p_procurementData p) (p_storesData p) (p_evaluationData p) (Some v)
    (p_auditTrail p).

(** [request.key = v] on a request. *)
Definition set_materialCategory v (r : MaterialRequest) : MaterialRequest :=
  Build_MaterialRequest
    (id r) (dateReceived r) v (materialDetails r) (supplierName r)
    (quantity r) (trialAtPlant r) (purpose r) (bisRequired r) (bisCost r)
    (bisCurrency r) (bisCostBorneBy r) (bisSplitSupplier r)
    (bisSplitPremier r) (iecRequired r) (iecCost r) (iecCurrency r)
    (iecCostBorneBy r) (iecSplitSupplier r) (iecSplitPremier r) (status r)
    (requestorId r) (plant r) (cmkDecision r) (ppcData r) (procurementData r)
    (storesData r) (evaluationData r) (finalCmkReview r) (auditTrail r).

Definition set_purpose v (r : MaterialRequest) : MaterialRequest :=
  Build_MaterialRequest
    (id r) (dateReceived r) (materialCategory r) (materialDetails r)
    (supplierName r) (quantity r) (trialAtPlant r) v (bisRequired r)
    (bisCost r) (bisCurrency r) (bisCostBorneBy r) (bisSplitSupplier r)
    (bisSplitPremier r) (iecRequired r) (iecCost r) (iecCurrency r)
    (iecCostBorneBy r) (iecSplitSupplier r) (iecSplitPremier r) (status r)
    (requestorId r) (plant r) (cmkDecision r) (ppcData r) (procurementData r)
    (storesData r) (evaluationData r) (finalCmkReview r) (auditTrail r).

Definition set_auditTrail v (r : MaterialRequest) : MaterialRequest :=
  Build_MaterialRequest
    (id r) (dateReceived r) (materialCategory r) (materialDetails r)
    (supplierName r) (quantity r) (trialAtPlant r) (purpose r)
    (bisRequired r) (bisCost r) (bisCurrency r) (bisCostBorneBy r)
    (bisSplitSupplier r) (bisSplitPremier r) (iecRequired r) (iecCost r)
    (iecCurrency r) (iecCostBorneBy r) (iecSplitSupplier r)
    (iecSplitPremier r) (status r) (requestorId r) (plant r) (cmkDecision r)
    (ppcData r) (procurementData r) (storesData r) (evaluationData r)
    (finalCmkReview r) v.

(** [{ ...r, ...u }]: the keys of [u] win. *)
Definition spread_partial (r : MaterialRequest) (u : Partial) : MaterialRequest := {|
  id := default (id r) (p_id u);
  dateReceived := default (dateReceived r) (p_dateReceived u);
  materialCategory := default (materialCategory r) (p_materialCategory u);
  materialDetails := default (materialDetails r) (p_materialDetails u);
  supplierName := default (supplierName r) (p_supplierName u);
  quantity := default (quantity r) (p_quantity u);
  trialAtPlant := default (trialAtPlant r) (p_trialAtPlant u);
  purpose := default (purpose r) (p_purpose u);
  bisRequired := default (bisRequired r) (p_bisRequired u);
  bisCost := default (bisCost r) (p_bisCost u);
  bisCurrency := default (bisCurrency r) (p_bisCurrency u);
  bisCostBorneBy := default (bisCostBorneBy r) (p_bisCostBorneBy u);
  bisSplitSupplier := default (bisSplitSupplier r) (p_bisSplitSupplier u);
  bisSplitPremier := default (bisSplitPremier r) (p_bisSplitPremier u);
  iecRequired := default (iecRequired r) (p_iecRequired u);
  iecCost := default (iecCost r) (p_iecCost u);
  iecCurrency := default (iecCurrency r) (p_iecCurrency u);
  iecCostBorneBy := default (iecCostBorneBy r) (p_iecCostBorneBy u);
  iecSplitSupplier := default (iecSplitSupplier r) (p_iecSplitSupplier u);
  iecSplitPremier := default (iecSplitPremier r) (p_iecSplitPremier u);
  status := default (status r) (p_status u);
  requestorId := default (requestorId r) (p_requestorId u);
  plant := default (plant r) (p_plant u);
  cmkDecision := default (cmkDecision r) (p_cmkDecision u);
  ppcData := default (ppcData r) (p_ppcData u);
  procurementData := default (procurementData r) (p_procurementData u);
  storesData := default (storesData r) (p_storesData u);
  evaluationData := default (evaluationData r) (p_evaluationData u);
  finalCmkReview := default (finalCmkReview r) (p_finalCmkReview u);
  auditTrail := default (auditTrail r) (p_auditTrail u)
|}.

(** [{ ...base, ...r }] for a request [r] read from local storage: its
    optional keys are there exactly when they hold a value. *)
Definition spread_request (base r : MaterialRequest) : MaterialRequest := {|
  id := id r;
  dateReceived := dateReceived r;
  materialCategory := materialCategory r;
  materialDetails := materialDetails r;
  supplierName := supplierName r;
  quantity := from_option Some (quantity base) (quantity r);
  trialAtPlant := trialAtPlant r;
  purpose := purpose r;
  bisRequired := bisRequired r;
  bisCost := from_option Some (bisCost base) (bisCost r);
  bisCurrency := from_option Some (bisCurrency base) (bisCurrency r);
  bisCostBorneBy := from_option Some (bisCostBorneBy base) (bisCostBorneBy r);
  bisSplitSupplier := from_option Some (bisSplitSupplier base) (bisSplitSupplier r);
  bisSplitPremier := from_option Some (bisSplitPremier base) (bisSplitPremier r);
  iecRequired := iecRequired r;
  iecCost := from_option Some (iecCost base) (iecCost r);
  iecCurrency := from_option Some (iecCurrency base) (iecCurrency r);
  iecCostBorneBy := from_option Some (iecCostBorneBy base) (iecCostBorneBy r);
  iecSplitSupplier := from_option Some (iecSplitSupplier base) (iecSplitSupplier r);
  iecSplitPremier := from_option Some (iecSplitPremier base) (iecSplitPremier r);
  status := status r;
  requestorId := requestorId r;
  plant := from_option Some (plant base) (plant r);
  cmkDecision := from_option Some (cmkDecision base) (cmkDecision r);
  ppcData := from_option Some (ppcData base) (ppcData r);
  procurementData := from_option Some (procurementData base) (procurementData r);
  storesData := from_option Some (storesData base) (storesData r);
  evaluationData := from_option Some (evaluationData base) (evaluationData r);
  finalCmkReview := from_option Some (finalCmkReview base) (finalCmkReview r);
  auditTrail := auditTrail r
|}.
(** A request read from local storage, seen as a partial object (the form
    data of the edit modal start from it). *)
Definition asPartial (r : MaterialRequest) : Partial := {|
  p_id := Some (id r);
  p_dateReceived := Some (dateReceived r);
  p_materialCategory := Some (materialCategory r);
  p_materialDetails := Some (materialDetails r);
  p_supplierName := Some (supplierName r);
  p_quantity := Some <$> quantity r;
  p_trialAtPlant := Some (trialAtPlant r);
  p_purpose := Some (purpose r);
  p_bisRequired := Some (bisRequired r);
  p_bisCost := Some <$> bisCost r;
  p_bisCurrency := Some <$> bisCurrency r;
  p_bisCostBorneBy := Some <$> bisCostBorneBy r;
  p_bisSplitSupplier := Some <$> bisSplitSupplier r;
  p_bisSplitPremier := Some <$> bisSplitPremier r;
  p_iecRequired := Some (iecRequired r);
  p_iecCost := Some <$> iecCost r;
  p_iecCurrency := Some <$> iecCurrency r;
  p_iecCostBorneBy := Some <$> iecCostBorneBy r;
  p_iecSplitSupplier := Some <$> iecSplitSupplier r;
  p_iecSplitPremier := Some <$> iecSplitPremier r;
  p_status := Some (status r);
  p_requestorId := Some (requestorId r);
  p_plant := Some <$> plant r;
  p_cmkDecision := Some <$> cmkDecision r;
  p_ppcData := Some <$> ppcData r;
  p_procurementData := Some <$> procurementData r;
  p_storesData := Some <$> storesData r;
  p_evaluationData := Some <$> evaluationData r;
  p_finalCmkReview := Some <$> finalCmkReview r;
  p_auditTrail := Some (auditTrail r)
|}.

(** ** storageUtils (utils/storage.ts, src/unnamed/part_001) *)

Module storageUtils.

Definition getRequests : M (list MaterialRequest) :=
  ls ← getStorage; mret (default [] (item_materialRequests ls)).

(** [localStorage.setItem(STORAGE_KEYS.REQUESTS, JSON.stringify(requests))] *)
Definition setRequests (requests : list MaterialRequest) : M unit :=
  ls ← getStorage;
  setStorage {| item_materialRequests := Some requests;
                item_appSettings := item_appSettings ls |}.

(** [requests.findIndex(r => r.id === rid)], with the element found; [None]
    is the index -1. *)
Definition findById (rid : string) (requests : list MaterialRequest)
  : option (nat * MaterialRequest) :=
  list_find (λ r, id r = rid) requests.

Definition saveRequest (request : MaterialRequest) : M unit :=
  requests ← getRequests;
  match findById (id request) requests with
  | Some (existingIndex, _) => setRequests (<[existingIndex := request]> requests)
  | None => setRequests (requests ++ [request])
  end.

Definition updateRequest (rid : string) (updates : Partial)
  : M (option MaterialRequest) :=
  requests ← getRequests;
  match findById rid requests with
  | Some (requestIndex, found) =>
      let updated := spread_partial found updates in
      setRequests (<[requestIndex := updated]> requests);;
      mret (Some updated)
  | None => mret None
  end.

Definition generateId : M string :=
  t ← dateNow; r ← random36; mret (toString t +:+ r).

Definition addAuditEntry (requestId : string) (entry : AuditEntryInput) : M unit :=
  requests ← getRequests;
  match findById requestId requests with
  | Some (_, request) =>
      t ← dateNow;
      r ← random36;
      let auditEntry := {| entry_id := toString t +:+ r;
                           action := in_action entry;
                           userId := in_userId entry;
                           timestamp := in_timestamp entry;
                           details := in_details entry |} in
      saveRequest (set_auditTrail (auditTrail request ++ [auditEntry]) request)
  | None => mret tt
  end.

Definition defaultSettings : AppSettings := {|
  materialCategories :=
    ["Cell"; "Encapsulant"; "Glass"; "Junction Box"; "Backsheet"; "Flux";
     "Sealant"; "Connector"; "FG Module"];
  purposes :=
    ["Quality Improvement"; "Alternate Vendor Development"; "Cost Reduction";
     "Performance Enhancement"]
|}.

Definition getSettings : M AppSettings :=
  ls ← getStorage; mret (default defaultSettings (item_appSettings ls)).

Definition saveSettings (settings : AppSettings) : M unit :=
  ls ← getStorage;
  setStorage {| item_materialRequests := item_materialRequests ls;
                item_appSettings := Some settings |}.

(** [settings[type]] and [settings[type].push(value)] *)
Definition dropdown (type : DropdownType) (settings : AppSettings) : list string :=
  match type with
  | dd_materialCategories => materialCategories settings
  | dd_purposes => purposes settings
  end.

Definition dropdown_push (type : DropdownType) (value : string)
    (settings : AppSettings) : AppSettings :=
  match type with
  | dd_materialCategories =>
      {| materialCategories := materialCategories settings ++ [value];
         purposes := purposes settings |}
  | dd_purposes =>
      {| materialCategories := materialCategories settings;
         purposes := purposes settings ++ [value] |}
  end.

Definition addToDropdown (type : DropdownType) (value : string) : M unit :=
  settings ← getSettings;
  if bool_decide (value ∈ dropdown type settings) then mret tt
  else saveSettings (dropdown_push type value settings).

End storageUtils.

(** ** Toasts *)

Inductive Variant := variant_default | variant_destructive.

Record Toast := {
  toast_title : string;
  toast_description : string;
  toast_variant : Variant
}.

(** What a submit handler leaves behind for the caller to see: the toast
    it raised, if any. *)
Definition Outcome := option Toast.

Definition optString (o : option string) : string := default "" o.

(** ** CMKReviewModal.handleSubmit (src/unnamed/part_004) *)

Module CMKReviewModal.

Record Form := {
  form_decision : Decision;
  form_plant : string;
  form_quantityRevised : string;
  form_reason : string
}.

Definition handleSubmit (user : option User) (request : MaterialRequest)
    (form : Form) : M Outcome :=
  let decision := form_decision form in
  let plant := form_plant form in
  let quantityRevised := form_quantityRevised form in
  let reason := form_reason form in
  let is_rejected := bool_decide (decision = decision_rejected) in
  match user with
  | None => mret None
  | Some user =>
    if is_rejected && negb (truthy (trim reason)) then
      mret (Some {| toast_title := "Reason Required";
                    toast_description := "Please provide a reason for rejection.";
                    toast_variant := variant_destructive |})
    else if (bool_decide (decision = trial) || bool_decide (decision = pilot))
            && negb (truthy plant) then
      mret (Some {| toast_title := "Plant Required";
                    toast_description := "Please select a plant for the trial/pilot.";
                    toast_variant := variant_destructive |})
    else
      now ← dateNow;
      let updatedRequest :=
        with_quantity (Some quantityRevised)
        (with_plant (if is_rejected then None else Some plant)
        (with_cmkDecision (Some {|
           cmk_decision := decision;
           cmk_reason := if is_rejected then Some reason else None;
           cmk_plant := if is_rejected then None else Some plant;
           cmk_quantityRevised :=
             if bool_decide (Some quantityRevised ≠ quantity request)
             then Some quantityRevised else None;
           approvedBy := user_id user;
           approvedAt := now |})
        (with_status (if is_rejected then rejected else pending_ppc)
         noUpdates))) in
      storageUtils.updateRequest (id request) updatedRequest;;
      now ← dateNow;
      storageUtils.addAuditEntry (id request) {|
        in_action := "CMK " +:+ (if is_rejected then "Rejected" else "Approved")
                     +:+ " Request";
        in_userId := user_id user;
        in_timestamp := now;
        in_details :=
          "Request "
          +:+ (if is_rejected then "rejected"
               else "approved for "
                    +:+ match decision with
                        | trial => "trial" | pilot => "pilot"
                        | decision_rejected => "rejected"
                        end)
          +:+ " by " +:+ name user
          +:+ (if is_rejected then "" else " at plant " +:+ plant)
          +:+ (if truthy reason then ". Reason: " +:+ reason else "") |};;
      mret (Some {|
        toast_title := "Request " +:+ (if is_rejected then "Rejected" else "Approved");
        toast_description :=
          "Material trial request has been "
          +:+ (if is_rejected then "rejected"
               else "approved for "
                    +:+ match decision with
                        | trial => "trial" | pilot => "pilot"
                        | decision_rejected => "rejected"
                        end)
          +:+ ".";
        toast_variant := variant_default |})
  end.

End CMKReviewModal.

(** ** PPCModal.handleSubmit (src/unnamed/part_003) *)

Module PPCModal.

Record Form := {
  form_prNumber : string;
  form_materialCode : string;
  form_description : string
}.

Definition handleSubmit (user : option User) (request : MaterialRequest)
    (form : Form) : M Outcome :=
  let prNumber := form_prNumber form in
  let materialCode := form_materialCode form in
  let description := form_description form in
  match user with
  | None => mret None
  | Some user =>
    if negb (truthy (trim prNumber)) || negb (truthy (trim materialCode))
       || negb (truthy (trim description)) then
      mret (Some {| toast_title := "All Fields Required";
                    toast_description := "Please fill in all PPC fields.";
                    toast_variant := variant_destructive |})
    else
      now ← dateNow;
      let updatedRequest :=
        with_ppcData (Some {|
           prNumber := trim prNumber;
           materialCode := trim materialCode;
           description := trim description;
           enteredBy := user_id user;
           enteredAt := now |})
        (with_status pending_procurement noUpdates) in
      storageUtils.updateRequest (id request) updatedRequest;;
      now ← dateNow;
      storageUtils.addAuditEntry (id request) {|
        in_action := "PPC Data Added";
        in_userId := user_id user;
        in_timestamp := now;
        in_details := "PR Number: " +:+ prNumber +:+ ", Material Code: "
                      +:+ materialCode +:+ " added by " +:+ name user |};;
      mret (Some {|
        toast_title := "PPC Data Added";
        toast_description :=
          "PR number and material code have been recorded successfully.";
        toast_variant := variant_default |})
  end.

End PPCModal.

(** ** ProcurementModal.handleSubmit (src/components/ProcurementModal.tsx) *)

Module ProcurementModal.

Inductive Action := order | deliver.

#[global] Instance Action_eq_dec : EqDecision Action.
Proof. solve_decision. Defined.

Record Form := {
  form_action : Action;
  form_orderType : string;
  form_estimatedDelivery : string;
  form_remarks : string
}.

Definition handleSubmit (user : option User) (request : MaterialRequest)
    (form : Form) : M Outcome :=
  match user with
  | None => mret None
  | Some user =>
    match form_action form with
    | order =>
      let orderType := form_orderType form in
      let estimatedDelivery := form_estimatedDelivery form in
      let remarks := form_remarks form in
      if negb (truthy orderType) || negb (truthy estimatedDelivery) then
        mret (Some {|
          toast_title := "Required Fields Missing";
          toast_description :=
            "Please select order type and estimated delivery date.";
          toast_variant := variant_destructive |})
      else
        now ← dateNow;
        let updatedRequest :=
          with_procurementData (Some {|
             orderType := Some orderType;
             estimatedDelivery := Some estimatedDelivery;
             remarks := Some remarks;
             deliveredAt := None;
             proc_updatedBy := user_id user;
             proc_updatedAt := now |})
          (with_status ordered noUpdates) in
        now ← dateNow;
        storageUtils.addAuditEntry (id request) {|
          in_action := "Material Ordered";
          in_userId := user_id user;
          in_timestamp := now;
          in_details := "Order placed via " +:+ orderType
                        +:+ ", estimated delivery: " +:+ estimatedDelivery
                        +:+ " by " +:+ name user |};;
        storageUtils.updateRequest (id request) updatedRequest;;
        mret (Some {|
          toast_title := "Order Placed";
          toast_description := "Material order has been placed successfully.";
          toast_variant := variant_default |})
    | deliver =>
        delivered_at ← dateNow;
        now ← dateNow;
        let updatedRequest :=
          with_procurementData (Some {|
             orderType := procurementData request ≫= orderType;
             estimatedDelivery := procurementData request ≫= estimatedDelivery;
             remarks := procurementData request ≫= remarks;
             deliveredAt := Some delivered_at;
             proc_updatedBy := user_id user;
             proc_updatedAt := now |})
          (with_status delivered noUpdates) in
        now ← dateNow;
        storageUtils.addAuditEntry (id request) {|
          in_action := "Material Delivered";
          in_userId := user_id user;
          in_timestamp := now;
          in_details := "Material delivered to factory by " +:+ name user |};;
        storageUtils.updateRequest (id request) updatedRequest;;
        mret (Some {|
          toast_title := "Material Delivered";
          toast_description :=
            "Material has been marked as delivered to factory.";
          toast_variant := variant_default |})
    end
  end.

End ProcurementModal.

(** ** EvaluationModal.handleSubmit (src/unnamed/part_002) *)

Module EvaluationModal.

Inductive Action := receive | submit_report (* 'report' *).

#[global] Instance Action_eq_dec : EqDecision Action.
Proof. solve_decision. Defined.

Record Form := {
  form_action : Action;
  form_received : bool;
  form_completionDate : string;
  form_report : string
}.

Definition handleSubmit (user : option User) (request : MaterialRequest)
    (form : Form) : M Outcome :=
  match user with
  | None => mret None
  | Some user =>
    match form_action form with
    | receive =>
      if negb (form_received form) then
        mret (Some {|
          toast_title := "Material Receipt Required";
          toast_description := "Please confirm material receipt.";
          toast_variant := variant_destructive |})
      else if negb (truthy (form_completionDate form)) then
        mret (Some {|
          toast_title := "Completion Date Required";
          toast_description :=
            "Please provide tentative evaluation completion date.";
          toast_variant := variant_destructive |})
      else
        now ← dateNow;
        let updatedRequest :=
          with_evaluationData (Some {|
             eval_received := true;
             completionDate := Some (form_completionDate form);
             report := Some (optString (evaluationData request ≫= report));
             eval_updatedBy := user_id user;
             eval_updatedAt := now |})
          (with_status pending_evaluation noUpdates) in
        now ← dateNow;
        storageUtils.addAuditEntry (id request) {|
          in_action := "Material Received for Evaluation";
          in_userId := user_id user;
          in_timestamp := now;
          in_details :=
            "Material received by evaluation team, completion expected: "
            +:+ form_completionDate form +:+ " by " +:+ name user |};;
        storageUtils.updateRequest (id request) updatedRequest;;
        mret (Some {|
          toast_title := "Material Received";
          toast_description :=
            "Material has been marked as received for evaluation.";
          toast_variant := variant_default |})
    | submit_report =>
      if negb (truthy (trim (form_report form))) then
        mret (Some {|
          toast_title := "Report Required";
          toast_description := "Please upload or enter the evaluation report.";
          toast_variant := variant_destructive |})
      else
        now ← dateNow;
        let updatedRequest :=
          with_evaluationData (Some {|
             eval_received := true;
             completionDate := evaluationData request ≫= completionDate;
             report := Some (form_report form);
             eval_updatedBy := user_id user;
             eval_updatedAt := now |})
          (with_status completed noUpdates) in
        now ← dateNow;
        storageUtils.addAuditEntry (id request) {|
          in_action := "Evaluation Report Submitted";
          in_userId := user_id user;
          in_timestamp := now;
          in_details := "Evaluation report submitted by " +:+ name user |};;
        storageUtils.updateRequest (id request) updatedRequest;;
        mret (Some {|
          toast_title := "Evaluation Complete";
          toast_description :=
            "Evaluation report has been submitted successfully.";
          toast_variant := variant_default |})
    end
  end.

End EvaluationModal.

(** ** StoresModal.handleSubmit (src/components/StoresModal.tsx) *)

Module StoresModal.

Record Form := {
  form_receivedBy : string;
  form_documents : list string
}.

Definition handleSubmit (user : option User) (request : MaterialRequest)
    (form : Form) : M Outcome :=
  match user with
  | None => mret None
  | Some user =>
    if negb (truthy (trim (form_receivedBy form))) then
      mret (Some {|
        toast_title := "Error";
        toast_description :=
          "Please select the person who received the material";
        toast_variant := variant_destructive |})
    else if bool_decide (length (form_documents form) = 0%nat) then
      mret (Some {|
        toast_title := "Error";
        toast_description := "Please upload at least one receiving document";
        toast_variant := variant_destructive |})
    else
      now ← dateNow;
      let updates :=
        with_storesData (Some {|
           receivedBy := Some (form_receivedBy form);
           documents := Some (form_documents form);
           stores_updatedBy := user_id user;
           stores_updatedAt := now |})
        (with_status received noUpdates) in
      updatedRequest ← storageUtils.updateRequest (id request) updates;
      match updatedRequest with
      | Some _ =>
          now ← dateNow;
          storageUtils.addAuditEntry (id request) {|
            in_action := "Material Received by Stores";
            in_userId := user_id user;
            in_timestamp := now;
            in_details :=
              "Material received by stores and handed over to "
              +:+ form_receivedBy form +:+ ". "
              +:+ toString (Z.of_nat (length (form_documents form)))
              +:+ " document(s) uploaded." |};;
          mret (Some {|
            toast_title := "Success";
            toast_description := "Material marked as received successfully";
            toast_variant := variant_default |})
      | None => mret None
      end
  end.

End StoresModal.

(** ** FinalCMKModal.handleSubmit (src/components/FinalCMKModal.tsx) *)

Module FinalCMKModal.

Record Form := {
  form_decision : FinalDecision;
  form_comments : string;
  form_reason : string
}.

Definition handleSubmit (user : option User) (request : MaterialRequest)
    (form : Form) : M Outcome :=
  let decision := form_decision form in
  let is_approved := bool_decide (decision = final_approved) in
  match user with
  | None => mret None
  | Some user =>
    if bool_decide (decision = final_rejected)
       && negb (truthy (trim (form_reason form))) then
      mret (Some {|
        toast_title := "Error";
        toast_description := "Please provide a reason for rejection";
        toast_variant := variant_destructive |})
    else
      now ← dateNow;
      let finalReview := {|
        final_decision := decision;
        final_reason := if bool_decide (decision = final_rejected)
                        then Some (form_reason form) else None;
        comments := if truthy (trim (form_comments form))
                    then Some (trim (form_comments form)) else None;
        reviewedBy := user_id user;
        reviewedAt := now |} in
      let updates :=
        with_status (if is_approved then completed else rejected)
        (with_finalCmkReview (Some finalReview) noUpdates) in
      updatedRequest ← storageUtils.updateRequest (id request) updates;
      match updatedRequest with
      | Some _ =>
          now ← dateNow;
          storageUtils.addAuditEntry (id request) {|
            in_action := "Final CMK "
                         +:+ (if is_approved then "Approval" else "Rejection");
            in_userId := user_id user;
            in_timestamp := now;
            in_details :=
              if is_approved
              then "Request finally approved by CMK"
                   +:+ (if truthy (form_comments form)
                        then " with comments: " +:+ form_comments form else "")
              else "Request rejected by CMK. Reason: " +:+ form_reason form |};;
          mret (Some {|
            toast_title := "Success";
            toast_description :=
              "Request " +:+ (if is_approved then "approved" else "rejected")
              +:+ " successfully";
            toast_variant := variant_default |})
      | None => mret None
      end
  end.

End FinalCMKModal.

(** ** RequestModal.handleSubmit (src/components/RequestModal.tsx) *)

Module RequestModal.

Inductive Mode := create | edit | view.

#[global] Instance Mode_eq_dec : EqDecision Mode.
Proof. solve_decision. Defined.

Record Form := {
  formData : Partial;
  customCategory : string;
  customPurpose : string
}.

(** The keys written out in the object literal of [requestData], before
    [...request]. *)
Definition literal (newId : string) (user : User)
    (request : option MaterialRequest) (formData : Partial) : MaterialRequest := {|
  id := newId;
  dateReceived := optString (p_dateReceived formData);
  materialCategory := optString (p_materialCategory formData);
  materialDetails := optString (p_materialDetails formData);
  supplierName := optString (p_supplierName formData);
  quantity := mjoin (p_quantity formData);
  trialAtPlant := default false (p_trialAtPlant formData);
  purpose := optString (p_purpose formData);
  bisRequired := default false (p_bisRequired formData);
  bisCost := mjoin (p_bisCost formData);
  bisCurrency := None;
  bisCostBorneBy := mjoin (p_bisCostBorneBy formData);
  bisSplitSupplier := mjoin (p_bisSplitSupplier formData);
  bisSplitPremier := mjoin (p_bisSplitPremier formData);
  iecRequired := default false (p_iecRequired formData);
  iecCost := mjoin (p_iecCost formData);
  iecCurrency := None;
  iecCostBorneBy := mjoin (p_iecCostBorneBy formData);
  iecSplitSupplier := mjoin (p_iecSplitSupplier formData);
  iecSplitPremier := mjoin (p_iecSplitPremier formData);
  status := from_option status pending_cmk request;
  requestorId := user_id user;
  plant := None;
  cmkDecision := None;
  ppcData := None;
  procurementData := None;
  storesData := None;
  evaluationData := None;
  finalCmkReview := None;
  auditTrail := from_option auditTrail [] request
|}.

Definition handleSubmit (user : option User) (request : option MaterialRequest)
    (mode : Mode) (form : Form) : M Outcome :=
  let formData := formData form in
  match user with
  | None => mret None
  | Some user =>
    (* request?.id || storageUtils.generateId() *)
    newId ← match request with
            | Some r => if truthy (id r) then mret (id r)
                        else storageUtils.generateId
            | None => storageUtils.generateId
            end;
    let requestData :=
      from_option (spread_request (literal newId user request formData))
                  (literal newId user request formData) request in
    requestData ←
      (if bool_decide (p_materialCategory formData = Some "Other")
          && truthy (customCategory form)
       then storageUtils.addToDropdown dd_materialCategories (customCategory form);;
            mret (set_materialCategory (customCategory form) requestData)
       else mret requestData);
    requestData ←
      (if bool_decide (p_purpose formData = Some "Other")
          && truthy (customPurpose form)
       then storageUtils.addToDropdown dd_purposes (customPurpose form);;
            mret (set_purpose (customPurpose form) requestData)
       else mret requestData);
    storageUtils.saveRequest requestData;;
    let action := if bool_decide (mode = create) then "Created" else "Updated" in
    now ← dateNow;
    storageUtils.addAuditEntry (id requestData) {|
      in_action := "Request " +:+ action;
      in_userId := user_id user;
      in_timestamp := now;
      in_details := "Material request " +:+ toLowerCase action
                    +:+ " by " +:+ name user |};;
    mret (Some {|
      toast_title := "Request " +:+ action;
      toast_description := "Material trial request has been "
                           +:+ toLowerCase action +:+ " successfully.";
      toast_variant := variant_default |})
  end.

End RequestModal.

(** ** Dashboard (src/pages/Dashboard.tsx)

    The dashboard holds the requests as [loadRequests] read them, lets the
    user pick a row and opens the modal that [handleView] chooses from the
    role of the user and the status of the request; the form of that modal
    is then submitted. *)

Module Dashboard.

Inductive ModalType :=
  | modal_create | modal_edit | modal_view | modal_cmk | modal_ppc
  | modal_procurement | modal_evaluation | modal_final_cmk.

#[global] Instance ModalType_eq_dec : EqDecision ModalType.
Proof. solve_decision. Defined.

Definition has_role (currentUser : option User) (r : Role) : bool :=
  bool_decide (role <$> currentUser = Some r).

Definition handleView (currentUser : option User) (request : MaterialRequest)
  : ModalType :=
  let at_status s := bool_decide (status request = s) in
  if has_role currentUser cmk && at_status pending_cmk then modal_cmk
  else if has_role currentUser cmk && at_status pending_final_cmk then modal_final_cmk
  else if has_role currentUser ppc && at_status pending_ppc then modal_ppc
  else if has_role currentUser procurement
          && (at_status pending_procurement || at_status ordered) then modal_procurement
  else if has_role currentUser evaluation
          && (at_status delivered || at_status pending_evaluation) then modal_evaluation
  else modal_view.

(** The form that a stage modal submits: the state of the modal at the time.
    The procurement and the evaluation modal render the item of one action
    for each status, but their state [action] starts at ['order'] and
    ['receive'] and is kept from one opening to the next; the handler reads
    that state, so that either action can be submitted on either status. *)
Inductive Submission :=
  | SubmitCMK (form : CMKReviewModal.Form)
  | SubmitPPC (form : PPCModal.Form)
  | SubmitProcurement (form : ProcurementModal.Form)
  | SubmitEvaluation (form : EvaluationModal.Form)
  | SubmitFinalCMK (form : FinalCMKModal.Form).

(** What a user does on the dashboard: create a request, edit the request
    of a row, or view the request of a row and submit the modal it opens. *)
Inductive Event :=
  | Create (form : RequestModal.Form)
  | Edit (row : nat) (form : RequestModal.Form)
  | View (row : nat) (submission : Submission).

Definition submitView (currentUser : option User) (request : MaterialRequest)
    (submission : Submission) : M Outcome :=
  match handleView currentUser request, submission with
  | modal_cmk, SubmitCMK form =>
      CMKReviewModal.handleSubmit currentUser request form
  | modal_final_cmk, SubmitFinalCMK form =>
      FinalCMKModal.handleSubmit currentUser request form
  | modal_ppc, SubmitPPC form =>
      PPCModal.handleSubmit currentUser request form
  | modal_procurement, SubmitProcurement form =>
      ProcurementModal.handleSubmit currentUser request form
  | modal_evaluation, SubmitEvaluation form =>
      EvaluationModal.handleSubmit currentUser request form
  | _, _ => mret None (* this modal is not the one that is open *)
  end.

Definition step (currentUser : option User) (event : Event) : M Outcome :=
  requests ← storageUtils.getRequests;
  match event with
  | Create form =>
      if has_role currentUser requestor
      then RequestModal.handleSubmit currentUser None RequestModal.create form
      else mret None
  | Edit row form =>
      match requests !! row with
      | Some request =>
          if has_role currentUser requestor
          then RequestModal.handleSubmit currentUser (Some request)
                 RequestModal.edit form
          else mret None
      | None => mret None
      end
  | View row submission =>
      match requests !! row with
      | Some request => submitView currentUser request submission
      | None => mret None
      end
  end.

(** A session: the events of successive users, with the toasts raised. *)
Fixpoint run (events : list (option User * Event)) : M (list Outcome) :=
  match events with
  | [] => mret []
  | (currentUser, event) :: rest =>
      outcome ← step currentUser event;
      outcomes ← run rest;
      mret (outcome :: outcomes)
  end.

End Dashboard.

(** * Observations and auxiliary notions *)

(** ** What a world holds *)

(** The requests that [getRequests] reads in a world. *)
Definition requestsOf (w : World) : list MaterialRequest :=
  default [] (item_materialRequests (localStorage w)).

(** The settings that [getSettings] reads in a world. *)
Definition settingsOf (w : World) : AppSettings :=
  default storageUtils.defaultSettings (item_appSettings (localStorage w)).

(** [storageUtils.getRequests().find(r => r.id === rid)] *)
Definition getRequest (rid : string) (w : World) : option MaterialRequest :=
  snd <$> storageUtils.findById rid (requestsOf w).

(** The world after [setRequests l]. *)
Definition putRequests (l : list MaterialRequest) (w : World) : World :=
  {| localStorage := {| item_materialRequests := Some l;
                        item_appSettings := item_appSettings (localStorage w) |};
     clock := clock w; elapsed := elapsed w; entropy := entropy w |}.

(** The world after a reading of the clock, and after a random draw. *)
Definition tick (w : World) : World := exec dateNow w.
Definition draw (w : World) : World := exec random36 w.

(** From this world on the clock does not step back: no amount of time
    that elapses before a reading to come is negative. *)
Definition steady (w : World) : Prop := Forall (λ d, 0 ≤ d) (elapsed w).

(** The entry that [addAuditEntry] builds in a world. *)
Definition newEntry (w : World) (entry : AuditEntryInput) : AuditEntry :=
  {| entry_id := eval storageUtils.generateId w;
     action := in_action entry; userId := in_userId entry;
     timestamp := in_timestamp entry; details := in_details entry |}.

(** ** What a handler does *)

(** A handler went through: it raised a toast that is not destructive. *)
Definition accepted (outcome : Outcome) : Prop :=
  ∃ t, outcome = Some t ∧ toast_variant t = variant_default.

(** Nothing went through: the world is as it was. *)
Definition unchanged (w : World) (res : Outcome * World) : Prop :=
  res.2 = w ∧ ¬ accepted res.1.

(** A handler went through on the request [r] stored at index [i]: the
    request is replaced where it stands by one of the same id, at the
    status [target], with one audit entry more; the entry is stamped within
    the run as far as the clock does not step back. *)
Definition stage_commit (w : World) (i : nat) (r : MaterialRequest)
    (target : Status) (res : Outcome * World) : Prop :=
  ∃ t r' e,
    res.1 = Some t ∧ toast_variant t = variant_default ∧
    requestsOf res.2 = <[i:=r']> (requestsOf w) ∧
    id r' = id r ∧ status r' = target ∧
    auditTrail r' = auditTrail r ++ [e] ∧
    (steady w →
     clock w ≤ timestamp e ∧ timestamp e ≤ clock res.2 ∧ steady res.2).

(** A handler either changes nothing or goes through to one of [targets]. *)
Definition stage_effect (w : World) (i : nat) (r : MaterialRequest)
    (targets : list Status) (res : Outcome * World) : Prop :=
  unchanged w res ∨ ∃ s, s ∈ targets ∧ stage_commit w i r s res.

(** The request that [RequestModal.handleSubmit] saves. *)
Definition requestData (newId : string) (user : User)
    (request : option MaterialRequest) (form : RequestModal.Form) : MaterialRequest :=
  let formData := RequestModal.formData form in
  let lit := RequestModal.literal newId user request formData in
  let rd0 := from_option (spread_request lit) lit request in
  let rd1 :=
    if bool_decide (p_materialCategory formData = Some "Other")
       && truthy (RequestModal.customCategory form)
    then set_materialCategory (RequestModal.customCategory form) rd0 else rd0 in
  if bool_decide (p_purpose formData = Some "Other")
     && truthy (RequestModal.customPurpose form)
  then set_purpose (RequestModal.customPurpose form) rd1 else rd1.

(** The stored list after [saveRequest request]. *)
Definition saved (request : MaterialRequest) (l : list MaterialRequest)
  : list MaterialRequest :=
  match storageUtils.findById (id request) l with
  | Some (i, _) => <[i:=request]> l
  | None => l ++ [request]
  end.

(** The toast of [RequestModal.handleSubmit]. *)
Definition request_toast (mode : RequestModal.Mode) : Toast :=
  let action := if bool_decide (mode = RequestModal.create)
                then "Created" else "Updated" in
  {| toast_title := "Request " +:+ action;
     toast_description := "Material trial request has been "
                          +:+ toLowerCase action +:+ " successfully.";
     toast_variant := variant_default |}.

(** ** Sessions of the dashboard *)

(** The moves of a request through the dashboard: who moves it from which
    status to which. The procurement and the evaluation modal run either
    of their actions on either of their statuses. *)
Inductive lifecycle : Role → Status → Status → Prop :=
  | lifecycle_edit s : lifecycle requestor s s
  | lifecycle_approve : lifecycle cmk pending_cmk pending_ppc
  | lifecycle_reject : lifecycle cmk pending_cmk rejected
  | lifecycle_ppc : lifecycle ppc pending_ppc pending_procurement
  | lifecycle_order : lifecycle procurement pending_procurement ordered
  | lifecycle_order_again : lifecycle procurement ordered ordered
  | lifecycle_deliver : lifecycle procurement ordered delivered
  | lifecycle_deliver_unordered :
      lifecycle procurement pending_procurement delivered
  | lifecycle_receive : lifecycle evaluation delivered pending_evaluation
  | lifecycle_receive_again :
      lifecycle evaluation pending_evaluation pending_evaluation
  | lifecycle_report : lifecycle evaluation pending_evaluation completed
  | lifecycle_report_unreceived : lifecycle evaluation delivered completed
  | lifecycle_final_approve : lifecycle cmk pending_final_cmk completed
  | lifecycle_final_reject : lifecycle cmk pending_final_cmk rejected.

(** The id that [generateId] draws for a new request is not in use. *)
Definition fresh_id (w : World) (event : Dashboard.Event) : Prop :=
  match event with
  | Dashboard.Create _ =>
      eval storageUtils.generateId w ∉ id <$> requestsOf w
  | _ => True
  end.

(** The worlds of a session that starts without stored requests. *)
Inductive reachable : World → Prop :=
  | reachable_start w :
      item_materialRequests (localStorage w) = None → reachable w
  | reachable_step w currentUser event :
      reachable w → fresh_id w event →
      reachable (exec (Dashboard.step currentUser event) w).


(** A handler that turns the submission down: a destructive toast, and the
    world as it was. *)
Definition refused (w : World) (res : Outcome * World) : Prop :=
  res.2 = w ∧ ∃ t, res.1 = Some t ∧ toast_variant t = variant_destructive.

(** ** Texts of toasts *)

(** [hay.includes(needle)] *)
Fixpoint includes (needle hay : string) : bool :=
  String.prefix needle hay
  || match hay with
     | String _ hay' => includes needle hay'
     | EmptyString => false
     end.

(** The toast of [PPCModal.handleSubmit] when a field is missing. *)
Definition ppc_toast_required : Toast :=
  {| toast_title := "All Fields Required";
     toast_description := "Please fill in all PPC fields.";
     toast_variant := variant_destructive |}.

(** ** Commands and the statuses they are offered in *)

(** The status that a command starts from on the screen: the status that
    [handleView] asks for, and within the procurement and evaluation modals
    the status for which the item of the action is rendered. *)
Definition source_status (submission : Dashboard.Submission) : Status :=
  match submission with
  | Dashboard.SubmitCMK _ => pending_cmk
  | Dashboard.SubmitPPC _ => pending_ppc
  | Dashboard.SubmitProcurement form =>
      match ProcurementModal.form_action form with
      | ProcurementModal.order => pending_procurement
      | ProcurementModal.deliver => ordered
      end
  | Dashboard.SubmitEvaluation form =>
      match EvaluationModal.form_action form with
      | EvaluationModal.receive => delivered
      | EvaluationModal.submit_report => pending_evaluation
      end
  | Dashboard.SubmitFinalCMK _ => pending_final_cmk
  end.

(** The modal that submits a form. *)
Definition modal_of (submission : Dashboard.Submission) : Dashboard.ModalType :=
  match submission with
  | Dashboard.SubmitCMK _ => Dashboard.modal_cmk
  | Dashboard.SubmitPPC _ => Dashboard.modal_ppc
  | Dashboard.SubmitProcurement _ => Dashboard.modal_procurement
  | Dashboard.SubmitEvaluation _ => Dashboard.modal_evaluation
  | Dashboard.SubmitFinalCMK _ => Dashboard.modal_final_cmk
  end.

(** The role that owns a stage modal, and the statuses of the stage. *)
Definition stage_role (submission : Dashboard.Submission) : Role :=
  match submission with
  | Dashboard.SubmitCMK _ | Dashboard.SubmitFinalCMK _ => cmk
  | Dashboard.SubmitPPC _ => ppc
  | Dashboard.SubmitProcurement _ => procurement
  | Dashboard.SubmitEvaluation _ => evaluation
  end.

Definition stage_statuses (submission : Dashboard.Submission) : list Status :=
  match submission with
  | Dashboard.SubmitCMK _ => [pending_cmk]
  | Dashboard.SubmitPPC _ => [pending_ppc]
  | Dashboard.SubmitProcurement _ => [pending_procurement; ordered]
  | Dashboard.SubmitEvaluation _ => [delivered; pending_evaluation]
  | Dashboard.SubmitFinalCMK _ => [pending_final_cmk]
  end.

(** The request of a row stands at a status with a number of audit entries. *)
Definition at_stage (w : World) (row : nat) (s : Status) (n : nat) : Prop :=
  NoDup (id <$> requestsOf w)
  ∧ ∃ r, requestsOf w !! row = Some r ∧ status r = s
         ∧ length (auditTrail r) = n.

(** ** A session to try the statements on *)

(** An empty store, a clock and what the environment will supply. *)
Definition example_start : World := {|
  localStorage := {| item_materialRequests := None; item_appSettings := None |};
  clock := 1700000000000;
  elapsed := [5; 1; 2; 3; 4; 5; 6; 7; 8; 9; 10; 11; 12; 13; 14; 15; 16; 17;
              18; 19; 20; 21; 22; 23; 24; 25; 26; 27; 28; 29; 30];
  entropy := ["k3j2h1g0f"; "a8s7d6f5g"; "q1w2e3r4t"; "z9x8c7v6b"; "m5n4b3v2c";
              "p0o9i8u7y"; "l1k2j3h4g"; "t6r5e4w3q"; "y7u8i9o0p"; "b2n3m4l5k"]
|}.

Definition example_user (n : string) (r : Role) (who : string) : User :=
  {| user_id := n; username := who; password := who; role := r; name := who |}.

(** The users that [AuthContext] sets up. *)
Definition praful := example_user "1" requestor "Praful Kumar".
Definition chandramauli := example_user "2" cmk "Chandramauli Kumar".
Definition ppc_team := example_user "3" ppc "PPC Team".
Definition procurement_team := example_user "4" procurement "Procurement Team".
Definition evaluation_team := example_user "6" evaluation "Evaluation Team".

Definition example_form : RequestModal.Form := {|
  RequestModal.formData :=
    with_purpose "Cost Reduction"
      (with_supplierName "Acme Solar"
         (with_materialDetails "Cell M10, model X1"
            (with_materialCategory "Cell"
               (with_dateReceived "2024-01-15" noUpdates))));
  RequestModal.customCategory := "";
  RequestModal.customPurpose := ""
|}.

Definition example_approve : CMKReviewModal.Form := {|
  CMKReviewModal.form_decision := trial;
  CMKReviewModal.form_plant := "P2";
  CMKReviewModal.form_quantityRevised := "";
  CMKReviewModal.form_reason := ""
|}.

Definition example_reject : CMKReviewModal.Form := {|
  CMKReviewModal.form_decision := decision_rejected;
  CMKReviewModal.form_plant := "";
  CMKReviewModal.form_quantityRevised := "";
  CMKReviewModal.form_reason := "Spec mismatch"
|}.

Definition example_ppc : PPCModal.Form := {|
  PPCModal.form_prNumber := "PR1";
  PPCModal.form_materialCode := "M1";
  PPCModal.form_description := "d"
|}.

Definition example_order : ProcurementModal.Form := {|
  ProcurementModal.form_action := ProcurementModal.order;
  ProcurementModal.form_orderType := "air";
  ProcurementModal.form_estimatedDelivery := "2024-02-20";
  ProcurementModal.form_remarks := ""
|}.

Definition example_deliver : ProcurementModal.Form := {|
  ProcurementModal.form_action := ProcurementModal.deliver;
  ProcurementModal.form_orderType := "air";
  ProcurementModal.form_estimatedDelivery := "2024-02-20";
  ProcurementModal.form_remarks := ""
|}.

(** The worlds along the way of one request. *)
Definition example_created : World :=
  exec (Dashboard.step (Some praful) (Dashboard.Create example_form)) example_start.
Definition example_approved : World :=
  exec (Dashboard.step (Some chandramauli)
          (Dashboard.View 0 (Dashboard.SubmitCMK example_approve))) example_created.
Definition example_planned : World :=
  exec (Dashboard.step (Some ppc_team)
          (Dashboard.View 0 (Dashboard.SubmitPPC example_ppc))) example_approved.
Definition example_ordered : World :=
  exec (Dashboard.step (Some procurement_team)
          (Dashboard.View 0 (Dashboard.SubmitProcurement example_order)))
       example_planned.
Definition example_delivered : World :=
  exec (Dashboard.step (Some procurement_team)
          (Dashboard.View 0 (Dashboard.SubmitProcurement example_deliver)))
       example_ordered.

(** The request of a row, for a row that is there. *)
Definition row_of (w : World) (row : nat) : MaterialRequest :=
  default (RequestModal.literal "" praful None noUpdates) (requestsOf w !! row).

(** A store that holds the request in wait of the final review, and the
    form that turns it down. *)
Definition example_awaiting_final : World :=
  putRequests
    [spread_partial (row_of example_delivered 0)
       (with_status pending_final_cmk noUpdates)]
    example_delivered.

Definition example_final_reject : FinalCMKModal.Form := {|
  FinalCMKModal.form_decision := final_rejected;
  FinalCMKModal.form_comments := "";
  FinalCMKModal.form_reason := "Trial failed"
|}.

(** The edit form of a request with another supplier typed in. *)
Definition example_edit (r : MaterialRequest) : RequestModal.Form := {|
  RequestModal.formData := with_supplierName "Borealis Glass" (asPartial r);
  RequestModal.customCategory := "";
  RequestModal.customPurpose := ""
|}.

(** ** What the stages leave alone *)

(** The fields that the requestor fills in, with the requestor. *)
Definition intake (r : MaterialRequest) :=
  (dateReceived r, materialCategory r, materialDetails r, supplierName r,
   trialAtPlant r, purpose r,
   (bisRequired r, bisCost r, bisCurrency r, bisCostBorneBy r,
    bisSplitSupplier r, bisSplitPremier r),
   (iecRequired r, iecCost r, iecCurrency r, iecCostBorneBy r,
    iecSplitSupplier r, iecSplitPremier r),
   requestorId r).

(** What the review of CMK decides on. *)
Definition cmk_part (r : MaterialRequest) :=
  (quantity r, plant r, cmkDecision r).

(** ** The statuses of a session *)

(** The statuses that the handlers of the dashboard write, with the one that
    a new request starts in. *)
Definition session_status : list Status :=
  [pending_cmk; pending_ppc; rejected; pending_procurement; ordered;
   delivered; pending_evaluation; completed].

(** ** More of the session to try the statements on *)

(** The world in which CMK has turned the request down. *)
Definition example_rejected : World :=
  exec (Dashboard.step (Some chandramauli)
          (Dashboard.View 0 (Dashboard.SubmitCMK example_reject))) example_created.

(** ** The work that waits for a user *)

(** [getPendingCount] of the dashboard (src/pages/Dashboard.tsx): the
    number after 'Pending for you'. *)
Definition getPendingCount (currentUser : option User)
    (requests : list MaterialRequest) : nat :=
  match currentUser with
  | None => 0
  | Some currentUser =>
    match role currentUser with
    | cmk =>
        length (filter (λ r, status r = pending_cmk
                             ∨ status r = pending_final_cmk) requests)
    | ppc => length (filter (λ r, status r = pending_ppc) requests)
    | procurement =>
        length (filter (λ r, status r = pending_procurement
                             ∨ status r = ordered) requests)
    | evaluation =>
        length (filter (λ r, status r = delivered
                             ∨ status r = pending_evaluation) requests)
    | _ => 0
    end
  end%nat.

Module DataTable.

(** [isPendingForUser] (src/components/DataTable.tsx): the rows that the
    table rings and lists under the pending tab; [userRole] is
    [currentUser?.role]. *)
Definition isPendingForUser (request : MaterialRequest) (userRole : option Role)
  : bool :=
  match userRole with
  | Some cmk =>
      bool_decide (status request = pending_cmk)
      || bool_decide (status request = pending_final_cmk)
  | Some ppc => bool_decide (status request = pending_ppc)
  | Some procurement => bool_decide (status request = pending_procurement)
  | Some evaluation => bool_decide (status request = pending_evaluation)
  | _ => false
  end.

End DataTable.

(** ** AuthContext (src/contexts/AuthContext.tsx) *)

Module AuthContext.

Definition defaultUsers : list User := [
  {| user_id := "1"; username := "praful"; password := "praful";
     role := requestor; name := "Praful Kumar" |};
  {| user_id := "2"; username := "cmk"; password := "cmk";
     role := cmk; name := "Chandramauli Kumar" |};
  {| user_id := "3"; username := "ppc"; password := "ppc";
     role := ppc; name := "PPC Team" |};
  {| user_id := "4"; username := "proc"; password := "proc";
     role := procurement; name := "Procurement Team" |};
  {| user_id := "5"; username := "stores"; password := "stores";
     role := stores; name := "Stores Team" |};
  {| user_id := "6"; username := "eval"; password := "eval";
     role := evaluation; name := "Evaluation Team" |};
  {| user_id := "7"; username := "aarnav"; password := "aarnav";
     role := admin; name := "Aarnav Admin" |} ].

(** What the provider works on: the items 'users' and 'currentUser' of local
    storage, and its state [user]. *)
Record Auth := {
  item_users : option (list User);
  item_currentUser : option User;
  auth_user : option User
}.

(** The effect that runs when the provider mounts. *)
Definition initialize (a : Auth) : Auth := {|
  item_users := Some (default defaultUsers (item_users a));
  item_currentUser := item_currentUser a;
  auth_user := match item_currentUser a with
               | Some savedUser => Some savedUser
               | None => auth_user a
               end
|}.

Definition login (username' password' : string) (a : Auth) : bool * Auth :=
  let users := default [] (item_users a) in
  match list_find (λ u, username u = username' ∧ password u = password') users with
  | Some (_, foundUser) =>
      (true, {| item_users := item_users a;
                item_currentUser := Some foundUser;
                auth_user := Some foundUser |})
  | None => (false, a)
  end.

Definition logout (a : Auth) : Auth :=
  {| item_users := item_users a; item_currentUser := None; auth_user := None |}.

Definition isAuthenticated (a : Auth) : bool := bool_decide (is_Some (auth_user a)).

End AuthContext.

(** ** UserManagement (src/pages/UserManagement.tsx) *)

Module UserManagement.

Record Form := {
  form_username : string;
  form_password : string;
  form_name : string;
  form_role : Role
}.

(** [{ ...u, ...formData }] *)
Definition spread_form (u : User) (formData : Form) : User :=
  {| user_id := user_id u;
     username := form_username formData;
     password := form_password formData;
     role := form_role formData;
     name := form_name formData |}.

(** The handlers work on the state [users], which [saveUsers] writes to the
    item 'users' as well; they give the toast raised and the users after. *)
Definition handleDeleteUser (currentUser : option User) (users : list User)
    (userId : string) : Toast * list User :=
  if bool_decide (Some userId = user_id <$> currentUser) then
    ({| toast_title := "Cannot Delete";
        toast_description := "You cannot delete your own account.";
        toast_variant := variant_destructive |}, users)
  else
    ({| toast_title := "User Deleted";
        toast_description := "User has been deleted successfully.";
        toast_variant := variant_default |},
     filter (λ u, user_id u ≠ userId) users).

Definition handleSubmit (users : list User) (editingUser : option User)
    (formData : Form) : M (Toast * list User) :=
  if negb (truthy (form_username formData))
     || negb (truthy (form_password formData))
     || negb (truthy (form_name formData)) then
    mret ({| toast_title := "Missing Fields";
             toast_description := "Please fill in all required fields.";
             toast_variant := variant_destructive |}, users)
  else
    match list_find (λ u, username u = form_username formData
                          ∧ Some (user_id u) ≠ user_id <$> editingUser) users with
    | Some _ =>
        mret ({| toast_title := "Username Exists";
                 toast_description := "This username is already taken.";
                 toast_variant := variant_destructive |}, users)
    | None =>
        match editingUser with
        | Some editingUser =>
            mret ({| toast_title := "User Updated";
                     toast_description := "User has been updated successfully.";
                     toast_variant := variant_default |},
                  (λ u, if bool_decide (user_id u = user_id editingUser)
                        then spread_form u formData else u) <$> users)
        | None =>
            now ← dateNow;
            mret ({| toast_title := "User Created";
                     toast_description :=
                       "New user has been created successfully.";
                     toast_variant := variant_default |},
                  users ++ [{| user_id := toString now;
                               username := form_username formData;
                               password := form_password formData;
                               role := form_role formData;
                               name := form_name formData |}])
        end
    end.

(** The counts of the cards, one for each role that is listed. *)
Definition getRoleStats (users : list User) : list (Role * nat) :=
  (λ r, (r, length (filter (λ u, role u = r) users)))
  <$> [requestor; cmk; ppc; procurement; evaluation; admin].

End UserManagement.

(** ** Analytics (src/pages/Analytics.tsx) *)

Module Analytics.

(** [requests.filter(r => r.status === s).length] *)
Definition count (s : Status) (requests : list MaterialRequest) : nat :=
  length (filter (λ r, status r = s) requests).

Definition totalRequests (requests : list MaterialRequest) : nat :=
  length requests.
Definition completedRequests := count completed.
Definition rejectedRequests := count rejected.

Definition pendingRequests (requests : list MaterialRequest) : Z :=
  Z.of_nat (totalRequests requests) - Z.of_nat (completedRequests requests)
  - Z.of_nat (rejectedRequests requests).

(** The slices of the status chart: name and value, without the empty
    ones. *)
Definition statusData (requests : list MaterialRequest) : list (string * nat) :=
  filter (λ item, (0 < item.2)%nat)
    [ ("Pending CMK", count pending_cmk requests);
      ("Pending PPC", count pending_ppc requests);
      ("Pending Procurement", count pending_procurement requests);
      ("Ordered", count ordered requests);
      ("Delivered", count delivered requests);
      ("Pending Evaluation", count pending_evaluation requests);
      ("Completed", completedRequests requests);
      ("Rejected", rejectedRequests requests) ].

End Analytics.

(** ** What local storage gives back as it is *)

(** A number that [JSON.stringify] writes and [JSON.parse] reads back as it
    is: not [NaN], not infinite (both are written as [null]) and not the
    negative zero (written as [0]). *)
Definition json_number (x : number) : bool :=
  PrimFloat.is_finite x && negb (PrimFloat.is_zero x && PrimFloat.get_sign x).

(** A request whose numbers are all so. *)
Definition json_exact (r : MaterialRequest) : Prop :=
  Forall (λ o : option number, from_option json_number true o = true)
    [bisCost r; bisSplitSupplier r; bisSplitPremier r;
     iecCost r; iecSplitSupplier r; iecSplitPremier r].

(** * Proofs *)

(** ** Finding a request by its id *)

Lemma findById_Some rid l i r :
  storageUtils.findById rid l = Some (i, r) → l !! i = Some r ∧ id r = rid.
Proof. intros H. apply list_find_Some in H. tauto. Qed.

Lemma findById_None rid l :
  storageUtils.findById rid l = None ↔ rid ∉ id <$> l.
Proof.
  unfold storageUtils.findById. rewrite list_find_None, Forall_forall.
  rewrite list_elem_of_fmap. split.
  - intros H (r & -> & Hr). by apply (H r).
  - intros H r Hr ?. apply H. eauto.
Qed.

Lemma findById_insert rid l i r r' :
  storageUtils.findById rid l = Some (i, r) → id r' = rid →
  storageUtils.findById rid (<[i:=r']> l) = Some (i, r').
Proof.
  intros H Hid. apply list_find_Some in H as (Hi & _ & Hlt).
  apply list_find_Some. split_and!; [|done|].
  - apply list_lookup_insert_eq. by eapply lookup_lt_Some.
  - intros j y Hj Hji. rewrite list_lookup_insert_ne in Hj by lia. eauto.
Qed.

Lemma ids_insert (l : list MaterialRequest) (i : nat) r r' :
  l !! i = Some r → id r' = id r → id <$> <[i:=r']> l = id <$> l.
Proof.
  intros Hi Hid. rewrite list_fmap_insert, Hid.
  apply list_insert_id. by rewrite list_lookup_fmap, Hi.
Qed.

(** ** Running the storage functions *)

Lemma mbind_run {A B} (m : M A) (f : A → M B) w a w' res :
  m w = (a, w') → f a w' = res → (m ≫= f) w = res.
Proof. unfold mbind, M_bind. by intros -> <-. Qed.

Lemma mbind_run_pred {A B} (m : M A) (f : A → M B) w a w'
    (P : B * World → Prop) :
  m w = (a, w') → P (f a w') → P ((m ≫= f) w).
Proof. unfold mbind, M_bind. by intros ->. Qed.

Ltac unfold_storage :=
  cbv [mbind M_bind mret M_ret getStorage setStorage
       storageUtils.getRequests storageUtils.setRequests].

Lemma saveRequest_run request w :
  storageUtils.saveRequest request w =
  (tt, putRequests
         match storageUtils.findById (id request) (requestsOf w) with
         | Some (i, _) => <[i:=request]> (requestsOf w)
         | None => requestsOf w ++ [request]
         end w).
Proof.
  unfold storageUtils.saveRequest.
  unfold_storage.
  fold (requestsOf w).
  destruct (storageUtils.findById _ _) as [[i r]|]; reflexivity.
Qed.

Lemma requestsOf_put l w : requestsOf (putRequests l w) = l.
Proof. reflexivity. Qed.

Lemma updateRequest_found rid updates w i r :
  storageUtils.findById rid (requestsOf w) = Some (i, r) →
  storageUtils.updateRequest rid updates w =
  (Some (spread_partial r updates),
   putRequests (<[i:=spread_partial r updates]> (requestsOf w)) w).
Proof.
  intros H. unfold storageUtils.updateRequest.
  unfold_storage.
  fold (requestsOf w). rewrite H. reflexivity.
Qed.

Lemma addAuditEntry_found rid entry w i r :
  storageUtils.findById rid (requestsOf w) = Some (i, r) → id r = rid →
  storageUtils.addAuditEntry rid entry w =
  (tt, putRequests
         (<[i:=set_auditTrail (auditTrail r ++ [newEntry w entry]) r]>
            (requestsOf w))
         (draw (tick w))).
Proof.
  intros H Hid. unfold storageUtils.addAuditEntry.
  cbv [mbind M_bind mret M_ret getStorage storageUtils.getRequests].
  fold (requestsOf w). rewrite H.
  cbv [dateNow random36]. rewrite saveRequest_run.
  unfold requestsOf at 1. cbn [localStorage]. fold (requestsOf w).
  assert (id (set_auditTrail (auditTrail r ++ [newEntry w entry]) r) = rid)
    as Hid' by exact Hid.
  unfold newEntry, eval, storageUtils.generateId in *.
  cbv [mbind M_bind mret M_ret dateNow random36 fst] in *.
  cbn [clock elapsed entropy] in *.
  rewrite Hid', H. reflexivity.
Qed.

Lemma dateNow_run w : dateNow w = (eval dateNow w, tick w).
Proof. reflexivity. Qed.

Lemma mret_run {A} (a : A) (w : World) : (mret a : M A) w = (a, w).
Proof. reflexivity. Qed.

Lemma truthy_true s : truthy s = true ↔ s ≠ "".
Proof. unfold truthy. by rewrite bool_decide_eq_true. Qed.

(** ** The clock *)

Lemma steady_tl (l : list Z) n :
  Forall (λ d, 0 ≤ d) l → Forall (λ d, 0 ≤ d) (Nat.iter n tl l).
Proof.
  intros Hl. induction n as [|n IH]; [done|].
  change (Nat.iter (S n) tl l) with (tl (Nat.iter n tl l)).
  destruct IH; [constructor|done].
Qed.

Lemma steady_hd w n : steady w → 0 ≤ hd 0 (Nat.iter n tl (elapsed w)).
Proof.
  intros Hw. destruct (steady_tl _ n Hw); [done|]. by cbn.
Qed.

Lemma steady_tick w : steady w → steady (tick w).
Proof. intros Hw. apply (steady_tl _ 1 Hw). Qed.

(** The readings of a run in a world whose clock is steady ([Hsteady]):
    what is left is arithmetic on the amounts that elapse. *)
Ltac clock_lia Hsteady :=
  pose proof (steady_hd _ 0 Hsteady);
  pose proof (steady_hd _ 1 Hsteady);
  pose proof (steady_hd _ 2 Hsteady);
  pose proof (steady_hd _ 3 Hsteady);
  pose proof (steady_hd _ 4 Hsteady);
  pose proof (steady_hd _ 5 Hsteady);
  cbn in *; lia.

Ltac steady_after Hsteady :=
  first [ exact Hsteady
        | exact (steady_tl _ 1 Hsteady)
        | exact (steady_tl _ 2 Hsteady)
        | exact (steady_tl _ 3 Hsteady)
        | exact (steady_tl _ 4 Hsteady)
        | exact (steady_tl _ 5 Hsteady)
        | exact (steady_tl _ 6 Hsteady) ].

(** ** The handlers of the stages *)

(** One bind of a run: [tac] runs its first half. *)
Ltac mstep tac := eapply mbind_run; [tac | cbv beta].

(** One step of a handler that has passed its guards, on a world where the
    request is found ([Hfind]) under the id of the snapshot ([Hid]). *)
Ltac handler_step Hfind Hid :=
  first
    [ mstep ltac:(apply dateNow_run)
    | mstep ltac:(eapply updateRequest_found;
                  first [ exact Hfind
                        | eapply findById_insert; [exact Hfind | exact Hid] ])
    | mstep ltac:(eapply addAuditEntry_found;
                  [ first [ exact Hfind
                          | eapply findById_insert; [exact Hfind | exact Hid] ]
                  | exact Hid ]) ].

Ltac run_handler Hfind Hid :=
  repeat handler_step Hfind Hid; apply mret_run.

Lemma requestsOf_tick w : requestsOf (tick w) = requestsOf w.
Proof. reflexivity. Qed.
Lemma requestsOf_draw w : requestsOf (draw w) = requestsOf w.
Proof. reflexivity. Qed.
Lemma insert_insert_request (l : list MaterialRequest) i r1 r2 :
  <[i:=r2]> (<[i:=r1]> l) = <[i:=r2]> l.
Proof. apply list_insert_insert_eq. Qed.

Create Rewrite HintDb world.
#[local] Hint Rewrite requestsOf_put requestsOf_tick requestsOf_draw
  insert_insert_request : world.

(** After the run of a handler ([Hrun], the last equation in the context):
    the parts of [stage_commit], read off the world that the run ends in. *)
Ltac finish_commit :=
  unfold stage_commit;
  match goal with H : _ = _ |- _ => rewrite H; clear H end;
  cbn [fst snd];
  eexists _, _, _; split_and!;
  [ reflexivity | reflexivity
  | autorewrite with world; reflexivity
  | reflexivity | reflexivity | reflexivity
  | let Hsteady := fresh "Hsteady" in
    intros Hsteady; split_and!;
    [ clock_lia Hsteady | clock_lia Hsteady | steady_after Hsteady ] ].

(** A run that ends where it started without a toast of success. *)
Ltac unchanged_world :=
  split;
  [ reflexivity
  | intros (t & Ht & Hv); cbn in Ht;
    first [ discriminate Ht | injection Ht as <-; discriminate Hv ] ].

Ltac start_commit Hfind Hid :=
  intros Hfind;
  pose proof (findById_Some _ _ _ _ Hfind) as [_ Hid].

Lemma CMK_commit user request form w i r :
  storageUtils.findById (id request) (requestsOf w) = Some (i, r) →
  bool_decide (CMKReviewModal.form_decision form = decision_rejected)
    && negb (truthy (trim (CMKReviewModal.form_reason form))) = false →
  (bool_decide (CMKReviewModal.form_decision form = trial)
   || bool_decide (CMKReviewModal.form_decision form = pilot))
    && negb (truthy (CMKReviewModal.form_plant form)) = false →
  stage_commit w i r
    (if bool_decide (CMKReviewModal.form_decision form = decision_rejected)
     then rejected else pending_ppc)
    (CMKReviewModal.handleSubmit (Some user) request form w).
Proof.
  start_commit Hfind Hid. intros G1 G2.
  eassert (CMKReviewModal.handleSubmit (Some user) request form w = _) as Hrun.
  { unfold CMKReviewModal.handleSubmit. cbv zeta. rewrite G1, G2.
    run_handler Hfind Hid. }
  finish_commit.
Qed.

Lemma CMK_effect user request form w i r :
  storageUtils.findById (id request) (requestsOf w) = Some (i, r) →
  stage_effect w i r [rejected; pending_ppc]
    (CMKReviewModal.handleSubmit user request form w).
Proof.
  intros Hfind. destruct user as [user|]; [|left; unchanged_world].
  destruct (bool_decide (CMKReviewModal.form_decision form = decision_rejected)
            && negb (truthy (trim (CMKReviewModal.form_reason form)))) eqn:G1.
  { left. unfold CMKReviewModal.handleSubmit. cbv zeta. rewrite G1.
    unchanged_world. }
  destruct ((bool_decide (CMKReviewModal.form_decision form = trial)
             || bool_decide (CMKReviewModal.form_decision form = pilot))
            && negb (truthy (CMKReviewModal.form_plant form))) eqn:G2.
  { left. unfold CMKReviewModal.handleSubmit. cbv zeta. rewrite G1, G2.
    unchanged_world. }
  right. eexists. split.
  2: { by apply CMK_commit. }
  clear. destruct (bool_decide _); repeat constructor.
Qed.

Lemma PPC_commit user request form w i r :
  storageUtils.findById (id request) (requestsOf w) = Some (i, r) →
  negb (truthy (trim (PPCModal.form_prNumber form)))
    || negb (truthy (trim (PPCModal.form_materialCode form)))
    || negb (truthy (trim (PPCModal.form_description form))) = false →
  stage_commit w i r pending_procurement
    (PPCModal.handleSubmit (Some user) request form w).
Proof.
  start_commit Hfind Hid. intros G1.
  eassert (PPCModal.handleSubmit (Some user) request form w = _) as Hrun.
  { unfold PPCModal.handleSubmit. cbv zeta. rewrite G1.
    run_handler Hfind Hid. }
  finish_commit.
Qed.

Lemma PPC_effect user request form w i r :
  storageUtils.findById (id request) (requestsOf w) = Some (i, r) →
  stage_effect w i r [pending_procurement]
    (PPCModal.handleSubmit user request form w).
Proof.
  intros Hfind. destruct user as [user|]; [|left; unchanged_world].
  destruct (negb (truthy (trim (PPCModal.form_prNumber form)))
    || negb (truthy (trim (PPCModal.form_materialCode form)))
    || negb (truthy (trim (PPCModal.form_description form)))) eqn:G1.
  { left. unfold PPCModal.handleSubmit. cbv zeta. rewrite G1.
    unchanged_world. }
  right. eexists. split.
  2: { by apply PPC_commit. }
  repeat constructor.
Qed.

Lemma order_commit user request form w i r :
  storageUtils.findById (id request) (requestsOf w) = Some (i, r) →
  ProcurementModal.form_action form = ProcurementModal.order →
  negb (truthy (ProcurementModal.form_orderType form))
    || negb (truthy (ProcurementModal.form_estimatedDelivery form)) = false →
  stage_commit w i r ordered
    (ProcurementModal.handleSubmit (Some user) request form w).
Proof.
  start_commit Hfind Hid. intros Ha G1.
  eassert (ProcurementModal.handleSubmit (Some user) request form w = _) as Hrun.
  { unfold ProcurementModal.handleSubmit. rewrite Ha. cbv zeta. rewrite G1.
    run_handler Hfind Hid. }
  finish_commit.
Qed.

Lemma deliver_commit user request form w i r :
  storageUtils.findById (id request) (requestsOf w) = Some (i, r) →
  ProcurementModal.form_action form = ProcurementModal.deliver →
  stage_commit w i r delivered
    (ProcurementModal.handleSubmit (Some user) request form w).
Proof.
  start_commit Hfind Hid. intros Ha.
  eassert (ProcurementModal.handleSubmit (Some user) request form w = _) as Hrun.
  { unfold ProcurementModal.handleSubmit. rewrite Ha.
    run_handler Hfind Hid. }
  finish_commit.
Qed.

Lemma procurement_effect user request form w i r :
  storageUtils.findById (id request) (requestsOf w) = Some (i, r) →
  stage_effect w i r
    (match ProcurementModal.form_action form with
     | ProcurementModal.order => [ordered]
     | ProcurementModal.deliver => [delivered]
     end)
    (ProcurementModal.handleSubmit user request form w).
Proof.
  intros Hfind. destruct user as [user|]; [|left; unchanged_world].
  destruct (ProcurementModal.form_action form) eqn:Ha.
  - destruct (negb (truthy (ProcurementModal.form_orderType form))
      || negb (truthy (ProcurementModal.form_estimatedDelivery form))) eqn:G1.
    { left. unfold ProcurementModal.handleSubmit. rewrite Ha. cbv zeta.
      rewrite G1. unchanged_world. }
    right. eexists. split.
  2: { by apply order_commit. }
  repeat constructor.
  - right. eexists. split.
  2: { by apply deliver_commit. }
  repeat constructor.
Qed.

Lemma receive_commit user request form w i r :
  storageUtils.findById (id request) (requestsOf w) = Some (i, r) →
  EvaluationModal.form_action form = EvaluationModal.receive →
  EvaluationModal.form_received form = true →
  truthy (EvaluationModal.form_completionDate form) = true →
  stage_commit w i r pending_evaluation
    (EvaluationModal.handleSubmit (Some user) request form w).
Proof.
  start_commit Hfind Hid. intros Ha G1 G2.
  eassert (EvaluationModal.handleSubmit (Some user) request form w = _) as Hrun.
  { unfold EvaluationModal.handleSubmit. rewrite Ha, G1, G2. cbn [negb].
    run_handler Hfind Hid. }
  finish_commit.
Qed.

Lemma report_commit user request form w i r :
  storageUtils.findById (id request) (requestsOf w) = Some (i, r) →
  EvaluationModal.form_action form = EvaluationModal.submit_report →
  truthy (trim (EvaluationModal.form_report form)) = true →
  stage_commit w i r completed
    (EvaluationModal.handleSubmit (Some user) request form w).
Proof.
  start_commit Hfind Hid. intros Ha G1.
  eassert (EvaluationModal.handleSubmit (Some user) request form w = _) as Hrun.
  { unfold EvaluationModal.handleSubmit. rewrite Ha, G1. cbn [negb].
    run_handler Hfind Hid. }
  finish_commit.
Qed.

Lemma evaluation_effect user request form w i r :
  storageUtils.findById (id request) (requestsOf w) = Some (i, r) →
  stage_effect w i r
    (match EvaluationModal.form_action form with
     | EvaluationModal.receive => [pending_evaluation]
     | EvaluationModal.submit_report => [completed]
     end)
    (EvaluationModal.handleSubmit user request form w).
Proof.
  intros Hfind. destruct user as [user|]; [|left; unchanged_world].
  destruct (EvaluationModal.form_action form) eqn:Ha.
  - destruct (EvaluationModal.form_received form) eqn:G1; cycle 1.
    { left. unfold EvaluationModal.handleSubmit. rewrite Ha, G1.
    unchanged_world. }
    destruct (truthy (EvaluationModal.form_completionDate form)) eqn:G2; cycle 1.
    { left. unfold EvaluationModal.handleSubmit. rewrite Ha, G1, G2.
    unchanged_world. }
    right. eexists. split.
  2: { by apply receive_commit. }
  repeat constructor.
  - destruct (truthy (trim (EvaluationModal.form_report form))) eqn:G1; cycle 1.
    { left. unfold EvaluationModal.handleSubmit. rewrite Ha, G1.
    unchanged_world. }
    right. eexists. split.
  2: { by apply report_commit. }
  repeat constructor.
Qed.

Lemma final_commit user request form w i r :
  storageUtils.findById (id request) (requestsOf w) = Some (i, r) →
  bool_decide (FinalCMKModal.form_decision form = final_rejected)
    && negb (truthy (trim (FinalCMKModal.form_reason form))) = false →
  stage_commit w i r
    (if bool_decide (FinalCMKModal.form_decision form = final_approved)
     then completed else rejected)
    (FinalCMKModal.handleSubmit (Some user) request form w).
Proof.
  start_commit Hfind Hid. intros G1.
  eassert (FinalCMKModal.handleSubmit (Some user) request form w = _) as Hrun.
  { unfold FinalCMKModal.handleSubmit. cbv zeta. rewrite G1.
    run_handler Hfind Hid. }
  finish_commit.
Qed.

Lemma final_effect user request form w i r :
  storageUtils.findById (id request) (requestsOf w) = Some (i, r) →
  stage_effect w i r [completed; rejected]
    (FinalCMKModal.handleSubmit user request form w).
Proof.
  intros Hfind. destruct user as [user|]; [|left; unchanged_world].
  destruct (bool_decide (FinalCMKModal.form_decision form = final_rejected)
            && negb (truthy (trim (FinalCMKModal.form_reason form)))) eqn:G1.
  { left. unfold FinalCMKModal.handleSubmit. cbv zeta. rewrite G1.
    unchanged_world. }
  right. eexists. split.
  2: { by apply final_commit. }
  clear. destruct (bool_decide _); repeat constructor.
Qed.

Lemma stores_commit user request form w i r :
  storageUtils.findById (id request) (requestsOf w) = Some (i, r) →
  truthy (trim (StoresModal.form_receivedBy form)) = true →
  bool_decide (length (StoresModal.form_documents form) = 0%nat) = false →
  stage_commit w i r received
    (StoresModal.handleSubmit (Some user) request form w).
Proof.
  start_commit Hfind Hid. intros G1 G2.
  eassert (StoresModal.handleSubmit (Some user) request form w = _) as Hrun.
  { unfold StoresModal.handleSubmit. rewrite G1, G2. cbn [negb].
    run_handler Hfind Hid. }
  finish_commit.
Qed.

(** ** The request modal *)

Lemma run_exec {A} (m : M A) w : m w = (eval m w, exec m w).
Proof. apply surjective_pairing. Qed.

Lemma findById_app_fresh rid (l : list MaterialRequest) r :
  storageUtils.findById rid l = None → id r = rid →
  storageUtils.findById rid (l ++ [r]) = Some (length l, r).
Proof.
  intros Hnone Hid. apply list_find_Some. split_and!; [|done|].
  - by rewrite lookup_app_r, Nat.sub_diag.
  - intros j y Hj Hlt. rewrite lookup_app_l in Hj by done.
    unfold storageUtils.findById in Hnone.
    rewrite list_find_None, Forall_forall in Hnone.
    apply Hnone. by eapply list_elem_of_lookup_2.
Qed.

Lemma findById_saved request l :
  ∃ j, storageUtils.findById (id request) (saved request l) = Some (j, request)
       ∧ ∀ r', id r' = id request → <[j:=r']> (saved request l) = saved r' l.
Proof.
  unfold saved. destruct (storageUtils.findById (id request) l) as [[i r]|] eqn:H.
  - exists i. split; [by eapply findById_insert|].
    intros r' Hid. rewrite Hid, H. apply list_insert_insert_eq.
  - exists (length l). split; [by apply findById_app_fresh|].
    intros r' Hid. rewrite Hid, H.
    rewrite insert_app_r_alt, Nat.sub_diag by done. done.
Qed.

Lemma addToDropdown_requests type value w :
  requestsOf (exec (storageUtils.addToDropdown type value) w) = requestsOf w
  ∧ clock (exec (storageUtils.addToDropdown type value) w) = clock w.
Proof.
  unfold exec, storageUtils.addToDropdown.
  cbv [mbind M_bind mret M_ret getStorage storageUtils.getSettings].
  case_bool_decide; done.
Qed.

Lemma addToDropdown_elapsed type value w :
  elapsed (exec (storageUtils.addToDropdown type value) w) = elapsed w.
Proof.
  unfold exec, storageUtils.addToDropdown.
  cbv [mbind M_bind mret M_ret getStorage storageUtils.getSettings].
  case_bool_decide; done.
Qed.

Lemma generateId_requests w :
  requestsOf (exec storageUtils.generateId w) = requestsOf w
  ∧ (steady w → clock w ≤ clock (exec storageUtils.generateId w)
                ∧ steady (exec storageUtils.generateId w)).
Proof.
  split; [done|]. intros Hsteady. split; [|exact (steady_tl _ 1 Hsteady)].
  pose proof (steady_hd _ 0 Hsteady).
  unfold exec, storageUtils.generateId.
  cbv [mbind M_bind mret M_ret dateNow random36]. cbn in *. lia.
Qed.

Lemma RequestModal_run user request mode form w :
  ∃ newId e w',
    (request = None → newId = eval storageUtils.generateId w) ∧
    RequestModal.handleSubmit (Some user) request mode form w
      = (Some (request_toast mode), w') ∧
    requestsOf w' =
      saved (set_auditTrail
               (auditTrail (requestData newId user request form) ++ [e])
               (requestData newId user request form))
            (requestsOf w) ∧
    action e = "Request " +:+ (if bool_decide (mode = RequestModal.create)
                               then "Created" else "Updated") ∧
    userId e = user_id user ∧
    (steady w → clock w ≤ timestamp e ∧ timestamp e ≤ clock w' ∧ steady w').
Proof.
  set (idm := match request with
              | Some r => if truthy (id r) then mret (id r)
                          else storageUtils.generateId
              | None => storageUtils.generateId
              end : M string).
  assert (requestsOf (exec idm w) = requestsOf w
          ∧ (steady w → clock w ≤ clock (exec idm w) ∧ steady (exec idm w)))
    as [Hr1 Hc1].
  { subst idm. destruct request as [r|]; [destruct (truthy (id r))|];
      first [apply generateId_requests | split; [done|]; intros ?; by split]. }
  set (newId := eval idm w). set (w1 := exec idm w) in *.
  set (c1 := bool_decide (p_materialCategory (RequestModal.formData form) = Some "Other")
             && truthy (RequestModal.customCategory form)).
  set (c2 := bool_decide (p_purpose (RequestModal.formData form) = Some "Other")
             && truthy (RequestModal.customPurpose form)).
  set (w2 := if c1 then exec (storageUtils.addToDropdown dd_materialCategories
                                (RequestModal.customCategory form)) w1 else w1).
  set (w3 := if c2 then exec (storageUtils.addToDropdown dd_purposes
                                (RequestModal.customPurpose form)) w2 else w2).
  assert (requestsOf w3 = requestsOf w
          ∧ (steady w → clock w ≤ clock w3 ∧ steady w3)) as [Hr3 Hc3].
  { subst w3 w2. unfold steady in *. destruct c1, c2;
      repeat match goal with
             | |- context [exec (storageUtils.addToDropdown ?t ?v) ?x] =>
                 rewrite (addToDropdown_elapsed t v x);
                 destruct (addToDropdown_requests t v x) as [-> ->]
             end; done. }
  set (rd := requestData newId user request form).
  destruct (findById_saved rd (requestsOf w)) as (j & Hj & Hins).
  eexists newId, _, _. split.
  { intros Hreq. unfold newId, idm. rewrite Hreq. reflexivity. }
  split.
  { unfold RequestModal.handleSubmit. cbv zeta.
    mstep ltac:(apply (run_exec idm)). fold newId w1.
    eapply (mbind_run _ _ _
              (if c1 then set_materialCategory (RequestModal.customCategory form)
                            (from_option
                               (spread_request
                                  (RequestModal.literal newId user request
                                     (RequestModal.formData form)))
                               (RequestModal.literal newId user request
                                  (RequestModal.formData form)) request)
               else _) w2).
    { fold c1. subst w2. destruct c1; [|reflexivity].
      mstep ltac:(apply run_exec). reflexivity. }
    eapply (mbind_run _ _ _ rd w3).
    { fold c2. subst w3 rd. unfold requestData. cbv zeta. fold c1 c2.
      destruct c2; [|reflexivity].
      mstep ltac:(apply run_exec). reflexivity. }
    mstep ltac:(apply saveRequest_run).
    mstep ltac:(apply dateNow_run).
    mstep ltac:(eapply addAuditEntry_found; [|reflexivity]).
    { autorewrite with world. rewrite Hr3. exact Hj. }
    apply mret_run. }
  split_and!.
  - autorewrite with world. rewrite Hr3. fold (saved rd (requestsOf w)).
    apply Hins. reflexivity.
  - reflexivity.
  - reflexivity.
  - intros Hsteady. destruct (Hc3 Hsteady) as [Hclock Hsteady3].
    split_and!; [clock_lia Hsteady3|clock_lia Hsteady3|steady_after Hsteady3].
Qed.

(** ** The dashboard *)

Lemma findById_NoDup (l : list MaterialRequest) row r :
  NoDup (id <$> l) → l !! row = Some r →
  storageUtils.findById (id r) l = Some (row, r).
Proof.
  intros Hnd Hrow. apply list_find_Some. split_and!; [done..|].
  intros j y Hj Hlt Hid.
  assert (j = row); [|lia].
  eapply NoDup_lookup; [exact Hnd| |].
  - by rewrite list_lookup_fmap, Hj.
  - by rewrite list_lookup_fmap, Hrow, Hid.
Qed.

Lemma has_role_true currentUser r :
  Dashboard.has_role currentUser r = true →
  ∃ u, currentUser = Some u ∧ role u = r.
Proof.
  unfold Dashboard.has_role. rewrite bool_decide_eq_true.
  destruct currentUser as [u|]; [|done]. cbn. intros [= <-]. eauto.
Qed.

Lemma handleView_spec currentUser request :
  match Dashboard.handleView currentUser request with
  | Dashboard.modal_cmk =>
      Dashboard.has_role currentUser cmk = true ∧ status request = pending_cmk
  | Dashboard.modal_final_cmk =>
      Dashboard.has_role currentUser cmk = true
      ∧ status request = pending_final_cmk
  | Dashboard.modal_ppc =>
      Dashboard.has_role currentUser ppc = true ∧ status request = pending_ppc
  | Dashboard.modal_procurement =>
      Dashboard.has_role currentUser procurement = true
      ∧ (status request = pending_procurement ∨ status request = ordered)
  | Dashboard.modal_evaluation =>
      Dashboard.has_role currentUser evaluation = true
      ∧ (status request = delivered ∨ status request = pending_evaluation)
  | Dashboard.modal_view => True
  | Dashboard.modal_create | Dashboard.modal_edit => False
  end.
Proof.
  unfold Dashboard.handleView. cbv zeta.
  repeat match goal with
         | |- context [if ?c then _ else _] => destruct c eqn:?
         end; try done;
  repeat match goal with
         | H : _ && _ = true |- _ => apply andb_true_iff in H as [? ?]
         | H : _ || _ = true |- _ => apply orb_true_iff in H as [?|?]
         | H : bool_decide _ = true |- _ => apply bool_decide_eq_true in H
         end; auto.
Qed.

Lemma requestData_edit newId user r form :
  let rd := requestData newId user (Some r) form in
  id rd = id r ∧ status rd = status r ∧ auditTrail rd = auditTrail r
  ∧ plant rd = plant r ∧ cmkDecision rd = cmkDecision r
  ∧ ppcData rd = ppcData r ∧ procurementData rd = procurementData r
  ∧ storesData rd = storesData r ∧ evaluationData rd = evaluationData r
  ∧ finalCmkReview rd = finalCmkReview r.
Proof.
  unfold requestData. cbv zeta.
  repeat match goal with
         | |- context [if ?c then _ else _] => destruct c
         end; cbn; split_and!; try reflexivity;
  match goal with |- from_option Some None ?o = _ => by destruct o end.
Qed.

Lemma requestData_create newId user form :
  let rd := requestData newId user None form in
  id rd = newId ∧ status rd = pending_cmk ∧ auditTrail rd = [].
Proof.
  unfold requestData. cbv zeta.
  repeat match goal with
         | |- context [if ?c then _ else _] => destruct c
         end; cbn; done.
Qed.

(** What one event of the dashboard does to the stored requests. *)
Lemma step_effect currentUser event w :
  NoDup (id <$> requestsOf w) → fresh_id w event →
  let res := Dashboard.step currentUser event w in
  unchanged w res
  ∨ ((∃ r' e,
        accepted res.1 ∧
        requestsOf res.2 = requestsOf w ++ [r'] ∧
        (id r' ∉ id <$> requestsOf w) ∧ status r' = pending_cmk ∧
        auditTrail r' = [e] ∧
        (steady w →
         clock w ≤ timestamp e ∧ timestamp e ≤ clock res.2 ∧ steady res.2))
     ∨ (∃ row r u s,
          requestsOf w !! row = Some r ∧ currentUser = Some u ∧
          lifecycle (role u) (status r) s ∧ stage_commit w row r s res)).
Proof.
  intros Hnd Hfresh res. subst res.
  unfold Dashboard.step.
  eapply (mbind_run_pred _ _ _ (requestsOf w) w); [reflexivity|].
  destruct event as [form|row form|row submission].
  - (* Create *)
    destruct (Dashboard.has_role currentUser requestor) eqn:Hrole;
      [|left; unchanged_world].
    apply has_role_true in Hrole as (u & -> & Hu).
    destruct (RequestModal_run u None RequestModal.create form w)
      as (newId & e & w' & Hnew & Hrun & Hreq & _ & _ & Hclock).
    specialize (Hnew eq_refl). rewrite Hrun. cbn [fst snd].
    destruct (requestData_create newId u form) as (Hid & Hst & Htr).
    right; left. eexists _, e. split_and!.
    + by eexists.
    + rewrite Hreq. unfold saved. cbn [fresh_id] in Hfresh.
      replace (storageUtils.findById _ _) with (@None (nat * MaterialRequest));
        [reflexivity|].
      symmetry. apply findById_None. cbn. by rewrite Hid, Hnew.
    + cbn. by rewrite Hid, Hnew.
    + cbn. exact Hst.
    + cbn. by rewrite Htr.
    + exact Hclock.
  - (* Edit *)
    destruct (requestsOf w !! row) as [r|] eqn:Hrow; [|left; unchanged_world].
    destruct (Dashboard.has_role currentUser requestor) eqn:Hrole;
      [|left; unchanged_world].
    apply has_role_true in Hrole as (u & -> & Hu).
    destruct (RequestModal_run u (Some r) RequestModal.edit form w)
      as (newId & e & w' & _ & Hrun & Hreq & _ & _ & Hclock).
    destruct (requestData_edit newId u r form) as (Hid & Hst & Htr & _).
    right; right. exists row, r, u, (status r). split_and!; [done..| |].
    { rewrite Hu. constructor. }
    rewrite Hrun. eexists _, _, e. cbn [fst snd]. split_and!.
    + reflexivity.
    + reflexivity.
    + rewrite Hreq. unfold saved. cbn [id set_auditTrail]. rewrite Hid.
      by rewrite (findById_NoDup _ _ _ Hnd Hrow).
    + exact Hid.
    + exact Hst.
    + cbn. by rewrite Htr.
    + exact Hclock.
  - (* View *)
    destruct (requestsOf w !! row) as [r|] eqn:Hrow; [|left; unchanged_world].
    pose proof (findById_NoDup _ _ _ Hnd Hrow) as Hfind.
    pose proof (handleView_spec currentUser r) as Hview.
    unfold Dashboard.submitView.
    destruct (Dashboard.handleView currentUser r), submission as [f|f|f|f|f];
      try (left; unchanged_world); try done; destruct Hview as [Hrole Hst];
      apply has_role_true in Hrole as (u & -> & Hu).
    + destruct (CMK_effect (Some u) r f w row r Hfind) as [?|(s & Hs & Hc)];
        [by left|]. right; right. exists row, r, u, s. split_and!; [done..| |done].
      rewrite Hu, Hst. apply list_elem_of_In in Hs. cbn in Hs.
      destruct Hs as [<-|[<-|[]]]; constructor.
    + destruct (PPC_effect (Some u) r f w row r Hfind) as [?|(s & Hs & Hc)];
        [by left|]. right; right. exists row, r, u, s. split_and!; [done..| |done].
      rewrite Hu, Hst. apply list_elem_of_In in Hs. cbn in Hs.
      destruct Hs as [<-|[]]; constructor.
    + destruct (procurement_effect (Some u) r f w row r Hfind)
        as [?|(s & Hs & Hc)]; [by left|].
      right; right. exists row, r, u, s. split_and!; [done..| |done].
      rewrite Hu.
      destruct (ProcurementModal.form_action f);
        apply list_elem_of_In in Hs; cbn in Hs; destruct Hs as [<-|[]];
        destruct Hst as [-> | ->]; constructor.
    + destruct (evaluation_effect (Some u) r f w row r Hfind)
        as [?|(s & Hs & Hc)]; [by left|].
      right; right. exists row, r, u, s. split_and!; [done..| |done].
      rewrite Hu.
      destruct (EvaluationModal.form_action f);
        apply list_elem_of_In in Hs; cbn in Hs; destruct Hs as [<-|[]];
        destruct Hst as [-> | ->]; constructor.
    + destruct (final_effect (Some u) r f w row r Hfind) as [?|(s & Hs & Hc)];
        [by left|]. right; right. exists row, r, u, s. split_and!; [done..| |done].
      rewrite Hu, Hst. apply list_elem_of_In in Hs. cbn in Hs.
      destruct Hs as [<-|[<-|[]]]; constructor.
Qed.


Lemma elem_of_insert_inv (l : list MaterialRequest) i r' x :
  x ∈ <[i:=r']> l → x = r' ∨ x ∈ l.
Proof.
  intros (j & Hj)%list_elem_of_lookup_1.
  apply list_lookup_insert_Some in Hj as [(-> & -> & _)|(_ & Hj)]; [by left|].
  right. by eapply list_elem_of_lookup_2.
Qed.

(** An event keeps the ids of the stored requests distinct. *)
Lemma step_keeps_ids currentUser event w :
  NoDup (id <$> requestsOf w) → fresh_id w event →
  NoDup (id <$> requestsOf (exec (Dashboard.step currentUser event) w)).
Proof.
  intros Hnd Hfresh. unfold exec.
  destruct (step_effect currentUser event w Hnd Hfresh)
    as [[Hsame _]|[(r' & e & _ & Hreq & Hid & _)
                  |(row & r & u & s & Hrow & _ & _ & Hcommit)]].
  - by rewrite Hsame.
  - rewrite Hreq, fmap_app. apply NoDup_app. split_and!; [done| |].
    + intros x Hx [->|[]%not_elem_of_nil]%elem_of_cons. done.
    + apply NoDup_singleton.
  - destruct Hcommit as (t & r' & e & _ & _ & Hreq & Hid & _).
    rewrite Hreq. by erewrite ids_insert.
Qed.


(** In a session the ids stay distinct. *)
Lemma reachable_NoDup w : reachable w → NoDup (id <$> requestsOf w).
Proof.
  induction 1 as [w H|w currentUser event Hreach Hnd Hfresh].
  - unfold requestsOf. rewrite H. constructor.
  - by apply step_keeps_ids.
Qed.

(** ** One view after the other *)

Lemma step_view currentUser row submission w r :
  requestsOf w !! row = Some r →
  Dashboard.step currentUser (Dashboard.View row submission) w
  = Dashboard.submitView currentUser r submission w.
Proof.
  intros Hrow. unfold Dashboard.step.
  eapply (mbind_run _ _ _ (requestsOf w) w); [reflexivity|]. by rewrite Hrow.
Qed.

Lemma view_commit w u row submission s s' n :
  at_stage w row s n →
  (∀ r, requestsOf w !! row = Some r → status r = s →
        storageUtils.findById (id r) (requestsOf w) = Some (row, r) →
        stage_commit w row r s' (Dashboard.submitView (Some u) r submission w)) →
  let res := Dashboard.step (Some u) (Dashboard.View row submission) w in
  accepted res.1 ∧ at_stage res.2 row s' (S n).
Proof.
  intros [Hnd (r & Hrow & Hst & Hlen)] Hcommit. cbv zeta.
  rewrite (step_view _ _ _ _ _ Hrow).
  destruct (Hcommit r Hrow Hst (findById_NoDup _ _ _ Hnd Hrow))
    as (t & r' & e & Ht & Hv & Hreq & Hid & Hst' & Htr & _).
  split; [by exists t|]. unfold at_stage. split.
  - rewrite Hreq. by erewrite ids_insert.
  - exists r'. rewrite Hreq. split_and!; [|done|].
    + apply list_lookup_insert_eq. by eapply lookup_lt_Some.
    + rewrite Htr, length_app. cbn. lia.
Qed.

(** The modal that [handleView] opens for a user of the role that owns the
    status ([Hrole], [Hst]). *)
Ltac open_modal Hst Hrole :=
  repeat match goal with x := _ : Dashboard.Submission |- _ => subst x end;
  unfold Dashboard.submitView, Dashboard.handleView, Dashboard.has_role;
  cbn [fmap option_fmap option_map]; rewrite Hst, Hrole;
  repeat first [ rewrite bool_decide_true by done
               | rewrite bool_decide_false by done ];
  cbn [andb orb].

Lemma run_cons currentUser event rest w :
  Dashboard.run ((currentUser, event) :: rest) w
  = ((Dashboard.step currentUser event w).1
       :: (Dashboard.run rest (Dashboard.step currentUser event w).2).1,
     (Dashboard.run rest (Dashboard.step currentUser event w).2).2).
Proof.
  cbn [Dashboard.run]. unfold mbind, M_bind.
  destruct (Dashboard.step currentUser event w) as [o w1]. cbn [fst snd].
  destruct (Dashboard.run rest w1) as [os w2]. reflexivity.
Qed.

Lemma create_commit w u form :
  NoDup (id <$> requestsOf w) → fresh_id w (Dashboard.Create form) →
  role u = requestor →
  let res := Dashboard.step (Some u) (Dashboard.Create form) w in
  accepted res.1 ∧ at_stage res.2 (length (requestsOf w)) pending_cmk 1.
Proof.
  intros Hnd Hfresh Hrole. cbv zeta. unfold Dashboard.step.
  eapply (mbind_run_pred _ _ _ (requestsOf w) w); [reflexivity|].
  unfold Dashboard.has_role. cbn [fmap option_fmap option_map].
  rewrite Hrole, bool_decide_true by done.
  destruct (RequestModal_run u None RequestModal.create form w)
    as (newId & e & w' & Hnew & Hrun & Hreq & _).
  specialize (Hnew eq_refl).
  destruct (requestData_create newId u form) as (Hid & Hst & Htr).
  rewrite Hrun. cbn [fst snd]. split; [by eexists|].
  assert (storageUtils.findById newId (requestsOf w) = None) as Hnone.
  { apply findById_None. by rewrite Hnew. }
  unfold at_stage. rewrite Hreq. unfold saved. cbn [id set_auditTrail].
  rewrite Hid, Hnone. split.
  - rewrite fmap_app. apply NoDup_app. split_and!; [done| |apply NoDup_singleton].
    intros x Hx [->|[]%not_elem_of_nil]%elem_of_cons. cbn in Hx.
    apply findById_None in Hnone. by rewrite Hid in Hx.
  - eexists. split_and!.
    + by rewrite lookup_app_r, Nat.sub_diag.
    + exact Hst.
    + cbn. by rewrite Htr.
Qed.

(** * The claims *)

(** ** C1: the decision of CMK *)

(** C1. For a stored request in status [pending_cmk], the CMK decide command
    with decision rejected needs a reason that is not empty once trimmed,
    and moves the request to [rejected]; with decision trial or pilot it
    needs a plant and moves the request to [pending_ppc]. On success the
    [cmkDecision] block is written, stamped with the user ([approvedBy]) and
    the time of the decision ([approvedAt], the first reading of the clock
    in the run, which lies within the run when the clock does not step
    back), the plant of the request is set on approval, and one audit entry
    is appended. When a guard fails, the world (status, stage data, audit
    trail) is unchanged. *)
Theorem cmk_decide user request form w i r :
  storageUtils.findById (id request) (requestsOf w) = Some (i, r) →
  status r = pending_cmk →
  let res := CMKReviewModal.handleSubmit (Some user) request form w in
  let decision := CMKReviewModal.form_decision form in
  let is_rejected := bool_decide (decision = decision_rejected) in
  let guard_fails :=
    if is_rejected then bool_decide (trim (CMKReviewModal.form_reason form) = "")
    else bool_decide (CMKReviewModal.form_plant form = "") in
  if guard_fails then refused w res
  else
    ∃ r' e t block,
      res.1 = Some t ∧ toast_variant t = variant_default ∧
      requestsOf res.2 = <[i:=r']> (requestsOf w) ∧
      id r' = id r ∧
      status r' = (if is_rejected then rejected else pending_ppc) ∧
      cmkDecision r' = Some block ∧
      cmk_decision block = decision ∧
      cmk_reason block =
        (if is_rejected then Some (CMKReviewModal.form_reason form) else None) ∧
      approvedBy block = user_id user ∧
      approvedAt block = eval dateNow w ∧
      (steady w →
       clock w ≤ approvedAt block ∧ approvedAt block ≤ clock res.2) ∧
      plant r' =
        (if is_rejected then None else Some (CMKReviewModal.form_plant form)) ∧
      auditTrail r' = auditTrail r ++ [e] ∧ userId e = user_id user.
Proof.
  intros Hfind _. cbv zeta.
  pose proof (findById_Some _ _ _ _ Hfind) as [_ Hid].
  assert (∀ s, truthy s = negb (bool_decide (s = ""))) as Htruthy.
  { intros s. unfold truthy. by repeat case_bool_decide. }
  destruct (bool_decide (CMKReviewModal.form_decision form = decision_rejected))
    eqn:Hrej.
  - destruct (bool_decide (trim (CMKReviewModal.form_reason form) = "")) eqn:G.
    + unfold refused, CMKReviewModal.handleSubmit. cbv zeta.
      rewrite Hrej, Htruthy, G. cbn. eauto.
    + eassert (CMKReviewModal.handleSubmit (Some user) request form w = _) as Hrun.
      { unfold CMKReviewModal.handleSubmit. cbv zeta.
        apply bool_decide_eq_true in Hrej as Hd.
        rewrite Htruthy, G, Hd. cbn [bool_decide decide_rel andb orb negb].
        change (bool_decide (decision_rejected = decision_rejected)) with true.
        change (bool_decide (decision_rejected = trial)) with false.
        change (bool_decide (decision_rejected = pilot)) with false.
        cbn [andb orb negb].
        run_handler Hfind Hid. }
      rewrite Hrun. clear Hrun. cbn [fst snd].
      eexists _, _, _, _. split_and!.
      3: { autorewrite with world. reflexivity. }
      all: try reflexivity.
      * cbn. by apply bool_decide_eq_true in Hrej.
      * intros Hsteady. split; clock_lia Hsteady.
  - assert ((bool_decide (CMKReviewModal.form_decision form = trial)
             || bool_decide (CMKReviewModal.form_decision form = pilot)) = true)
      as Happrove.
    { apply bool_decide_eq_false in Hrej.
      destruct (CMKReviewModal.form_decision form); done. }
    destruct (bool_decide (CMKReviewModal.form_plant form = "")) eqn:G.
    + unfold refused, CMKReviewModal.handleSubmit. cbv zeta.
      rewrite Hrej, Happrove, (Htruthy (CMKReviewModal.form_plant form)), G.
      cbn. eauto.
    + eassert (CMKReviewModal.handleSubmit (Some user) request form w = _) as Hrun.
      { unfold CMKReviewModal.handleSubmit. cbv zeta.
        rewrite Hrej, Happrove, (Htruthy (CMKReviewModal.form_plant form)), G.
        cbn [andb orb negb].
        run_handler Hfind Hid. }
      rewrite Hrun. clear Hrun. cbn [fst snd].
      eexists _, _, _, _. split_and!.
      3: { autorewrite with world. reflexivity. }
      all: try reflexivity.
      intros Hsteady. split; clock_lia Hsteady.
Qed.

Lemma cmk_decide_witness :
  storageUtils.findById (id (row_of example_created 0)) (requestsOf example_created)
    = Some (0%nat, row_of example_created 0)
  ∧ status (row_of example_created 0) = pending_cmk
  ∧ let res := CMKReviewModal.handleSubmit (Some chandramauli)
                 (row_of example_created 0) example_approve example_created in
    ∃ r' e t block,
      res.1 = Some t ∧ toast_variant t = variant_default ∧
      requestsOf res.2 = <[0%nat:=r']> (requestsOf example_created) ∧
      id r' = id (row_of example_created 0) ∧
      status r' = pending_ppc ∧
      cmkDecision r' = Some block ∧
      cmk_decision block = trial ∧
      cmk_reason block = None ∧
      approvedBy block = "2" ∧
      clock example_created ≤ approvedAt block ∧ approvedAt block ≤ clock res.2 ∧
      plant r' = Some "P2" ∧
      auditTrail r' = auditTrail (row_of example_created 0) ++ [e] ∧
      userId e = "2".
Proof.
  assert (steady example_created) as Hsteady
    by (refine (bool_decide_unpack _ _); vm_compute; exact I).
  assert (storageUtils.findById (id (row_of example_created 0))
            (requestsOf example_created)
          = Some (0%nat, row_of example_created 0)) as Hfind
    by (vm_compute; reflexivity).
  split; [exact Hfind|]. split; [reflexivity|]. cbv zeta.
  destruct (cmk_decide chandramauli (row_of example_created 0) example_approve
              example_created 0 (row_of example_created 0) Hfind eq_refl)
    as (r' & e & t & block & H1 & H2 & H3 & H4 & H5 & H6 & H7 & H8 & H9 & _
        & Hclock & H10 & H11 & H12).
  destruct (Hclock Hsteady) as [Hc1 Hc2].
  exists r', e, t, block.
  exact (conj H1 (conj H2 (conj H3 (conj H4 (conj H5 (conj H6 (conj H7
           (conj H8 (conj H9 (conj Hc1 (conj Hc2 (conj H10
           (conj H11 H12))))))))))))).
Defined.

(** ** C2: commands that do not match the status *)

(** C2, as amended. A stage command is offered only through the modal that
    the dashboard opens, and [handleView] opens the modal of a stage only
    for a user of the role that owns the stage and a request in a status of
    the stage. For a request in another status, or a user of another role,
    the command is not offered: no handler runs, no toast and no error
    value is produced, local storage is unchanged. The statement leaves
    aside which action the procurement and the evaluation modal submit on
    which of their two statuses. *)
Theorem unmatched_command_not_offered w currentUser row r submission :
  requestsOf w !! row = Some r →
  status r ∉ stage_statuses submission
  ∨ role <$> currentUser ≠ Some (stage_role submission) →
  Dashboard.handleView currentUser r ≠ modal_of submission
  ∧ Dashboard.step currentUser (Dashboard.View row submission) w = (None, w).
Proof.
  intros Hrow Hout.
  assert (Dashboard.handleView currentUser r ≠ modal_of submission) as Hclosed.
  { intros Hopen. pose proof (handleView_spec currentUser r) as Hview.
    rewrite Hopen in Hview.
    destruct submission as [f|f|f|f|f]; cbn in Hview, Hout;
      destruct Hview as [(u & -> & Hu)%has_role_true Hst];
      (destruct Hout as [Hout|Hout]; [|cbn in Hout; congruence]);
      apply Hout; repeat rewrite elem_of_cons; tauto. }
  split; [exact Hclosed|].
  rewrite (step_view _ _ _ _ _ Hrow). unfold Dashboard.submitView.
  destruct (Dashboard.handleView currentUser r), submission as [f|f|f|f|f];
    first [reflexivity | by destruct Hclosed].
Qed.

Lemma unmatched_command_not_offered_witness :
  let submission := Dashboard.SubmitProcurement example_order in
  requestsOf example_delivered !! 0%nat = Some (row_of example_delivered 0)
  ∧ (status (row_of example_delivered 0) ∉ stage_statuses submission
     ∨ role <$> Some procurement_team ≠ Some (stage_role submission))
  ∧ Dashboard.handleView (Some procurement_team) (row_of example_delivered 0)
    ≠ modal_of submission
  ∧ Dashboard.step (Some procurement_team) (Dashboard.View 0 submission)
      example_delivered
    = (None, example_delivered).
Proof.
  cbv zeta.
  assert (requestsOf example_delivered !! 0%nat
          = Some (row_of example_delivered 0)) as Hrow
    by (vm_compute; reflexivity).
  assert (status (row_of example_delivered 0)
          ∉ stage_statuses (Dashboard.SubmitProcurement example_order)) as Hout.
  { change (status (row_of example_delivered 0)) with delivered.
    cbn [stage_statuses]. repeat rewrite elem_of_cons.
    intros [H|[H|H%elem_of_nil]]; [discriminate H|discriminate H|exact H]. }
  split; [exact Hrow|]. split; [left; exact Hout|].
  exact (unmatched_command_not_offered example_delivered (Some procurement_team)
           0 (row_of example_delivered 0)
           (Dashboard.SubmitProcurement example_order) Hrow (or_introl Hout)).
Defined.

(** C2 as stated fails. On a request that is already [ordered] the
    procurement modal runs 'order' again: the order is placed a second
    time, with a success toast and a fifth audit entry, although the
    command starts from [pending_procurement]. On a request that is still
    [pending_procurement] the modal runs 'deliver', the action that its
    state was left at: the request is [delivered] without an order. And
    once the request is [delivered], placing an order is not turned down
    with an error: nothing is raised at all. *)
Lemma place_order_applied_twice :
  let submission := Dashboard.SubmitProcurement example_order in
  let res := Dashboard.step (Some procurement_team)
               (Dashboard.View 0 submission) example_ordered in
  let early := Dashboard.SubmitProcurement example_deliver in
  let res' := Dashboard.step (Some procurement_team)
                (Dashboard.View 0 early) example_planned in
  (status (row_of example_ordered 0) = ordered
   ∧ source_status submission = pending_procurement
   ∧ accepted res.1
   ∧ requestsOf res.2 ≠ requestsOf example_ordered
   ∧ status (row_of res.2 0) = ordered
   ∧ length (auditTrail (row_of example_ordered 0)) = 4%nat
   ∧ length (auditTrail (row_of res.2 0)) = 5%nat)
  ∧ (status (row_of example_planned 0) = pending_procurement
     ∧ source_status early = ordered
     ∧ accepted res'.1
     ∧ status (row_of res'.2 0) = delivered)
  ∧ (Dashboard.step (Some procurement_team) (Dashboard.View 0 submission)
       example_delivered).1 = None.
Proof.
  cbv zeta. split_and!; try (vm_compute; reflexivity).
  - eexists. split; vm_compute; reflexivity.
  - intros H.
    apply (f_equal (λ l, length (auditTrail (default
             (RequestModal.literal "" praful None noUpdates) (l !! 0%nat))))) in H.
    vm_compute in H. discriminate H.
  - eexists. split; vm_compute; reflexivity.
Qed.

(** ** C3: editing a request *)

(** C3, as amended. The edit operation is open to a user of role requestor
    in every status of the request. It leaves the status, the plant and
    every stage-data block of the request as they are, keeps the audit
    entries and appends exactly one, with action "Request Updated". *)
Theorem edit_in_any_status w u row r form :
  NoDup (id <$> requestsOf w) → requestsOf w !! row = Some r →
  role u = requestor →
  let res := Dashboard.step (Some u) (Dashboard.Edit row form) w in
  ∃ r' e,
    res.1 = Some (request_toast RequestModal.edit) ∧
    requestsOf res.2 = <[row:=r']> (requestsOf w) ∧
    id r' = id r ∧ status r' = status r ∧ plant r' = plant r ∧
    cmkDecision r' = cmkDecision r ∧ ppcData r' = ppcData r ∧
    procurementData r' = procurementData r ∧ storesData r' = storesData r ∧
    evaluationData r' = evaluationData r ∧
    finalCmkReview r' = finalCmkReview r ∧
    auditTrail r' = auditTrail r ++ [e] ∧
    action e = "Request Updated" ∧ userId e = user_id u.
Proof.
  intros Hnd Hrow Hrole. cbv zeta. unfold Dashboard.step.
  eapply (mbind_run_pred _ _ _ (requestsOf w) w); [reflexivity|]. rewrite Hrow.
  unfold Dashboard.has_role. cbn [fmap option_fmap option_map].
  rewrite Hrole, bool_decide_true by done.
  destruct (RequestModal_run u (Some r) RequestModal.edit form w)
    as (newId & e & w' & _ & Hrun & Hreq & Hact & Huser & _).
  destruct (requestData_edit newId u r form)
    as (Hid & Hst & Htr & Hpl & H1 & H2 & H3 & H4 & H5 & H6).
  rewrite Hrun. cbn [fst snd].
  exists (set_auditTrail (auditTrail (requestData newId u (Some r) form) ++ [e])
            (requestData newId u (Some r) form)), e.
  split_and!; try done.
  - rewrite Hreq. unfold saved. cbn [id set_auditTrail]. rewrite Hid.
    by rewrite (findById_NoDup _ _ _ Hnd Hrow).
  - cbn. by rewrite Htr.
Qed.

Lemma edit_in_any_status_witness :
  NoDup (id <$> requestsOf example_approved)
  ∧ requestsOf example_approved !! 0%nat = Some (row_of example_approved 0)
  ∧ role praful = requestor
  ∧ let r := row_of example_approved 0 in
    let res := Dashboard.step (Some praful)
                 (Dashboard.Edit 0 (example_edit r)) example_approved in
    ∃ r' e,
      res.1 = Some (request_toast RequestModal.edit) ∧
      requestsOf res.2 = <[0%nat:=r']> (requestsOf example_approved) ∧
      id r' = id r ∧ status r' = status r ∧ plant r' = plant r ∧
      cmkDecision r' = cmkDecision r ∧ ppcData r' = ppcData r ∧
      procurementData r' = procurementData r ∧ storesData r' = storesData r ∧
      evaluationData r' = evaluationData r ∧
      finalCmkReview r' = finalCmkReview r ∧
      auditTrail r' = auditTrail r ++ [e] ∧
      action e = "Request Updated" ∧ userId e = user_id praful.
Proof.
  assert (NoDup (id <$> requestsOf example_approved)) as Hnd
    by (refine (bool_decide_unpack _ _); vm_compute; exact I).
  assert (requestsOf example_approved !! 0%nat
          = Some (row_of example_approved 0)) as Hrow
    by (vm_compute; reflexivity).
  split_and!; [done..|].
  exact (edit_in_any_status example_approved praful 0
           (row_of example_approved 0)
           (example_edit (row_of example_approved 0)) Hnd Hrow eq_refl).
Defined.

(** C3 as stated fails twice. An edit of a request that CMK has approved
    (status [pending_ppc]) goes through, with a success toast and a third
    audit entry. And an edit of a request in [pending_cmk] with another
    supplier typed in leaves the supplier as it was: [...request] comes
    last in the object that is saved. *)
Lemma edit_outside_pending_cmk :
  let approved := row_of example_approved 0 in
  let res := Dashboard.step (Some praful)
               (Dashboard.Edit 0 (example_edit approved)) example_approved in
  let pending := row_of example_created 0 in
  let res' := Dashboard.step (Some praful)
                (Dashboard.Edit 0 (example_edit pending)) example_created in
  (status approved = pending_ppc
   ∧ accepted res.1
   ∧ length (auditTrail approved) = 2%nat
   ∧ length (auditTrail (row_of res.2 0)) = 3%nat)
  ∧ (status pending = pending_cmk
     ∧ accepted res'.1
     ∧ p_supplierName (RequestModal.formData (example_edit pending))
       = Some "Borealis Glass"
     ∧ supplierName (row_of res'.2 0) = "Acme Solar").
Proof.
  cbv zeta. split; split_and!; try (vm_compute; reflexivity);
    eexists; split; vm_compute; reflexivity.
Qed.

(** ** C4: the data of PPC *)

(** C4, as amended. For a stored request in status [pending_ppc], the PPC
    enter-data command with a PR number, material code or description that
    is empty once trimmed raises one and the same destructive toast ("All
    Fields Required"), whichever field is missing, and leaves the world
    (status, audit trail) unchanged; with the three of them there it writes
    [ppcData], trimmed and stamped (with the user and the first reading of
    the clock in the run), moves the request to [pending_procurement] and
    appends one audit entry. *)
Theorem ppc_enter_data user request form w i r :
  storageUtils.findById (id request) (requestsOf w) = Some (i, r) →
  status r = pending_ppc →
  let res := PPCModal.handleSubmit (Some user) request form w in
  let missing :=
    bool_decide (trim (PPCModal.form_prNumber form) = "")
    || bool_decide (trim (PPCModal.form_materialCode form) = "")
    || bool_decide (trim (PPCModal.form_description form) = "") in
  if missing then res = (Some ppc_toast_required, w)
  else
    ∃ r' e t now,
      res.1 = Some t ∧ toast_variant t = variant_default ∧
      requestsOf res.2 = <[i:=r']> (requestsOf w) ∧
      id r' = id r ∧
      status r' = pending_procurement ∧
      ppcData r' = Some {| prNumber := trim (PPCModal.form_prNumber form);
                           materialCode := trim (PPCModal.form_materialCode form);
                           description := trim (PPCModal.form_description form);
                           enteredBy := user_id user;
                           enteredAt := now |} ∧
      now = eval dateNow w ∧
      (steady w → clock w ≤ now ∧ now ≤ clock res.2) ∧
      auditTrail r' = auditTrail r ++ [e] ∧ userId e = user_id user.
Proof.
  intros Hfind _. cbv zeta.
  pose proof (findById_Some _ _ _ _ Hfind) as [_ Hid].
  assert (∀ s, bool_decide (s = "") = negb (truthy s)) as Htruthy.
  { intros s. unfold truthy. by repeat case_bool_decide. }
  rewrite !Htruthy.
  destruct (negb (truthy (trim (PPCModal.form_prNumber form)))
            || negb (truthy (trim (PPCModal.form_materialCode form)))
            || negb (truthy (trim (PPCModal.form_description form)))) eqn:G.
  - unfold PPCModal.handleSubmit. cbv zeta. by rewrite G.
  - eassert (PPCModal.handleSubmit (Some user) request form w = _) as Hrun.
    { unfold PPCModal.handleSubmit. cbv zeta. rewrite G.
      run_handler Hfind Hid. }
    rewrite Hrun. clear Hrun. cbn [fst snd].
    eexists _, _, _, _. split_and!.
    3: { autorewrite with world. reflexivity. }
    all: try reflexivity.
    intros Hsteady. split; clock_lia Hsteady.
Qed.

Lemma ppc_enter_data_witness :
  storageUtils.findById (id (row_of example_approved 0))
    (requestsOf example_approved) = Some (0%nat, row_of example_approved 0)
  ∧ status (row_of example_approved 0) = pending_ppc
  ∧ let r := row_of example_approved 0 in
    let res := PPCModal.handleSubmit (Some ppc_team) r example_ppc
                 example_approved in
    ∃ r' e t now,
      res.1 = Some t ∧ toast_variant t = variant_default ∧
      requestsOf res.2 = <[0%nat:=r']> (requestsOf example_approved) ∧
      id r' = id r ∧
      status r' = pending_procurement ∧
      ppcData r' = Some {| prNumber := "PR1"; materialCode := "M1";
                           description := "d"; enteredBy := "3";
                           enteredAt := now |} ∧
      clock example_approved ≤ now ∧ now ≤ clock res.2 ∧
      auditTrail r' = auditTrail r ++ [e] ∧ userId e = "3".
Proof.
  assert (steady example_approved) as Hsteady
    by (refine (bool_decide_unpack _ _); vm_compute; exact I).
  assert (storageUtils.findById (id (row_of example_approved 0))
            (requestsOf example_approved)
          = Some (0%nat, row_of example_approved 0)) as Hfind
    by (vm_compute; reflexivity).
  assert (status (row_of example_approved 0) = pending_ppc) as Hst
    by (vm_compute; reflexivity).
  split; [exact Hfind|]. split; [exact Hst|]. cbv zeta.
  destruct (ppc_enter_data ppc_team (row_of example_approved 0) example_ppc
              example_approved 0 (row_of example_approved 0) Hfind Hst)
    as (r' & e & t & now & H1 & H2 & H3 & H4 & H5 & H6 & _ & Hclock & H7 & H8).
  destruct (Hclock Hsteady) as [Hc1 Hc2].
  exists r', e, t, now.
  exact (conj H1 (conj H2 (conj H3 (conj H4 (conj H5 (conj H6
           (conj Hc1 (conj Hc2 (conj H7 H8))))))))).
Defined.

(** C4 as stated fails: with the material code missing, the toast is the
    general one; its text does not hold the name of the field, and it is
    the toast raised when the PR number is the one missing. *)
Lemma ppc_error_names_no_field :
  let r := row_of example_approved 0 in
  let no_code := {| PPCModal.form_prNumber := "PR1";
                    PPCModal.form_materialCode := "";
                    PPCModal.form_description := "d" |} in
  let no_number := {| PPCModal.form_prNumber := "  ";
                      PPCModal.form_materialCode := "M1";
                      PPCModal.form_description := "d" |} in
  let res := PPCModal.handleSubmit (Some ppc_team) r no_code example_approved in
  let res' := PPCModal.handleSubmit (Some ppc_team) r no_number example_approved in
  let text := toast_title ppc_toast_required +:+ " "
              +:+ toast_description ppc_toast_required in
  res.1 = Some ppc_toast_required
  ∧ includes "materialCode" text = false
  ∧ includes "material" (toLowerCase text) = false
  ∧ res'.1 = res.1.
Proof. cbv zeta. split_and!; vm_compute; reflexivity. Qed.

(** ** C5: how a request gets rejected *)

(** C5. Whatever the store holds (under distinct ids) and whatever the
    event of the dashboard, a request that is [rejected] after the event was
    [rejected] before it, or was in [pending_cmk] or [pending_final_cmk]
    and the user is CMK: no other status leads to [rejected], by no
    handler that the dashboard runs, and a request never starts there. *)
Theorem rejected_only_by_cmk w currentUser event row r' :
  NoDup (id <$> requestsOf w) → fresh_id w event →
  requestsOf (exec (Dashboard.step currentUser event) w) !! row = Some r' →
  status r' = rejected →
  ∃ r, requestsOf w !! row = Some r ∧
       (status r = rejected
        ∨ ((status r = pending_cmk ∨ status r = pending_final_cmk)
           ∧ ∃ u, currentUser = Some u ∧ role u = cmk)).
Proof.
  intros Hnd Hfresh Hrow' Hrej.
  destruct (step_effect currentUser event w Hnd Hfresh)
    as [[Hsame _]|[(r1 & e & _ & Hreq & _ & Hst & _)
              |(i & r & u & s & Hrow & Hu & Hlife & Hcommit)]];
    unfold exec in Hrow'.
  - rewrite Hsame in Hrow'. eauto.
  - rewrite Hreq in Hrow'.
    apply lookup_snoc_Some in Hrow' as [[_ Hrow']|[_ ->]]; [eauto|congruence].
  - destruct Hcommit as (t & r1 & e & _ & _ & Hreq & _ & Hst & _).
    rewrite Hreq in Hrow'.
    apply list_lookup_insert_Some in Hrow' as [(-> & -> & _)|(_ & Hrow')];
      [|eauto].
    exists r. split; [done|]. rewrite Hst in Hrej. subst s.
    inversion Hlife; subst; eauto 10.
Qed.

Lemma rejected_only_by_cmk_witness :
  let w := example_awaiting_final in
  let event := Dashboard.View 0 (Dashboard.SubmitFinalCMK example_final_reject) in
  let w' := exec (Dashboard.step (Some chandramauli) event) w in
  NoDup (id <$> requestsOf w)
  ∧ fresh_id w event
  ∧ requestsOf w' !! 0%nat = Some (row_of w' 0)
  ∧ status (row_of w' 0) = rejected
  ∧ ∃ r, requestsOf w !! 0%nat = Some r ∧
         (status r = rejected
          ∨ ((status r = pending_cmk ∨ status r = pending_final_cmk)
             ∧ ∃ u, Some chandramauli = Some u ∧ role u = cmk)).
Proof.
  cbv zeta.
  assert (NoDup (id <$> requestsOf example_awaiting_final)) as Hnd
    by (refine (bool_decide_unpack _ _); vm_compute; exact I).
  split; [exact Hnd|]. split; [exact I|].
  split; [vm_compute; reflexivity|]. split; [vm_compute; reflexivity|].
  apply (rejected_only_by_cmk example_awaiting_final (Some chandramauli)
           (Dashboard.View 0 (Dashboard.SubmitFinalCMK example_final_reject)) 0
           (row_of (exec (Dashboard.step (Some chandramauli)
                            (Dashboard.View 0
                               (Dashboard.SubmitFinalCMK example_final_reject)))
                      example_awaiting_final) 0) Hnd I).
  - vm_compute. reflexivity.
  - vm_compute. reflexivity.
Defined.

(** ** C6: the audit trail *)




(** ** C7: creating a request and reading it *)

(** C7. After the create form is submitted, the request stored under the new
    id holds the intake fields of the form (a field left out reads as the
    empty string or [false]; a category or purpose tagged "Other" with a
    value typed in reads as that value), is in status [pending_cmk] and has
    exactly one audit entry. *)
Theorem create_then_read user form w :
  let res := RequestModal.handleSubmit (Some user) None RequestModal.create form w in
  let formData := RequestModal.formData form in
  ∃ r,
    getRequest (eval storageUtils.generateId w) res.2 = Some r ∧
    dateReceived r = optString (p_dateReceived formData) ∧
    materialCategory r =
      (if bool_decide (p_materialCategory formData = Some "Other")
          && truthy (RequestModal.customCategory form)
       then RequestModal.customCategory form
       else optString (p_materialCategory formData)) ∧
    materialDetails r = optString (p_materialDetails formData) ∧
    supplierName r = optString (p_supplierName formData) ∧
    quantity r = mjoin (p_quantity formData) ∧
    trialAtPlant r = default false (p_trialAtPlant formData) ∧
    purpose r =
      (if bool_decide (p_purpose formData = Some "Other")
          && truthy (RequestModal.customPurpose form)
       then RequestModal.customPurpose form
       else optString (p_purpose formData)) ∧
    status r = pending_cmk ∧
    length (auditTrail r) = 1%nat.
Proof.
  cbv zeta.
  destruct (RequestModal_run user None RequestModal.create form w)
    as (newId & e & w' & Hnew & Hrun & Hreq & _).
  specialize (Hnew eq_refl). subst newId. rewrite Hrun. cbn [fst snd].
  set (newId := eval storageUtils.generateId w) in *.
  set (rd := requestData newId user None form) in *.
  destruct (findById_saved (set_auditTrail (auditTrail rd ++ [e]) rd) (requestsOf w))
    as (j & Hj & _).
  assert (id rd = newId) as Hid by apply requestData_create.
  exists (set_auditTrail (auditTrail rd ++ [e]) rd). split.
  { unfold getRequest. rewrite Hreq. cbn [id set_auditTrail] in Hj.
    rewrite Hid in Hj. by rewrite Hj. }
  subst rd. unfold requestData. cbv zeta.
  repeat match goal with
         | |- context [if ?c then _ else _] => destruct c
         end; cbn; done.
Qed.

(** ** C8: the way to completion *)

(** C8. From a request just created, CMK decide (trial, with a plant), PPC
    enter (three fields that are not blank), procurement place order (order
    type and estimated delivery), procurement mark delivered, evaluation
    receive (receipt confirmed, completion date) and evaluation submit report
    (a report that is not blank) are all accepted, and the request ends in
    status [completed] with exactly seven audit entries. *)
Theorem happy_path w requester approver planner buyer evaluator
    form plant quantityRevised reason prNumber materialCode description
    orderType estimatedDelivery remarks deliverForm completionDate draft report :
  role requester = requestor → role approver = cmk → role planner = ppc →
  role buyer = procurement → role evaluator = evaluation →
  NoDup (id <$> requestsOf w) → fresh_id w (Dashboard.Create form) →
  plant ≠ "" →
  trim prNumber ≠ "" → trim materialCode ≠ "" → trim description ≠ "" →
  orderType ≠ "" → estimatedDelivery ≠ "" →
  ProcurementModal.form_action deliverForm = ProcurementModal.deliver →
  completionDate ≠ "" → trim report ≠ "" →
  let row := length (requestsOf w) in
  let res :=
    Dashboard.run
      [ (Some requester, Dashboard.Create form);
        (Some approver,
         Dashboard.View row (Dashboard.SubmitCMK {|
           CMKReviewModal.form_decision := trial;
           CMKReviewModal.form_plant := plant;
           CMKReviewModal.form_quantityRevised := quantityRevised;
           CMKReviewModal.form_reason := reason |}));
        (Some planner,
         Dashboard.View row (Dashboard.SubmitPPC {|
           PPCModal.form_prNumber := prNumber;
           PPCModal.form_materialCode := materialCode;
           PPCModal.form_description := description |}));
        (Some buyer,
         Dashboard.View row (Dashboard.SubmitProcurement {|
           ProcurementModal.form_action := ProcurementModal.order;
           ProcurementModal.form_orderType := orderType;
           ProcurementModal.form_estimatedDelivery := estimatedDelivery;
           ProcurementModal.form_remarks := remarks |}));
        (Some buyer,
         Dashboard.View row (Dashboard.SubmitProcurement deliverForm));
        (Some evaluator,
         Dashboard.View row (Dashboard.SubmitEvaluation {|
           EvaluationModal.form_action := EvaluationModal.receive;
           EvaluationModal.form_received := true;
           EvaluationModal.form_completionDate := completionDate;
           EvaluationModal.form_report := draft |}));
        (Some evaluator,
         Dashboard.View row (Dashboard.SubmitEvaluation {|
           EvaluationModal.form_action := EvaluationModal.submit_report;
           EvaluationModal.form_received := true;
           EvaluationModal.form_completionDate := completionDate;
           EvaluationModal.form_report := report |})) ] w in
  length res.1 = 7%nat ∧ Forall accepted res.1 ∧
  ∃ r, requestsOf res.2 !! row = Some r ∧ status r = completed
       ∧ length (auditTrail r) = 7%nat.
Proof.
  intros Hrequester Happrover Hplanner Hbuyer Hevaluator Hnd Hfresh
    Hplant HprNumber HmaterialCode Hdescription HorderType HestimatedDelivery
    Hdeliver HcompletionDate Hreport.
  cbv zeta.
  apply truthy_true in Hplant, HorderType, HestimatedDelivery, HcompletionDate.
  apply truthy_true in HprNumber, HmaterialCode, Hdescription, Hreport.
  set (sub_decide := Dashboard.SubmitCMK _).
  set (sub_enter := Dashboard.SubmitPPC _).
  set (sub_place := Dashboard.SubmitProcurement
                      (ProcurementModal.Build_Form _ _ _ _)).
  set (sub_receive := Dashboard.SubmitEvaluation
                    (EvaluationModal.Build_Form EvaluationModal.receive _ _ _)).
  set (sub_report := Dashboard.SubmitEvaluation _).
  rewrite !run_cons. cbn [fst snd Dashboard.run mret M_ret].
  destruct (create_commit w requester form Hnd Hfresh Hrequester) as [A1 S1].
  set (w1 := (Dashboard.step (Some requester) _ w).2) in *.
  edestruct (view_commit w1 approver (length (requestsOf w)) sub_decide)
    as [A2 S2]; [exact S1| |].
  { intros r _ Hst Hfind. open_modal Hst Happrover.
    apply (CMK_commit approver r _ w1 _ r Hfind);
      cbn [CMKReviewModal.form_decision CMKReviewModal.form_plant
           CMKReviewModal.form_reason];
      [done|by rewrite Hplant]. }
  set (w2 := (Dashboard.step (Some approver) _ w1).2) in *. cbn in S2.
  edestruct (view_commit w2 planner (length (requestsOf w)) sub_enter)
    as [A3 S3]; [exact S2| |].
  { intros r _ Hst Hfind. open_modal Hst Hplanner.
    apply (PPC_commit planner r _ w2 _ r Hfind).
    cbn [PPCModal.form_prNumber PPCModal.form_materialCode
         PPCModal.form_description].
    by rewrite HprNumber, HmaterialCode, Hdescription. }
  set (w3 := (Dashboard.step (Some planner) _ w2).2) in *.
  edestruct (view_commit w3 buyer (length (requestsOf w)) sub_place)
    as [A4 S4]; [exact S3| |].
  { intros r _ Hst Hfind. open_modal Hst Hbuyer.
    apply (order_commit buyer r _ w3 _ r Hfind); [done|].
    cbn [ProcurementModal.form_orderType
         ProcurementModal.form_estimatedDelivery].
    by rewrite HorderType, HestimatedDelivery. }
  set (w4 := (Dashboard.step (Some buyer) _ w3).2) in *.
  edestruct (view_commit w4 buyer (length (requestsOf w))
               (Dashboard.SubmitProcurement deliverForm))
    as [A5 S5]; [exact S4| |].
  { intros r _ Hst Hfind. open_modal Hst Hbuyer.
    by apply (deliver_commit buyer r _ w4 _ r Hfind). }
  set (w5 := (Dashboard.step (Some buyer) _ w4).2) in *.
  edestruct (view_commit w5 evaluator (length (requestsOf w)) sub_receive)
    as [A6 S6]; [exact S5| |].
  { intros r _ Hst Hfind. open_modal Hst Hevaluator.
    by apply (receive_commit evaluator r _ w5 _ r Hfind). }
  set (w6 := (Dashboard.step (Some evaluator) _ w5).2) in *.
  edestruct (view_commit w6 evaluator (length (requestsOf w)) sub_report)
    as [A7 S7]; [exact S6| |].
  { intros r _ Hst Hfind. open_modal Hst Hevaluator.
    by apply (report_commit evaluator r _ w6 _ r Hfind). }
  split; [reflexivity|]. split; [by repeat constructor|].
  destruct S7 as [_ (r & ? & ? & ?)]. eauto.
Qed.

Lemma happy_path_witness :
  let row := length (requestsOf example_start) in
  let res :=
    Dashboard.run
      [ (Some praful, Dashboard.Create example_form);
        (Some chandramauli,
         Dashboard.View row (Dashboard.SubmitCMK {|
           CMKReviewModal.form_decision := trial;
           CMKReviewModal.form_plant := "P2";
           CMKReviewModal.form_quantityRevised := "";
           CMKReviewModal.form_reason := "" |}));
        (Some ppc_team,
         Dashboard.View row (Dashboard.SubmitPPC {|
           PPCModal.form_prNumber := "PR1";
           PPCModal.form_materialCode := "M1";
           PPCModal.form_description := "d" |}));
        (Some procurement_team,
         Dashboard.View row (Dashboard.SubmitProcurement {|
           ProcurementModal.form_action := ProcurementModal.order;
           ProcurementModal.form_orderType := "air";
           ProcurementModal.form_estimatedDelivery := "2024-02-20";
           ProcurementModal.form_remarks := "" |}));
        (Some procurement_team,
         Dashboard.View row (Dashboard.SubmitProcurement example_deliver));
        (Some evaluation_team,
         Dashboard.View row (Dashboard.SubmitEvaluation {|
           EvaluationModal.form_action := EvaluationModal.receive;
           EvaluationModal.form_received := true;
           EvaluationModal.form_completionDate := "2024-03-01";
           EvaluationModal.form_report := "" |}));
        (Some evaluation_team,
         Dashboard.View row (Dashboard.SubmitEvaluation {|
           EvaluationModal.form_action := EvaluationModal.submit_report;
           EvaluationModal.form_received := true;
           EvaluationModal.form_completionDate := "2024-03-01";
           EvaluationModal.form_report := "ok" |})) ] example_start in
  NoDup (id <$> requestsOf example_start)
  ∧ fresh_id example_start (Dashboard.Create example_form)
  ∧ length res.1 = 7%nat ∧ Forall accepted res.1
  ∧ ∃ r, requestsOf res.2 !! row = Some r ∧ status r = completed
         ∧ length (auditTrail r) = 7%nat.
Proof.
  cbv zeta. split; [apply NoDup_nil_2|]. split; [exact (not_elem_of_nil _)|].
  apply (happy_path example_start praful chandramauli ppc_team
           procurement_team evaluation_team example_form "P2" "" "" "PR1" "M1"
           "d" "air" "2024-02-20" "" example_deliver "2024-03-01" "" "ok");
    first [ reflexivity | apply NoDup_nil_2 | exact (not_elem_of_nil _)
          | vm_compute; discriminate ].
Defined.

(** ** C9: the reference values *)

(** C9. Adding to a dropdown a value that it holds already leaves the world
    unchanged, so that adding a value twice is adding it once. *)
Theorem addToDropdown_idempotent type value w :
  (value ∈ storageUtils.dropdown type (settingsOf w) →
   exec (storageUtils.addToDropdown type value) w = w)
  ∧ exec (storageUtils.addToDropdown type value)
      (exec (storageUtils.addToDropdown type value) w)
    = exec (storageUtils.addToDropdown type value) w.
Proof.
  assert (∀ w, value ∈ storageUtils.dropdown type (settingsOf w) →
               exec (storageUtils.addToDropdown type value) w = w) as Hnoop.
  { intros w0 Hin. unfold exec, storageUtils.addToDropdown.
    cbv [mbind M_bind mret M_ret getStorage storageUtils.getSettings].
    fold (settingsOf w0). by rewrite bool_decide_true. }
  split; [apply Hnoop|].
  apply Hnoop.
  unfold exec at 1, storageUtils.addToDropdown.
  cbv [mbind M_bind mret M_ret getStorage storageUtils.getSettings].
  fold (settingsOf w). case_bool_decide as Hin; [done|].
  unfold settingsOf. cbn. destruct type; cbn; apply elem_of_app; right;
    apply list_elem_of_singleton; done.
Qed.

(** ** C10: the ids of the stored requests *)

(** C10. From a store without two requests of the same id (the empty store
    is one), no sequence of [saveRequest] calls leads to a store with two
    requests of the same id: saving a request whose id is stored replaces
    that record where it stands, the others keeping their places, and
    saving a request whose id is new appends it at the end. *)
Theorem saveRequest_keeps_ids_unique w requests request :
  NoDup (id <$> requestsOf w) →
  let w1 := foldl (λ w r, exec (storageUtils.saveRequest r) w) w requests in
  let w2 := exec (storageUtils.saveRequest request) w1 in
  NoDup (id <$> requestsOf w2) ∧
  match storageUtils.findById (id request) (requestsOf w1) with
  | Some (i, _) =>
      requestsOf w2 = <[i:=request]> (requestsOf w1) ∧
      length (requestsOf w2) = length (requestsOf w1) ∧
      requestsOf w2 !! i = Some request ∧
      ∀ j, j ≠ i → requestsOf w2 !! j = requestsOf w1 !! j
  | None => requestsOf w2 = requestsOf w1 ++ [request]
  end.
Proof.
  assert (∀ w r, NoDup (id <$> requestsOf w) →
            NoDup (id <$> requestsOf (exec (storageUtils.saveRequest r) w))
            ∧ requestsOf (exec (storageUtils.saveRequest r) w)
              = saved r (requestsOf w)) as Hstep.
  { intros w0 r0 Hnd. unfold exec. rewrite saveRequest_run. cbn [snd].
    rewrite requestsOf_put. fold (saved r0 (requestsOf w0)). split; [|done].
    unfold saved.
    destruct (storageUtils.findById (id r0) (requestsOf w0)) as [[i x]|] eqn:H.
    - apply findById_Some in H as [Hi Hid]. by erewrite ids_insert.
    - apply findById_None in H. rewrite fmap_app. apply NoDup_app.
      split_and!; [done| |apply NoDup_singleton].
      intros x Hx [->|[]%not_elem_of_nil]%elem_of_cons. done. }
  intros Hnd. cbv zeta.
  assert (NoDup (id <$> requestsOf
            (foldl (λ w r, exec (storageUtils.saveRequest r) w) w requests)))
    as Hnd1.
  { revert w Hnd. induction requests as [|r0 rs IH]; intros w0 Hnd; [done|].
    cbn. apply IH. by apply Hstep. }
  destruct (Hstep _ request Hnd1) as [Hnd2 Heq]. split; [done|].
  rewrite Heq. unfold saved.
  destruct (storageUtils.findById _ _) as [[i x]|] eqn:H; [|done].
  apply findById_Some in H as [Hi _].
  pose proof (lookup_lt_Some _ _ _ Hi) as Hlt.
  split_and!; [done|by rewrite length_insert|by apply list_lookup_insert_eq|].
  intros j Hj. by apply list_lookup_insert_ne.
Qed.

Lemma saveRequest_keeps_ids_unique_witness :
  let w1 := foldl (λ w r, exec (storageUtils.saveRequest r) w) example_created
              [row_of example_approved 0] in
  let request := row_of example_planned 0 in
  let w2 := exec (storageUtils.saveRequest request) w1 in
  NoDup (id <$> requestsOf example_created)
  ∧ NoDup (id <$> requestsOf w2)
  ∧ match storageUtils.findById (id request) (requestsOf w1) with
    | Some (i, _) =>
        requestsOf w2 = <[i:=request]> (requestsOf w1) ∧
        length (requestsOf w2) = length (requestsOf w1) ∧
        requestsOf w2 !! i = Some request ∧
        ∀ j, j ≠ i → requestsOf w2 !! j = requestsOf w1 !! j
    | None => requestsOf w2 = requestsOf w1 ++ [request]
    end.
Proof.
  cbv zeta.
  assert (NoDup (id <$> requestsOf example_created)) as Hnd
    by (refine (bool_decide_unpack _ _); vm_compute; exact I).
  split; [exact Hnd|].
  exact (saveRequest_keeps_ids_unique example_created
           [row_of example_approved 0] (row_of example_planned 0) Hnd).
Defined.

(** * Further properties of the storage layer, the handlers and the pages *)

(** ** Reading a request back by its id *)

Lemma findById_cons rid (x : MaterialRequest) l :
  snd <$> storageUtils.findById rid (x :: l)
  = if decide (id x = rid) then Some x else snd <$> storageUtils.findById rid l.
Proof.
  unfold storageUtils.findById. cbn [list_find].
  destruct (decide (id x = rid)); [done|].
  by destruct (list_find _ l) as [[j y]|].
Qed.

Lemma findById_insert_other rid (l : list MaterialRequest) i r' :
  (∀ r, l !! i = Some r → id r ≠ rid) → id r' ≠ rid →
  snd <$> storageUtils.findById rid (<[i:=r']> l)
  = snd <$> storageUtils.findById rid l.
Proof.
  revert i. induction l as [|x l IH]; intros i Hold Hnew; [done|].
  destruct i as [|i]; cbn [insert list_insert]; rewrite !findById_cons.
  - assert (id x ≠ rid) by by apply (Hold x).
    by rewrite !decide_False by done.
  - destruct (decide _); [done|]. apply IH; [|done].
    intros r Hr. by apply Hold.
Qed.

Lemma findById_app_other rid (l : list MaterialRequest) r' :
  id r' ≠ rid →
  snd <$> storageUtils.findById rid (l ++ [r'])
  = snd <$> storageUtils.findById rid l.
Proof.
  intros Hnew. induction l as [|x l IH]; cbn [app]; rewrite !findById_cons.
  - by rewrite decide_False.
  - by destruct (decide _).
Qed.

Lemma findById_saved_other rid request l :
  rid ≠ id request →
  snd <$> storageUtils.findById rid (saved request l)
  = snd <$> storageUtils.findById rid l.
Proof.
  intros Hne. unfold saved.
  destruct (storageUtils.findById (id request) l) as [[i r]|] eqn:H.
  - apply findById_Some in H as [Hi Hid].
    apply findById_insert_other; [|done].
    intros r0 Hr0. rewrite Hi in Hr0. injection Hr0 as <-. congruence.
  - by apply findById_app_other.
Qed.

(** X1. A request that [saveRequest] has written is the one that a read by
    its id returns, whether it replaced a stored request or was appended
    (for a request whose numbers local storage gives back as they are);
    the requests of the other ids, the settings and the clock are as they
    were. *)
Theorem saveRequest_then_read request w :
  json_exact request →
  let w' := exec (storageUtils.saveRequest request) w in
  getRequest (id request) w' = Some request
  ∧ (∀ rid, rid ≠ id request → getRequest rid w' = getRequest rid w)
  ∧ settingsOf w' = settingsOf w ∧ clock w' = clock w.
Proof.
  intros _. cbv zeta. unfold exec. rewrite saveRequest_run. cbn [snd].
  fold (saved request (requestsOf w)). unfold getRequest.
  rewrite requestsOf_put. split_and!; [| |done..].
  - destruct (findById_saved request (requestsOf w)) as (j & -> & _). done.
  - intros rid Hne. by apply findById_saved_other.
Qed.

Lemma saveRequest_then_read_witness :
  let request := row_of example_created 0 in
  let w' := exec (storageUtils.saveRequest request) example_start in
  json_exact request
  ∧ getRequest (id request) w' = Some request
  ∧ (∀ rid, rid ≠ id request → getRequest rid w' = getRequest rid example_start)
  ∧ settingsOf w' = settingsOf example_start ∧ clock w' = clock example_start.
Proof.
  cbv zeta.
  assert (json_exact (row_of example_created 0)) as Hexact
    by (refine (bool_decide_unpack _ _); vm_compute; exact I).
  split; [exact Hexact|].
  exact (saveRequest_then_read (row_of example_created 0) example_start Hexact).
Defined.

Lemma getRequest_Some rid w r :
  getRequest rid w = Some r →
  ∃ i, storageUtils.findById rid (requestsOf w) = Some (i, r).
Proof.
  unfold getRequest.
  destruct (storageUtils.findById rid (requestsOf w)) as [[i x]|]; [|done].
  intros [= ->]. by exists i.
Qed.

Lemma getRequest_None rid w :
  getRequest rid w = None → storageUtils.findById rid (requestsOf w) = None.
Proof.
  unfold getRequest.
  by destruct (storageUtils.findById rid (requestsOf w)) as [[i x]|].
Qed.

Lemma updateRequest_missing rid updates w :
  storageUtils.findById rid (requestsOf w) = None →
  storageUtils.updateRequest rid updates w = (None, w).
Proof.
  intros H. unfold storageUtils.updateRequest. unfold_storage.
  fold (requestsOf w). by rewrite H.
Qed.

Lemma addAuditEntry_missing rid entry w :
  storageUtils.findById rid (requestsOf w) = None →
  storageUtils.addAuditEntry rid entry w = (tt, w).
Proof.
  intros H. unfold storageUtils.addAuditEntry.
  cbv [mbind M_bind mret M_ret getStorage storageUtils.getRequests].
  fold (requestsOf w). by rewrite H.
Qed.

(** X2. [updateRequest] on an id that no stored request has returns [null]
    and writes nothing. On an id that is stored it returns the stored
    request overlaid with the updates, keeps the number of requests, a read
    by the id returns that same object (as long as the updates do not
    rename it and its numbers are given back as they are), and the
    requests of the other ids are as they were. *)
Theorem updateRequest_then_read rid updates w :
  let res := storageUtils.updateRequest rid updates w in
  match getRequest rid w with
  | None => res = (None, w)
  | Some r =>
      let updated := spread_partial r updates in
      res.1 = Some updated
      ∧ length (requestsOf res.2) = length (requestsOf w)
      ∧ (id updated = rid → json_exact updated →
         getRequest rid res.2 = Some updated)
      ∧ (∀ rid', rid' ≠ rid → rid' ≠ id updated →
           getRequest rid' res.2 = getRequest rid' w)
  end.
Proof.
  cbv zeta. destruct (getRequest rid w) as [r|] eqn:Hget.
  - apply getRequest_Some in Hget as (i & Hfind).
    rewrite (updateRequest_found _ _ _ _ _ Hfind). cbn [fst snd].
    unfold getRequest. rewrite requestsOf_put.
    pose proof (findById_Some _ _ _ _ Hfind) as [Hi Hid].
    split_and!.
    + done.
    + by rewrite length_insert.
    + intros Hid' _. by rewrite (findById_insert _ _ _ _ _ Hfind Hid').
    + intros rid' Hne Hne'. apply findById_insert_other; [|done].
      intros r0 Hr0. rewrite Hi in Hr0. injection Hr0 as <-. congruence.
  - apply getRequest_None in Hget. by apply updateRequest_missing.
Qed.

Lemma set_auditTrail_same (r : MaterialRequest) trail :
  set_auditTrail (auditTrail r) (set_auditTrail trail r) = r.
Proof. by destruct r. Qed.

(** X3. [addAuditEntry] on an id that no stored request has does nothing: it
    reads neither the clock nor the entropy. On an id that is stored it
    appends one entry, with the action, user, timestamp and details given
    and an id that [generateId] draws, keeps every other field of the
    request, and leaves the requests of the other ids as they were. *)
Theorem addAuditEntry_appends rid entry w :
  let w' := exec (storageUtils.addAuditEntry rid entry) w in
  match getRequest rid w with
  | None => w' = w
  | Some r =>
      ∃ r' e,
        getRequest rid w' = Some r'
        ∧ auditTrail r' = auditTrail r ++ [e]
        ∧ set_auditTrail (auditTrail r) r' = r
        ∧ entry_id e = eval storageUtils.generateId w
        ∧ action e = in_action entry ∧ userId e = in_userId entry
        ∧ timestamp e = in_timestamp entry ∧ details e = in_details entry
        ∧ (∀ rid', rid' ≠ rid → getRequest rid' w' = getRequest rid' w)
  end.
Proof.
  cbv zeta. unfold exec. destruct (getRequest rid w) as [r|] eqn:Hget.
  - apply getRequest_Some in Hget as (i & Hfind).
    pose proof (findById_Some _ _ _ _ Hfind) as [Hi Hid].
    rewrite (addAuditEntry_found _ _ _ _ _ Hfind Hid). cbn [snd].
    unfold getRequest. rewrite requestsOf_put.
    eexists _, (newEntry w entry). split_and!.
    + by rewrite (findById_insert _ _ _ _
                    (set_auditTrail (auditTrail r ++ [newEntry w entry]) r)
                    Hfind Hid).
    + done.
    + apply set_auditTrail_same.
    + done.
    + done.
    + done.
    + done.
    + done.
    + intros rid' Hne. apply findById_insert_other; [|cbn; congruence].
      intros r0 Hr0. rewrite Hi in Hr0. injection Hr0 as <-. congruence.
  - apply getRequest_None in Hget. by rewrite addAuditEntry_missing.
Qed.

(** ** The reference values *)

Lemma addToDropdown_run type value w :
  settingsOf (exec (storageUtils.addToDropdown type value) w)
  = if bool_decide (value ∈ storageUtils.dropdown type (settingsOf w))
    then settingsOf w
    else storageUtils.dropdown_push type value (settingsOf w).
Proof.
  unfold exec, storageUtils.addToDropdown.
  cbv [mbind M_bind mret M_ret getStorage storageUtils.getSettings].
  fold (settingsOf w). by case_bool_decide.
Qed.

(** X4. After [addToDropdown] the value is in the list of its type; the
    values that were there keep their places before it, so none is lost; a
    list without duplicates stays so; the list of the other type and the
    stored requests are as they were. *)
Theorem addToDropdown_adds type value w :
  let w' := exec (storageUtils.addToDropdown type value) w in
  let before := storageUtils.dropdown type (settingsOf w) in
  let after := storageUtils.dropdown type (settingsOf w') in
  value ∈ after
  ∧ (after = before ∨ ((value ∉ before) ∧ after = before ++ [value]))
  ∧ (NoDup before → NoDup after)
  ∧ (∀ type', type' ≠ type →
       storageUtils.dropdown type' (settingsOf w')
       = storageUtils.dropdown type' (settingsOf w))
  ∧ requestsOf w' = requestsOf w.
Proof.
  cbv zeta. rewrite addToDropdown_run.
  destruct (addToDropdown_requests type value w) as [Hreq _].
  case_bool_decide as Hin.
  - split_and!; [done|by left|done|done|done].
  - assert (storageUtils.dropdown type
              (storageUtils.dropdown_push type value (settingsOf w))
            = storageUtils.dropdown type (settingsOf w) ++ [value]) as Hpush
      by by destruct type.
    rewrite Hpush. split_and!.
    + apply elem_of_app. right. by apply list_elem_of_singleton.
    + by right.
    + intros Hnd. apply NoDup_app. split_and!; [done| |apply NoDup_singleton].
      intros x Hx ->%list_elem_of_singleton. done.
    + intros type' Hne. by destruct type, type'.
    + done.
Qed.

(** ** The procurement modal *)

Lemma truthy_negb s : truthy s = negb (bool_decide (s = "")).
Proof. unfold truthy. by repeat case_bool_decide. Qed.

(** X5. The procurement handler on a stored request. Placing an order needs
    an order type and an estimated delivery date, else a destructive toast
    and nothing changes; it moves the request to [ordered] and writes the
    procurement data from the form, without a delivery instant. Marking
    the delivery needs nothing; it moves the request to [delivered], takes
    the order type, the estimated delivery and the remarks from the request
    that the modal was opened with, and stamps the delivery. Both append
    one audit entry of the user. *)
Theorem procurement_submit user request form w i r :
  storageUtils.findById (id request) (requestsOf w) = Some (i, r) →
  let res := ProcurementModal.handleSubmit (Some user) request form w in
  let committed (target : Status) (written : ProcurementData → Prop) :=
    ∃ r' e t data,
      res.1 = Some t ∧ toast_variant t = variant_default ∧
      requestsOf res.2 = <[i:=r']> (requestsOf w) ∧
      id r' = id r ∧ status r' = target ∧
      procurementData r' = Some data ∧ written data ∧
      proc_updatedBy data = user_id user ∧
      auditTrail r' = auditTrail r ++ [e] ∧ userId e = user_id user in
  match ProcurementModal.form_action form with
  | ProcurementModal.order =>
      if bool_decide (ProcurementModal.form_orderType form = "")
         || bool_decide (ProcurementModal.form_estimatedDelivery form = "")
      then refused w res
      else committed ordered (λ data,
             orderType data = Some (ProcurementModal.form_orderType form) ∧
             estimatedDelivery data
               = Some (ProcurementModal.form_estimatedDelivery form) ∧
             remarks data = Some (ProcurementModal.form_remarks form) ∧
             deliveredAt data = None ∧
             proc_updatedAt data = eval dateNow w)
  | ProcurementModal.deliver =>
      committed delivered (λ data,
        orderType data = procurementData request ≫= orderType ∧
        estimatedDelivery data = procurementData request ≫= estimatedDelivery ∧
        remarks data = procurementData request ≫= remarks ∧
        deliveredAt data = Some (eval dateNow w) ∧
        proc_updatedAt data = eval dateNow (tick w))
  end.
Proof.
  intros Hfind. cbv zeta.
  pose proof (findById_Some _ _ _ _ Hfind) as [_ Hid].
  destruct (ProcurementModal.form_action form) eqn:Ha.
  - destruct (bool_decide (ProcurementModal.form_orderType form = "")
              || bool_decide (ProcurementModal.form_estimatedDelivery form = ""))
      eqn:G.
    + unfold refused, ProcurementModal.handleSubmit. rewrite Ha. cbv zeta.
      rewrite !truthy_negb, !negb_involutive, G. cbn. eauto.
    + eassert (ProcurementModal.handleSubmit (Some user) request form w = _)
        as Hrun.
      { unfold ProcurementModal.handleSubmit. rewrite Ha. cbv zeta.
        rewrite !truthy_negb, !negb_involutive, G.
        run_handler Hfind Hid. }
      rewrite Hrun. clear Hrun. cbn [fst snd].
      eexists _, _, _, _. split_and!.
      3: { autorewrite with world. reflexivity. }
      all: reflexivity.
  - eassert (ProcurementModal.handleSubmit (Some user) request form w = _)
      as Hrun.
    { unfold ProcurementModal.handleSubmit. rewrite Ha.
      run_handler Hfind Hid. }
    rewrite Hrun. clear Hrun. cbn [fst snd].
    eexists _, _, _, _. split_and!.
    3: { autorewrite with world. reflexivity. }
    all: reflexivity.
Qed.

Lemma procurement_submit_witness :
  let r := row_of example_planned 0 in
  let res := ProcurementModal.handleSubmit (Some procurement_team) r
               example_order example_planned in
  storageUtils.findById (id r) (requestsOf example_planned) = Some (0%nat, r)
  ∧ ∃ r' e t data,
      res.1 = Some t ∧ toast_variant t = variant_default ∧
      requestsOf res.2 = <[0%nat:=r']> (requestsOf example_planned) ∧
      id r' = id r ∧ status r' = ordered ∧
      procurementData r' = Some data ∧
      (orderType data = Some "air" ∧
       estimatedDelivery data = Some "2024-02-20" ∧
       remarks data = Some "" ∧ deliveredAt data = None ∧
       proc_updatedAt data = eval dateNow example_planned) ∧
      proc_updatedBy data = "4" ∧
      auditTrail r' = auditTrail r ++ [e] ∧ userId e = "4".
Proof.
  cbv zeta. split; [vm_compute; reflexivity|].
  apply (procurement_submit procurement_team (row_of example_planned 0)
           example_order example_planned 0 (row_of example_planned 0)).
  vm_compute. reflexivity.
Defined.

(** ** The evaluation modal *)

(** X6. The evaluation handler on a stored request. Recording the receipt
    needs the receipt ticked and a completion date, else a destructive
    toast and nothing changes; it moves the request to
    [pending_evaluation], with the completion date of the form and the
    report of the request that the modal was opened with (or the empty
    text). Submitting the report needs a report that is not blank; it moves
    the request to [completed], keeps the completion date of the request
    that the modal was opened with and stores the report as typed. Both
    append one audit entry of the user. *)
Theorem evaluation_submit user request form w i r :
  storageUtils.findById (id request) (requestsOf w) = Some (i, r) →
  let res := EvaluationModal.handleSubmit (Some user) request form w in
  let committed (target : Status) (written : EvaluationData → Prop) :=
    ∃ r' e t data,
      res.1 = Some t ∧ toast_variant t = variant_default ∧
      requestsOf res.2 = <[i:=r']> (requestsOf w) ∧
      id r' = id r ∧ status r' = target ∧
      evaluationData r' = Some data ∧ written data ∧
      eval_received data = true ∧ eval_updatedBy data = user_id user ∧
      eval_updatedAt data = eval dateNow w ∧
      auditTrail r' = auditTrail r ++ [e] ∧ userId e = user_id user in
  match EvaluationModal.form_action form with
  | EvaluationModal.receive =>
      if negb (EvaluationModal.form_received form)
         || bool_decide (EvaluationModal.form_completionDate form = "")
      then refused w res
      else committed pending_evaluation (λ data,
             completionDate data
               = Some (EvaluationModal.form_completionDate form) ∧
             report data = Some (optString (evaluationData request ≫= report)))
  | EvaluationModal.submit_report =>
      if bool_decide (trim (EvaluationModal.form_report form) = "")
      then refused w res
      else committed completed (λ data,
             completionDate data = evaluationData request ≫= completionDate ∧
             report data = Some (EvaluationModal.form_report form))
  end.
Proof.
  intros Hfind. cbv zeta.
  pose proof (findById_Some _ _ _ _ Hfind) as [_ Hid].
  destruct (EvaluationModal.form_action form) eqn:Ha.
  - destruct (EvaluationModal.form_received form) eqn:G1; cbn [negb orb].
    2: { unfold refused, EvaluationModal.handleSubmit. rewrite Ha, G1.
         cbn. eauto. }
    destruct (bool_decide (EvaluationModal.form_completionDate form = ""))
      eqn:G2.
    + unfold refused, EvaluationModal.handleSubmit.
      rewrite Ha, G1, truthy_negb, G2. cbn. eauto.
    + eassert (EvaluationModal.handleSubmit (Some user) request form w = _)
        as Hrun.
      { unfold EvaluationModal.handleSubmit.
        rewrite Ha, G1, truthy_negb, G2. cbn [negb].
        run_handler Hfind Hid. }
      rewrite Hrun. clear Hrun. cbn [fst snd].
      eexists _, _, _, _. split_and!.
      3: { autorewrite with world. reflexivity. }
      all: reflexivity.
  - destruct (bool_decide (trim (EvaluationModal.form_report form) = ""))
      eqn:G1.
    + unfold refused, EvaluationModal.handleSubmit.
      rewrite Ha, truthy_negb, G1. cbn. eauto.
    + eassert (EvaluationModal.handleSubmit (Some user) request form w = _)
        as Hrun.
      { unfold EvaluationModal.handleSubmit.
        rewrite Ha, truthy_negb, G1. cbn [negb].
        run_handler Hfind Hid. }
      rewrite Hrun. clear Hrun. cbn [fst snd].
      eexists _, _, _, _. split_and!.
      3: { autorewrite with world. reflexivity. }
      all: reflexivity.
Qed.

Lemma evaluation_submit_witness :
  let r := row_of example_delivered 0 in
  let form := {| EvaluationModal.form_action := EvaluationModal.receive;
                 EvaluationModal.form_received := true;
                 EvaluationModal.form_completionDate := "2024-03-01";
                 EvaluationModal.form_report := "" |} in
  let res := EvaluationModal.handleSubmit (Some evaluation_team) r form
               example_delivered in
  storageUtils.findById (id r) (requestsOf example_delivered) = Some (0%nat, r)
  ∧ ∃ r' e t data,
      res.1 = Some t ∧ toast_variant t = variant_default ∧
      requestsOf res.2 = <[0%nat:=r']> (requestsOf example_delivered) ∧
      id r' = id r ∧ status r' = pending_evaluation ∧
      evaluationData r' = Some data ∧
      (completionDate data = Some "2024-03-01" ∧ report data = Some "") ∧
      eval_received data = true ∧ eval_updatedBy data = "6" ∧
      eval_updatedAt data = eval dateNow example_delivered ∧
      auditTrail r' = auditTrail r ++ [e] ∧ userId e = "6".
Proof.
  cbv zeta. split; [vm_compute; reflexivity|].
  apply (evaluation_submit evaluation_team (row_of example_delivered 0)
           {| EvaluationModal.form_action := EvaluationModal.receive;
              EvaluationModal.form_received := true;
              EvaluationModal.form_completionDate := "2024-03-01";
              EvaluationModal.form_report := "" |}
           example_delivered 0 (row_of example_delivered 0)).
  vm_compute. reflexivity.
Defined.

(** ** The final review and the stores *)

(** X7. The final review of CMK on a stored request. A rejection needs a
    reason that is not blank, else a destructive toast and nothing changes.
    An approval moves the request to [completed], a rejection to
    [rejected]; the review is stored with the decision, the reason as typed
    (for a rejection only), the comments trimmed (when not blank), the
    reviewer and the instant; one audit entry of the reviewer is appended.
    The handler does not look at the status that the request is in. *)
Theorem final_review user request form w i r :
  storageUtils.findById (id request) (requestsOf w) = Some (i, r) →
  let res := FinalCMKModal.handleSubmit (Some user) request form w in
  let decision := FinalCMKModal.form_decision form in
  if bool_decide (decision = final_rejected)
     && bool_decide (trim (FinalCMKModal.form_reason form) = "")
  then refused w res
  else
    ∃ r' e t review,
      res.1 = Some t ∧ toast_variant t = variant_default ∧
      requestsOf res.2 = <[i:=r']> (requestsOf w) ∧
      id r' = id r ∧
      status r' = (if bool_decide (decision = final_approved)
                   then completed else rejected) ∧
      finalCmkReview r' = Some review ∧
      final_decision review = decision ∧
      final_reason review
        = (if bool_decide (decision = final_rejected)
           then Some (FinalCMKModal.form_reason form) else None) ∧
      comments review
        = (if bool_decide (trim (FinalCMKModal.form_comments form) = "")
           then None else Some (trim (FinalCMKModal.form_comments form))) ∧
      reviewedBy review = user_id user ∧
      reviewedAt review = eval dateNow w ∧
      auditTrail r' = auditTrail r ++ [e] ∧ userId e = user_id user ∧
      action e = (if bool_decide (decision = final_approved)
                  then "Final CMK Approval" else "Final CMK Rejection").
Proof.
  intros Hfind. cbv zeta.
  pose proof (findById_Some _ _ _ _ Hfind) as [_ Hid].
  destruct (bool_decide (FinalCMKModal.form_decision form = final_rejected)
            && bool_decide (trim (FinalCMKModal.form_reason form) = "")) eqn:G.
  - unfold refused, FinalCMKModal.handleSubmit. cbv zeta.
    rewrite truthy_negb, negb_involutive, G. cbn. eauto.
  - eassert (FinalCMKModal.handleSubmit (Some user) request form w = _) as Hrun.
    { unfold FinalCMKModal.handleSubmit. cbv zeta.
      rewrite (truthy_negb (trim (FinalCMKModal.form_reason form))),
        negb_involutive, G.
      run_handler Hfind Hid. }
    rewrite Hrun. clear Hrun. cbn [fst snd].
    eexists _, _, _, _. split_and!.
    3: { autorewrite with world. reflexivity. }
    all: try reflexivity.
    + cbn [comments]. rewrite truthy_negb.
      by repeat case_bool_decide.
    + unfold newEntry. cbn [action].
      destruct (bool_decide (_ = final_approved)); reflexivity.
Qed.

Lemma final_review_witness :
  let r := row_of example_delivered 0 in
  let form := {| FinalCMKModal.form_decision := final_approved;
                 FinalCMKModal.form_comments := " fine ";
                 FinalCMKModal.form_reason := "" |} in
  let res := FinalCMKModal.handleSubmit (Some chandramauli) r form
               example_delivered in
  storageUtils.findById (id r) (requestsOf example_delivered) = Some (0%nat, r)
  ∧ ∃ r' e t review,
      res.1 = Some t ∧ toast_variant t = variant_default ∧
      requestsOf res.2 = <[0%nat:=r']> (requestsOf example_delivered) ∧
      id r' = id r ∧ status r' = completed ∧
      finalCmkReview r' = Some review ∧
      final_decision review = final_approved ∧
      final_reason review = None ∧
      comments review = Some "fine" ∧
      reviewedBy review = "2" ∧
      reviewedAt review = eval dateNow example_delivered ∧
      auditTrail r' = auditTrail r ++ [e] ∧ userId e = "2" ∧
      action e = "Final CMK Approval".
Proof.
  cbv zeta. split; [vm_compute; reflexivity|].
  apply (final_review chandramauli (row_of example_delivered 0)
           {| FinalCMKModal.form_decision := final_approved;
              FinalCMKModal.form_comments := " fine ";
              FinalCMKModal.form_reason := "" |}
           example_delivered 0 (row_of example_delivered 0)).
  vm_compute. reflexivity.
Defined.

(** X8. The stores handler on a stored request. It needs a receiver that
    is not blank and at least one document, else a destructive toast and
    nothing changes; it moves the request to [received] whatever status it
    was in, stores the receiver as typed and the documents, and appends one
    audit entry of the user that counts the documents. *)
Theorem stores_receive user request form w i r :
  storageUtils.findById (id request) (requestsOf w) = Some (i, r) →
  let res := StoresModal.handleSubmit (Some user) request form w in
  if bool_decide (trim (StoresModal.form_receivedBy form) = "")
     || bool_decide (StoresModal.form_documents form = [])
  then refused w res
  else
    ∃ r' e t data,
      res.1 = Some t ∧ toast_variant t = variant_default ∧
      requestsOf res.2 = <[i:=r']> (requestsOf w) ∧
      id r' = id r ∧ status r' = received ∧
      storesData r' = Some data ∧
      receivedBy data = Some (StoresModal.form_receivedBy form) ∧
      documents data = Some (StoresModal.form_documents form) ∧
      stores_updatedBy data = user_id user ∧
      stores_updatedAt data = eval dateNow w ∧
      auditTrail r' = auditTrail r ++ [e] ∧ userId e = user_id user ∧
      details e = "Material received by stores and handed over to "
                  +:+ StoresModal.form_receivedBy form +:+ ". "
                  +:+ toString (Z.of_nat (length (StoresModal.form_documents form)))
                  +:+ " document(s) uploaded.".
Proof.
  intros Hfind. cbv zeta.
  pose proof (findById_Some _ _ _ _ Hfind) as [_ Hid].
  assert (bool_decide (length (StoresModal.form_documents form) = 0%nat)
          = bool_decide (StoresModal.form_documents form = [])) as Hlen.
  { apply bool_decide_ext. by rewrite length_zero_iff_nil. }
  destruct (bool_decide (trim (StoresModal.form_receivedBy form) = "")) eqn:G1;
    cbn [orb].
  { unfold refused, StoresModal.handleSubmit. rewrite truthy_negb, G1.
    cbn. eauto. }
  destruct (bool_decide (StoresModal.form_documents form = [])) eqn:G2.
  { unfold refused, StoresModal.handleSubmit.
    rewrite truthy_negb, G1, Hlen. cbn. eauto. }
  eassert (StoresModal.handleSubmit (Some user) request form w = _) as Hrun.
  { unfold StoresModal.handleSubmit.
    rewrite truthy_negb, G1, Hlen. cbn [negb].
    run_handler Hfind Hid. }
  rewrite Hrun. clear Hrun. cbn [fst snd].
  eexists _, _, _, _. split_and!.
  3: { autorewrite with world. reflexivity. }
  all: reflexivity.
Qed.

Lemma stores_receive_witness :
  let r := row_of example_delivered 0 in
  let form := {| StoresModal.form_receivedBy := "Ravi";
                 StoresModal.form_documents := ["grn.pdf"] |} in
  let keeper := example_user "5" stores "Stores Team" in
  let res := StoresModal.handleSubmit (Some keeper) r form example_delivered in
  storageUtils.findById (id r) (requestsOf example_delivered) = Some (0%nat, r)
  ∧ ∃ r' e t data,
      res.1 = Some t ∧ toast_variant t = variant_default ∧
      requestsOf res.2 = <[0%nat:=r']> (requestsOf example_delivered) ∧
      id r' = id r ∧ status r' = received ∧
      storesData r' = Some data ∧
      receivedBy data = Some "Ravi" ∧
      documents data = Some ["grn.pdf"] ∧
      stores_updatedBy data = "5" ∧
      stores_updatedAt data = eval dateNow example_delivered ∧
      auditTrail r' = auditTrail r ++ [e] ∧ userId e = "5" ∧
      details e = "Material received by stores and handed over to Ravi. "
                  +:+ "1 document(s) uploaded.".
Proof.
  cbv zeta. split; [vm_compute; reflexivity|].
  apply (stores_receive (example_user "5" stores "Stores Team")
           (row_of example_delivered 0)
           {| StoresModal.form_receivedBy := "Ravi";
              StoresModal.form_documents := ["grn.pdf"] |}
           example_delivered 0 (row_of example_delivered 0)).
  vm_compute. reflexivity.
Defined.

(** ** Submitting on a request that is not stored *)

Lemma eval_bind {A B} (m : M A) (f : A → M B) w :
  eval (m ≫= f) w = eval (f (eval m w)) (exec m w).
Proof. unfold eval, exec, mbind, M_bind. by destruct (m w). Qed.

Lemma exec_bind {A B} (m : M A) (f : A → M B) w :
  exec (m ≫= f) w = exec (f (eval m w)) (exec m w).
Proof. unfold eval, exec, mbind, M_bind. by destruct (m w). Qed.

(** The toast of a run that goes through to its last [mret]. *)
Ltac eval_through := repeat (rewrite eval_bind; cbv beta); reflexivity.

(** X9. The handlers of CMK, PPC, procurement and evaluation do not look
    at what the storage layer returns: the toast that they raise is the
    same in every world, whether the request is stored or not. *)
Theorem stage_toast_ignores_store user request w1 w2 :
  (∀ form, eval (CMKReviewModal.handleSubmit user request form) w1
           = eval (CMKReviewModal.handleSubmit user request form) w2)
  ∧ (∀ form, eval (PPCModal.handleSubmit user request form) w1
             = eval (PPCModal.handleSubmit user request form) w2)
  ∧ (∀ form, eval (ProcurementModal.handleSubmit user request form) w1
             = eval (ProcurementModal.handleSubmit user request form) w2)
  ∧ (∀ form, eval (EvaluationModal.handleSubmit user request form) w1
             = eval (EvaluationModal.handleSubmit user request form) w2).
Proof.
  split_and!; intros form; (destruct user as [user|]; [|reflexivity]).
  - unfold CMKReviewModal.handleSubmit. cbv zeta.
    repeat match goal with
           | |- context [eval (if ?c then _ else _)] => destruct c
           end; first [reflexivity | eval_through].
  - unfold PPCModal.handleSubmit. cbv zeta.
    repeat match goal with
           | |- context [eval (if ?c then _ else _)] => destruct c
           end; first [reflexivity | eval_through].
  - unfold ProcurementModal.handleSubmit.
    destruct (ProcurementModal.form_action form); cbv zeta;
    repeat match goal with
           | |- context [eval (if ?c then _ else _)] => destruct c
           end; first [reflexivity | eval_through].
  - unfold EvaluationModal.handleSubmit.
    destruct (EvaluationModal.form_action form);
    repeat match goal with
           | |- context [eval (if ?c then _ else _)] => destruct c
           end; first [reflexivity | eval_through].
Qed.

(** One step of a handler on a world where the request is not found. *)
Ltac missing_step Hnone :=
  first
    [ mstep ltac:(apply dateNow_run)
    | mstep ltac:(apply updateRequest_missing; exact Hnone)
    | mstep ltac:(apply addAuditEntry_missing; exact Hnone) ].

Ltac run_missing Hnone :=
  match goal with
  | |- context [snd (?m ?w)] =>
      let Hrun := fresh "Hrun" in
      eassert (m w = _) as Hrun;
      [ repeat missing_step Hnone; apply mret_run | rewrite Hrun; clear Hrun ]
  end.

(** The guards of a handler, one after the other. *)
Ltac split_guards :=
  repeat match goal with
         | |- context [(if ?c then _ else _) ?w] => destruct c eqn:?
         end.

(** X10. Submitting a stage on a request whose id is not stored writes
    nothing, for each of the six stage handlers. The handlers of the final
    review and of the stores, which check what [updateRequest] returns,
    then raise no toast of success. *)
Theorem submit_on_missing_request user request w :
  id request ∉ id <$> requestsOf w →
  (∀ form, requestsOf (exec (CMKReviewModal.handleSubmit user request form) w)
           = requestsOf w)
  ∧ (∀ form, requestsOf (exec (PPCModal.handleSubmit user request form) w)
             = requestsOf w)
  ∧ (∀ form, requestsOf (exec (ProcurementModal.handleSubmit user request form) w)
             = requestsOf w)
  ∧ (∀ form, requestsOf (exec (EvaluationModal.handleSubmit user request form) w)
             = requestsOf w)
  ∧ (∀ form, requestsOf (exec (FinalCMKModal.handleSubmit user request form) w)
             = requestsOf w
             ∧ ¬ accepted (eval (FinalCMKModal.handleSubmit user request form) w))
  ∧ (∀ form, requestsOf (exec (StoresModal.handleSubmit user request form) w)
             = requestsOf w
             ∧ ¬ accepted (eval (StoresModal.handleSubmit user request form) w)).
Proof.
  intros Hnone%findById_None.
  assert (∀ (t : Toast) (H : toast_variant t = variant_destructive),
            ¬ accepted (Some t)) as Hdestructive.
  { intros t Ht (t' & [= <-] & Hv). congruence. }
  assert (¬ accepted None) as Hnothing.
  { by intros (t' & [=] & _). }
  split_and!; intros form; (destruct user as [user|]; [|done]).
  - unfold exec, CMKReviewModal.handleSubmit. cbv zeta. split_guards; [done..|].
    run_missing Hnone. done.
  - unfold exec, PPCModal.handleSubmit. cbv zeta. split_guards; [done|].
    run_missing Hnone. done.
  - unfold exec, ProcurementModal.handleSubmit.
    destruct (ProcurementModal.form_action form); cbv zeta; split_guards;
      try done; run_missing Hnone; done.
  - unfold exec, EvaluationModal.handleSubmit.
    destruct (EvaluationModal.form_action form); split_guards;
      try done; run_missing Hnone; done.
  - unfold exec, eval, FinalCMKModal.handleSubmit. cbv zeta. split_guards.
    + split; [done|]. by apply Hdestructive.
    + run_missing Hnone. done.
  - unfold exec, eval, StoresModal.handleSubmit. split_guards.
    + split; [done|]. by apply Hdestructive.
    + split; [done|]. by apply Hdestructive.
    + run_missing Hnone. done.
Qed.

Lemma submit_on_missing_request_witness :
  let request := row_of example_created 0 in
  let user := Some chandramauli in
  let w := example_start in
  (id request ∉ id <$> requestsOf w)
  ∧ (∀ form, requestsOf (exec (CMKReviewModal.handleSubmit user request form) w)
             = requestsOf w)
  ∧ (∀ form, requestsOf (exec (PPCModal.handleSubmit user request form) w)
             = requestsOf w)
  ∧ (∀ form, requestsOf (exec (ProcurementModal.handleSubmit user request form) w)
             = requestsOf w)
  ∧ (∀ form, requestsOf (exec (EvaluationModal.handleSubmit user request form) w)
             = requestsOf w)
  ∧ (∀ form, requestsOf (exec (FinalCMKModal.handleSubmit user request form) w)
             = requestsOf w
             ∧ ¬ accepted (eval (FinalCMKModal.handleSubmit user request form) w))
  ∧ (∀ form, requestsOf (exec (StoresModal.handleSubmit user request form) w)
             = requestsOf w
             ∧ ¬ accepted (eval (StoresModal.handleSubmit user request form) w)).
Proof.
  cbv zeta.
  assert (id (row_of example_created 0) ∉ id <$> requestsOf example_start)
    as Hnone by exact (not_elem_of_nil _).
  split; [exact Hnone|].
  exact (submit_on_missing_request (Some chandramauli)
           (row_of example_created 0) example_start Hnone).
Defined.

(** ** What a stage leaves alone *)

(** The run of a handler that finds the request, put into the goal. *)
Ltac run_found Hfind Hid :=
  match goal with
  | |- context [snd (?m ?w)] =>
      let Hrun := fresh "Hrun" in
      eassert (m w = _) as Hrun;
      [ run_handler Hfind Hid | rewrite Hrun; clear Hrun ]
  end.

Lemma submitView_frame currentUser r submission w row :
  storageUtils.findById (id r) (requestsOf w) = Some (row, r) →
  let res := Dashboard.submitView currentUser r submission w in
  ∃ r',
    requestsOf res.2 = <[row:=r']> (requestsOf w)
    ∧ id r' = id r ∧ intake r' = intake r ∧ storesData r' = storesData r
    ∧ (cmk_part r' = cmk_part r ∨ ∃ form, submission = Dashboard.SubmitCMK form)
    ∧ (ppcData r' = ppcData r ∨ ∃ form, submission = Dashboard.SubmitPPC form)
    ∧ (procurementData r' = procurementData r
       ∨ ∃ form, submission = Dashboard.SubmitProcurement form)
    ∧ (evaluationData r' = evaluationData r
       ∨ ∃ form, submission = Dashboard.SubmitEvaluation form)
    ∧ (finalCmkReview r' = finalCmkReview r
       ∨ ∃ form, submission = Dashboard.SubmitFinalCMK form).
Proof.
  intros Hfind. cbv zeta.
  pose proof (findById_Some _ _ _ _ Hfind) as [Hrow _].
  assert (id r = id r) as Hid by done.
  assert (∀ res : Outcome * World, res.2 = w →
            ∃ r', requestsOf res.2 = <[row:=r']> (requestsOf w)
              ∧ id r' = id r ∧ intake r' = intake r
              ∧ storesData r' = storesData r
              ∧ (cmk_part r' = cmk_part r
                 ∨ ∃ form, submission = Dashboard.SubmitCMK form)
              ∧ (ppcData r' = ppcData r
                 ∨ ∃ form, submission = Dashboard.SubmitPPC form)
              ∧ (procurementData r' = procurementData r
                 ∨ ∃ form, submission = Dashboard.SubmitProcurement form)
              ∧ (evaluationData r' = evaluationData r
                 ∨ ∃ form, submission = Dashboard.SubmitEvaluation form)
              ∧ (finalCmkReview r' = finalCmkReview r
                 ∨ ∃ form, submission = Dashboard.SubmitFinalCMK form))
    as Hsame.
  { intros res ->. exists r. rewrite list_insert_id by done.
    split_and!; auto. }
  unfold Dashboard.submitView.
  destruct (Dashboard.handleView currentUser r), submission as [f|f|f|f|f];
    try (apply Hsame; reflexivity);
    (destruct currentUser as [user|]; [|apply Hsame; reflexivity]).
  - unfold CMKReviewModal.handleSubmit. cbv zeta. split_guards;
      try (apply Hsame; reflexivity).
    run_found Hfind Hid. cbn [fst snd].
    eexists. split; [autorewrite with world; reflexivity|].
    split_and!; first [reflexivity | left; reflexivity | right; by eexists].
  - unfold PPCModal.handleSubmit. cbv zeta. split_guards;
      try (apply Hsame; reflexivity).
    run_found Hfind Hid. cbn [fst snd].
    eexists. split; [autorewrite with world; reflexivity|].
    split_and!; first [reflexivity | left; reflexivity | right; by eexists].
  - unfold ProcurementModal.handleSubmit.
    destruct (ProcurementModal.form_action f); cbv zeta; split_guards;
      try (apply Hsame; reflexivity);
      run_found Hfind Hid; cbn [fst snd];
      (eexists; split; [autorewrite with world; reflexivity|]);
      split_and!; first [reflexivity | left; reflexivity | right; by eexists].
  - unfold EvaluationModal.handleSubmit.
    destruct (EvaluationModal.form_action f); split_guards;
      try (apply Hsame; reflexivity);
      run_found Hfind Hid; cbn [fst snd];
      (eexists; split; [autorewrite with world; reflexivity|]);
      split_and!; first [reflexivity | left; reflexivity | right; by eexists].
  - unfold FinalCMKModal.handleSubmit. cbv zeta. split_guards;
      try (apply Hsame; reflexivity).
    run_found Hfind Hid. cbn [fst snd].
    eexists. split; [autorewrite with world; reflexivity|].
    split_and!; first [reflexivity | left; reflexivity | right; by eexists].
Qed.

(** X11. Viewing a row and submitting the modal that opens never touches
    what the requestor filled in (the compliance fields and the requestor
    included) nor the data of the stores, and writes at most the part of
    the request that belongs to the modal submitted: the quantity, the
    plant and the decision for the review of CMK, the PPC data, the
    procurement data, the evaluation data, the final review. *)
Theorem view_writes_own_stage w currentUser row submission r :
  NoDup (id <$> requestsOf w) → requestsOf w !! row = Some r →
  let res := Dashboard.step currentUser (Dashboard.View row submission) w in
  ∃ r',
    requestsOf res.2 = <[row:=r']> (requestsOf w)
    ∧ id r' = id r ∧ intake r' = intake r ∧ storesData r' = storesData r
    ∧ (cmk_part r' = cmk_part r ∨ ∃ form, submission = Dashboard.SubmitCMK form)
    ∧ (ppcData r' = ppcData r ∨ ∃ form, submission = Dashboard.SubmitPPC form)
    ∧ (procurementData r' = procurementData r
       ∨ ∃ form, submission = Dashboard.SubmitProcurement form)
    ∧ (evaluationData r' = evaluationData r
       ∨ ∃ form, submission = Dashboard.SubmitEvaluation form)
    ∧ (finalCmkReview r' = finalCmkReview r
       ∨ ∃ form, submission = Dashboard.SubmitFinalCMK form).
Proof.
  intros Hnd Hrow. cbv zeta. rewrite (step_view _ _ _ _ _ Hrow).
  apply submitView_frame. by apply findById_NoDup.
Qed.

Lemma view_writes_own_stage_witness :
  let w := example_created in
  let submission := Dashboard.SubmitCMK example_approve in
  let r := row_of example_created 0 in
  let res := Dashboard.step (Some chandramauli) (Dashboard.View 0 submission) w in
  NoDup (id <$> requestsOf w) ∧ requestsOf w !! 0%nat = Some r
  ∧ ∃ r',
      requestsOf res.2 = <[0%nat:=r']> (requestsOf w)
      ∧ id r' = id r ∧ intake r' = intake r ∧ storesData r' = storesData r
      ∧ (cmk_part r' = cmk_part r
         ∨ ∃ form, submission = Dashboard.SubmitCMK form)
      ∧ (ppcData r' = ppcData r ∨ ∃ form, submission = Dashboard.SubmitPPC form)
      ∧ (procurementData r' = procurementData r
         ∨ ∃ form, submission = Dashboard.SubmitProcurement form)
      ∧ (evaluationData r' = evaluationData r
         ∨ ∃ form, submission = Dashboard.SubmitEvaluation form)
      ∧ (finalCmkReview r' = finalCmkReview r
         ∨ ∃ form, submission = Dashboard.SubmitFinalCMK form).
Proof.
  cbv zeta.
  assert (NoDup (id <$> requestsOf example_created)) as Hnd
    by (refine (bool_decide_unpack _ _); vm_compute; exact I).
  assert (requestsOf example_created !! 0%nat
          = Some (row_of example_created 0)) as Hrow
    by (vm_compute; reflexivity).
  split; [exact Hnd|]. split; [exact Hrow|].
  exact (view_writes_own_stage example_created (Some chandramauli) 0
           (Dashboard.SubmitCMK example_approve) (row_of example_created 0)
           Hnd Hrow).
Defined.

(** ** The request modal *)

(** X12. A request just created belongs to the user that created it, has
    no plant and no data of any stage, and its audit trail is the one entry
    'Request Created' of that user. It has no BIS or IEC currency, whatever
    the form holds: the handler does not copy these two keys. *)
Theorem create_starts_blank user form w :
  let res := RequestModal.handleSubmit (Some user) None RequestModal.create form w in
  ∃ r e,
    getRequest (eval storageUtils.generateId w) res.2 = Some r
    ∧ id r = eval storageUtils.generateId w
    ∧ requestorId r = user_id user
    ∧ plant r = None ∧ cmkDecision r = None ∧ ppcData r = None
    ∧ procurementData r = None ∧ storesData r = None
    ∧ evaluationData r = None ∧ finalCmkReview r = None
    ∧ bisCurrency r = None ∧ iecCurrency r = None
    ∧ auditTrail r = [e]
    ∧ action e = "Request Created" ∧ userId e = user_id user.
Proof.
  cbv zeta.
  destruct (RequestModal_run user None RequestModal.create form w)
    as (newId & e & w' & Hnew & Hrun & Hreq & Hact & Hby & _).
  specialize (Hnew eq_refl). subst newId. rewrite Hrun. cbn [fst snd].
  set (newId := eval storageUtils.generateId w) in *.
  set (rd := requestData newId user None form) in *.
  destruct (findById_saved (set_auditTrail (auditTrail rd ++ [e]) rd)
              (requestsOf w)) as (j & Hj & _).
  destruct (requestData_create newId user form) as (Hid & _ & Htr).
  fold rd in Hid, Htr.
  exists (set_auditTrail (auditTrail rd ++ [e]) rd), e. split.
  { unfold getRequest. rewrite Hreq. cbn [id set_auditTrail] in Hj.
    rewrite Hid in Hj. by rewrite Hj. }
  split; [exact Hid|].
  assert (auditTrail (set_auditTrail (auditTrail rd ++ [e]) rd) = [e]) as Htrail.
  { cbn [auditTrail set_auditTrail]. by rewrite Htr. }
  split_and!; try done.
  all: subst rd; unfold requestData; cbv zeta;
    repeat match goal with
           | |- context [if ?c then _ else _] => destruct c
           end; reflexivity.
Qed.

Lemma requestData_edit_fields newId user r form :
  let rd := requestData newId user (Some r) form in
  let formData := RequestModal.formData form in
  dateReceived rd = dateReceived r ∧ materialDetails rd = materialDetails r
  ∧ supplierName rd = supplierName r ∧ trialAtPlant rd = trialAtPlant r
  ∧ bisRequired rd = bisRequired r ∧ iecRequired rd = iecRequired r
  ∧ requestorId rd = requestorId r
  ∧ bisCurrency rd = bisCurrency r ∧ iecCurrency rd = iecCurrency r
  ∧ materialCategory rd
    = (if bool_decide (p_materialCategory formData = Some "Other")
          && truthy (RequestModal.customCategory form)
       then RequestModal.customCategory form else materialCategory r)
  ∧ purpose rd
    = (if bool_decide (p_purpose formData = Some "Other")
          && truthy (RequestModal.customPurpose form)
       then RequestModal.customPurpose form else purpose r)
  ∧ quantity rd = from_option Some (mjoin (p_quantity formData)) (quantity r)
  ∧ bisCostBorneBy rd
    = from_option Some (mjoin (p_bisCostBorneBy formData)) (bisCostBorneBy r)
  ∧ iecCostBorneBy rd
    = from_option Some (mjoin (p_iecCostBorneBy formData)) (iecCostBorneBy r).
Proof.
  unfold requestData. cbv zeta.
  repeat match goal with
         | |- context [if ?c then _ else _] => destruct c
         end; cbn; split_and!; try reflexivity;
  match goal with |- from_option Some None ?o = _ => by destruct o end.
Qed.

(** X13. What an edit through the dashboard stores. Every field that the
    stored request holds wins over the form: the date, the details, the
    supplier, the flags, the requestor and the currencies stay as stored.
    The category and the purpose change only when the form says 'Other'
    and a custom value is typed, and then to that value. The quantity and
    who bears a cost are optional: they take the value of the form only
    where the stored request has none. *)
Theorem edit_keeps_stored_fields w u row r form :
  NoDup (id <$> requestsOf w) → requestsOf w !! row = Some r →
  role u = requestor →
  let res := Dashboard.step (Some u) (Dashboard.Edit row form) w in
  let formData := RequestModal.formData form in
  ∃ r',
    requestsOf res.2 = <[row:=r']> (requestsOf w)
    ∧ dateReceived r' = dateReceived r ∧ materialDetails r' = materialDetails r
    ∧ supplierName r' = supplierName r ∧ trialAtPlant r' = trialAtPlant r
    ∧ bisRequired r' = bisRequired r ∧ iecRequired r' = iecRequired r
    ∧ requestorId r' = requestorId r
    ∧ bisCurrency r' = bisCurrency r ∧ iecCurrency r' = iecCurrency r
    ∧ materialCategory r'
      = (if bool_decide (p_materialCategory formData = Some "Other")
            && truthy (RequestModal.customCategory form)
         then RequestModal.customCategory form else materialCategory r)
    ∧ purpose r'
      = (if bool_decide (p_purpose formData = Some "Other")
            && truthy (RequestModal.customPurpose form)
         then RequestModal.customPurpose form else purpose r)
    ∧ quantity r' = from_option Some (mjoin (p_quantity formData)) (quantity r)
    ∧ bisCostBorneBy r'
      = from_option Some (mjoin (p_bisCostBorneBy formData)) (bisCostBorneBy r)
    ∧ iecCostBorneBy r'
      = from_option Some (mjoin (p_iecCostBorneBy formData)) (iecCostBorneBy r).
Proof.
  intros Hnd Hrow Hrole. cbv zeta. unfold Dashboard.step.
  eapply (mbind_run_pred _ _ _ (requestsOf w) w); [reflexivity|]. rewrite Hrow.
  unfold Dashboard.has_role. cbn [fmap option_fmap option_map].
  rewrite Hrole, bool_decide_true by done.
  destruct (RequestModal_run u (Some r) RequestModal.edit form w)
    as (newId & e & w' & _ & Hrun & Hreq & _).
  destruct (requestData_edit newId u r form) as (Hid & _).
  pose proof (requestData_edit_fields newId u r form) as Hfields.
  cbv zeta in Hfields.
  rewrite Hrun. cbn [fst snd].
  exists (set_auditTrail (auditTrail (requestData newId u (Some r) form) ++ [e])
            (requestData newId u (Some r) form)).
  split; [|exact Hfields].
  rewrite Hreq. unfold saved. cbn [id set_auditTrail]. rewrite Hid.
  by rewrite (findById_NoDup _ _ _ Hnd Hrow).
Qed.

Lemma edit_keeps_stored_fields_witness :
  let w := example_created in
  let r := row_of example_created 0 in
  let form := example_edit r in
  let res := Dashboard.step (Some praful) (Dashboard.Edit 0 form) w in
  let formData := RequestModal.formData form in
  NoDup (id <$> requestsOf w) ∧ requestsOf w !! 0%nat = Some r
  ∧ role praful = requestor
  ∧ ∃ r',
      requestsOf res.2 = <[0%nat:=r']> (requestsOf w)
      ∧ dateReceived r' = dateReceived r ∧ materialDetails r' = materialDetails r
      ∧ supplierName r' = supplierName r ∧ trialAtPlant r' = trialAtPlant r
      ∧ bisRequired r' = bisRequired r ∧ iecRequired r' = iecRequired r
      ∧ requestorId r' = requestorId r
      ∧ bisCurrency r' = bisCurrency r ∧ iecCurrency r' = iecCurrency r
      ∧ materialCategory r' = materialCategory r
      ∧ purpose r' = purpose r
      ∧ quantity r' = from_option Some (mjoin (p_quantity formData)) (quantity r)
      ∧ bisCostBorneBy r'
        = from_option Some (mjoin (p_bisCostBorneBy formData)) (bisCostBorneBy r)
      ∧ iecCostBorneBy r'
        = from_option Some (mjoin (p_iecCostBorneBy formData)) (iecCostBorneBy r).
Proof.
  cbv zeta.
  assert (NoDup (id <$> requestsOf example_created)) as Hnd
    by (refine (bool_decide_unpack _ _); vm_compute; exact I).
  assert (requestsOf example_created !! 0%nat
          = Some (row_of example_created 0)) as Hrow
    by (vm_compute; reflexivity).
  split; [exact Hnd|]. split; [exact Hrow|]. split; [reflexivity|].
  exact (edit_keeps_stored_fields example_created praful 0
           (row_of example_created 0) (example_edit (row_of example_created 0))
           Hnd Hrow eq_refl).
Defined.

(** The steps of the handlers that leave the settings alone. *)
Lemma settingsOf_saveRequest request w :
  settingsOf (exec (storageUtils.saveRequest request) w) = settingsOf w.
Proof. unfold exec. by rewrite saveRequest_run. Qed.

Lemma settingsOf_addAuditEntry rid entry w :
  settingsOf (exec (storageUtils.addAuditEntry rid entry) w) = settingsOf w.
Proof.
  unfold exec.
  destruct (storageUtils.findById rid (requestsOf w)) as [[i r]|] eqn:Hfind.
  - pose proof (findById_Some _ _ _ _ Hfind) as [_ Hid].
    by rewrite (addAuditEntry_found _ _ _ _ _ Hfind Hid).
  - by rewrite addAuditEntry_missing.
Qed.

Lemma RequestModal_settings user request mode form w :
  let formData := RequestModal.formData form in
  let c1 := bool_decide (p_materialCategory formData = Some "Other")
            && truthy (RequestModal.customCategory form) in
  let c2 := bool_decide (p_purpose formData = Some "Other")
            && truthy (RequestModal.customPurpose form) in
  let w1 := if c1 then exec (storageUtils.addToDropdown dd_materialCategories
                               (RequestModal.customCategory form)) w else w in
  let w2 := if c2 then exec (storageUtils.addToDropdown dd_purposes
                               (RequestModal.customPurpose form)) w1 else w1 in
  settingsOf (exec (RequestModal.handleSubmit (Some user) request mode form) w)
  = settingsOf w2.
Proof.
  cbv zeta. unfold RequestModal.handleSubmit. cbv zeta.
  set (c1 := bool_decide (p_materialCategory (RequestModal.formData form)
                          = Some "Other")
             && truthy (RequestModal.customCategory form)).
  set (c2 := bool_decide (p_purpose (RequestModal.formData form) = Some "Other")
             && truthy (RequestModal.customPurpose form)).
  set (idm := match request with
              | Some r => if truthy (id r) then mret (id r)
                          else storageUtils.generateId
              | None => storageUtils.generateId
              end : M string).
  assert (settingsOf (exec idm w) = settingsOf w
          ∧ localStorage (exec idm w) = localStorage w) as [_ Hls].
  { subst idm. destruct request as [r|]; [destruct (truthy (id r))|]; done. }
  rewrite exec_bind. cbv beta. rewrite exec_bind. cbv beta.
  rewrite exec_bind. cbv beta. rewrite exec_bind. cbv beta.
  rewrite exec_bind. cbv beta. rewrite exec_bind. cbv beta.
  change (exec (mret _) ?x) with x.
  rewrite settingsOf_addAuditEntry.
  change (settingsOf (exec dateNow ?x)) with (settingsOf x).
  rewrite settingsOf_saveRequest.
  assert (∀ type value x y, localStorage x = localStorage y →
            settingsOf (exec (storageUtils.addToDropdown type value) x)
            = settingsOf (exec (storageUtils.addToDropdown type value) y)
            ∧ localStorage (exec (storageUtils.addToDropdown type value) x)
              = localStorage (exec (storageUtils.addToDropdown type value) y))
    as Hsame.
  { intros type value x y Hxy.
    unfold exec, storageUtils.addToDropdown, settingsOf.
    cbv [mbind M_bind mret M_ret getStorage setStorage
         storageUtils.getSettings storageUtils.saveSettings].
    rewrite Hxy. case_bool_decide; cbn [snd localStorage item_appSettings];
      by rewrite ?Hxy. }
  assert (∀ (a : MaterialRequest) x, exec (mret a : M MaterialRequest) x = x)
    as Hret by done.
  destruct c1, c2; cbv beta iota;
    repeat (rewrite exec_bind; cbv beta); rewrite ?Hret.
  - apply Hsame. by apply Hsame.
  - by apply Hsame.
  - apply Hsame. exact Hls.
  - unfold settingsOf. by rewrite Hls.
Qed.

(** X14. Submitting the request modal, to create or to edit, registers
    the custom values: when the form says 'Other' for the category and a
    custom category is typed, that value is in the categories of the
    settings afterwards, appended unless it was there; likewise for the
    purpose. Otherwise the two lists are as they were. *)
Theorem custom_values_registered user request mode form w :
  let res := RequestModal.handleSubmit (Some user) request mode form w in
  let formData := RequestModal.formData form in
  let category := RequestModal.customCategory form in
  let purpose := RequestModal.customPurpose form in
  let c1 := bool_decide (p_materialCategory formData = Some "Other")
            && truthy category in
  let c2 := bool_decide (p_purpose formData = Some "Other") && truthy purpose in
  let before := settingsOf w in
  let after := settingsOf res.2 in
  materialCategories after
  = (if c1 && negb (bool_decide (category ∈ materialCategories before))
     then materialCategories before ++ [category]
     else materialCategories before)
  ∧ purposes after
    = (if c2 && negb (bool_decide (purpose ∈ purposes before))
       then purposes before ++ [purpose] else purposes before)
  ∧ (c1 = true → category ∈ materialCategories after)
  ∧ (c2 = true → purpose ∈ purposes after).
Proof.
  cbv zeta.
  change ((RequestModal.handleSubmit (Some user) request mode form w).2)
    with (exec (RequestModal.handleSubmit (Some user) request mode form) w).
  rewrite (RequestModal_settings user request mode form w). cbv zeta.
  set (c1 := bool_decide (p_materialCategory (RequestModal.formData form)
                          = Some "Other")
             && truthy (RequestModal.customCategory form)).
  set (c2 := bool_decide (p_purpose (RequestModal.formData form) = Some "Other")
             && truthy (RequestModal.customPurpose form)).
  assert (∀ (l : list string) v, v ∈ l ++ [v]) as Hlast.
  { intros l v. apply elem_of_app. right. by apply list_elem_of_singleton. }
  destruct c1, c2; cbn [andb]; rewrite ?addToDropdown_run;
    cbn [storageUtils.dropdown];
    repeat (case_bool_decide;
            cbn [negb storageUtils.dropdown_push materialCategories purposes
                 storageUtils.dropdown] in *);
    split_and!; first [done | intros _; apply Hlast | idtac].
Qed.

(** ** The rows of a session *)

(** What one event does to the request of a row. *)
Lemma step_row_effect w currentUser event row r :
  NoDup (id <$> requestsOf w) → fresh_id w event →
  requestsOf w !! row = Some r →
  ∃ r',
    requestsOf (exec (Dashboard.step currentUser event) w) !! row = Some r'
    ∧ id r' = id r
    ∧ (status r' = status r
       ∨ ∃ u, currentUser = Some u ∧ lifecycle (role u) (status r) (status r'))
    ∧ (auditTrail r' = auditTrail r ∨ ∃ e, auditTrail r' = auditTrail r ++ [e]).
Proof.
  intros Hnd Hfresh Hrow. unfold exec.
  destruct (step_effect currentUser event w Hnd Hfresh)
    as [[Hsame _]|[(r' & e & _ & Hreq & _)
                  |(row0 & r0 & u & s & Hrow0 & Hu & Hlife & Hcommit)]].
  - rewrite Hsame. exists r. auto.
  - rewrite Hreq. exists r. rewrite lookup_app_l by by eapply lookup_lt_Some.
    auto.
  - destruct Hcommit as (t & r' & e & _ & _ & Hreq & Hid & Hst & Htr & _).
    rewrite Hreq. destruct (decide (row = row0)) as [->|Hne].
    + rewrite Hrow in Hrow0. injection Hrow0 as <-.
      exists r'. rewrite list_lookup_insert_eq by by eapply lookup_lt_Some.
      split_and!; [done|done| |eauto].
      right. exists u. by rewrite Hst.
    + exists r. rewrite list_lookup_insert_ne by done. auto.
Qed.

Lemma reachable_example_delivered : reachable example_delivered.
Proof.
  unfold example_delivered, example_ordered, example_planned, example_approved,
    example_created.
  repeat (apply reachable_step; [|first [exact I | exact (not_elem_of_nil _)]]).
  by apply reachable_start.
Qed.

Lemma reachable_status w r :
  reachable w → r ∈ requestsOf w → status r ∈ session_status.
Proof.
  intros Hreach. revert r.
  induction Hreach as [w H|w currentUser event Hreach IH Hfresh]; intros r Hr.
  { unfold requestsOf in Hr. rewrite H in Hr. by apply not_elem_of_nil in Hr. }
  pose proof (reachable_NoDup w Hreach) as Hnd.
  unfold exec in Hr.
  destruct (step_effect currentUser event w Hnd Hfresh)
    as [[Hsame _]|[(r' & e & _ & Hreq & _ & Hst & _)
                  |(row0 & r0 & u & s & Hrow0 & Hu & Hlife & Hcommit)]].
  - rewrite Hsame in Hr. by apply IH.
  - rewrite Hreq in Hr.
    apply elem_of_app in Hr as [Hr|Hr%list_elem_of_singleton];
      [by apply IH|subst r].
    rewrite Hst. unfold session_status.
    refine (bool_decide_unpack _ _); vm_compute; exact I.
  - destruct Hcommit as (t & r' & e & _ & _ & Hreq & _ & Hst & _).
    rewrite Hreq in Hr. apply elem_of_insert_inv in Hr as [->|Hr];
      [|by apply IH].
    assert (status r0 ∈ session_status) as H0.
    { apply IH. by eapply list_elem_of_lookup_2. }
    rewrite Hst. clear -Hlife H0.
    remember (status r0) as s0 eqn:Hs0. clear Hs0.
    unfold session_status in *.
    destruct Hlife; try exact H0;
      try (refine (bool_decide_unpack _ _); vm_compute; exact I);
      exfalso;
      repeat (apply elem_of_cons in H0 as [H0|H0]; [discriminate H0|]);
      by apply elem_of_nil in H0.
Qed.

(** X15. In a session of the dashboard that starts without stored requests,
    every stored request is in one of eight statuses: the statuses
    [approved_trial], [approved_pilot], [pending_final_cmk] and [received]
    never occur. So the modal of the final review, which the dashboard
    opens for [pending_final_cmk] only, is never opened. *)
Theorem session_statuses w r :
  reachable w → r ∈ requestsOf w →
  status r ∈ session_status
  ∧ ∀ currentUser,
      Dashboard.handleView currentUser r ≠ Dashboard.modal_final_cmk.
Proof.
  intros Hreach Hr.
  pose proof (reachable_status w r Hreach Hr) as Hin.
  split; [exact Hin|].
  intros currentUser Hview.
  pose proof (handleView_spec currentUser r) as Hspec.
  rewrite Hview in Hspec. destruct Hspec as [_ Hst].
  rewrite Hst in Hin. unfold session_status in Hin.
  repeat (apply elem_of_cons in Hin as [Hin|Hin]; [discriminate Hin|]).
  by apply elem_of_nil in Hin.
Qed.

Lemma session_statuses_witness :
  let r := row_of example_delivered 0 in
  reachable example_delivered ∧ r ∈ requestsOf example_delivered
  ∧ status r ∈ session_status
  ∧ ∀ currentUser,
      Dashboard.handleView currentUser r ≠ Dashboard.modal_final_cmk.
Proof.
  cbv zeta.
  assert (row_of example_delivered 0 ∈ requestsOf example_delivered) as Hin
    by (apply (list_elem_of_lookup_2 _ 0%nat); vm_compute; reflexivity).
  split; [exact reachable_example_delivered|]. split; [exact Hin|].
  exact (session_statuses example_delivered (row_of example_delivered 0)
           reachable_example_delivered Hin).
Defined.

(** X16. In a session of the dashboard a stored request is never removed
    nor moved: after any event the row still holds a request of the same
    id. Its status is either the same or the next one on the way of the
    lifecycle, moved by a user of the role that owns the step; its audit
    trail is the same or longer by one entry. *)
Theorem request_stays_on_its_row w currentUser event row r :
  reachable w → fresh_id w event → requestsOf w !! row = Some r →
  ∃ r',
    requestsOf (exec (Dashboard.step currentUser event) w) !! row = Some r'
    ∧ id r' = id r
    ∧ (status r' = status r
       ∨ ∃ u, currentUser = Some u ∧ lifecycle (role u) (status r) (status r'))
    ∧ (auditTrail r' = auditTrail r ∨ ∃ e, auditTrail r' = auditTrail r ++ [e]).
Proof.
  intros Hreach Hfresh Hrow.
  pose proof (reachable_NoDup w Hreach) as Hnd.
  by apply step_row_effect.
Qed.

Lemma request_stays_on_its_row_witness :
  let w := example_delivered in
  let r := row_of example_delivered 0 in
  let event := Dashboard.View 0 (Dashboard.SubmitEvaluation {|
                 EvaluationModal.form_action := EvaluationModal.receive;
                 EvaluationModal.form_received := true;
                 EvaluationModal.form_completionDate := "2024-03-01";
                 EvaluationModal.form_report := "" |}) in
  let currentUser := Some evaluation_team in
  reachable w ∧ fresh_id w event ∧ requestsOf w !! 0%nat = Some r
  ∧ ∃ r',
      requestsOf (exec (Dashboard.step currentUser event) w) !! 0%nat = Some r'
      ∧ id r' = id r
      ∧ (status r' = status r
         ∨ ∃ u, currentUser = Some u
                ∧ lifecycle (role u) (status r) (status r'))
      ∧ (auditTrail r' = auditTrail r
         ∨ ∃ e, auditTrail r' = auditTrail r ++ [e]).
Proof.
  cbv zeta.
  assert (requestsOf example_delivered !! 0%nat
          = Some (row_of example_delivered 0)) as Hrow
    by (vm_compute; reflexivity).
  split; [exact reachable_example_delivered|]. split; [exact I|].
  split; [exact Hrow|].
  exact (request_stays_on_its_row example_delivered (Some evaluation_team)
           (Dashboard.View 0 (Dashboard.SubmitEvaluation {|
              EvaluationModal.form_action := EvaluationModal.receive;
              EvaluationModal.form_received := true;
              EvaluationModal.form_completionDate := "2024-03-01";
              EvaluationModal.form_report := "" |}))
           0 (row_of example_delivered 0)
           reachable_example_delivered I Hrow).
Defined.

(** X17. The statuses [completed] and [rejected] are final in a session of
    the dashboard: whatever event follows, by whatever user, the request
    of the row keeps its id and its status. *)
Theorem terminal_status_is_final w currentUser event row r :
  reachable w → fresh_id w event → requestsOf w !! row = Some r →
  status r = completed ∨ status r = rejected →
  ∃ r',
    requestsOf (exec (Dashboard.step currentUser event) w) !! row = Some r'
    ∧ id r' = id r ∧ status r' = status r.
Proof.
  intros Hreach Hfresh Hrow Hterminal.
  pose proof (reachable_NoDup w Hreach) as Hnd.
  destruct (step_row_effect w currentUser event row r Hnd Hfresh Hrow)
    as (r' & Hrow' & Hid & Hst & _).
  exists r'. split_and!; [done..|].
  destruct Hst as [Hst|(u & _ & Hlife)]; [done|].
  destruct Hterminal as [Hst|Hst]; rewrite Hst in Hlife |- *;
    by inversion Hlife.
Qed.

Lemma reachable_example_rejected : reachable example_rejected.
Proof.
  unfold example_rejected, example_created.
  repeat (apply reachable_step; [|first [exact I | exact (not_elem_of_nil _)]]).
  by apply reachable_start.
Qed.

Lemma terminal_status_is_final_witness :
  let w := example_rejected in
  let r := row_of example_rejected 0 in
  let event := Dashboard.Edit 0 (example_edit r) in
  reachable w ∧ fresh_id w event ∧ requestsOf w !! 0%nat = Some r
  ∧ (status r = completed ∨ status r = rejected)
  ∧ ∃ r',
      requestsOf (exec (Dashboard.step (Some praful) event) w) !! 0%nat = Some r'
      ∧ id r' = id r ∧ status r' = status r.
Proof.
  cbv zeta.
  assert (requestsOf example_rejected !! 0%nat
          = Some (row_of example_rejected 0)) as Hrow
    by (vm_compute; reflexivity).
  assert (status (row_of example_rejected 0) = rejected) as Hst
    by (vm_compute; reflexivity).
  split; [exact reachable_example_rejected|]. split; [exact I|].
  split; [exact Hrow|]. split; [right; exact Hst|].
  exact (terminal_status_is_final example_rejected (Some praful)
           (Dashboard.Edit 0 (example_edit (row_of example_rejected 0)))
           0 (row_of example_rejected 0)
           reachable_example_rejected I Hrow (or_intror Hst)).
Defined.

(** ** The work that waits for a user *)

Lemma length_filter_ext (P Q : MaterialRequest → Prop)
    `{!∀ r, base.Decision (P r)} `{!∀ r, base.Decision (Q r)}
    (l : list MaterialRequest) :
  (∀ r, P r ↔ Q r) → length (filter P l) = length (filter Q l).
Proof.
  intros HPQ. induction l as [|x l IH]; [done|]. rewrite !filter_cons.
  destruct (decide (P x)) as [HP|HP], (decide (Q x)) as [HQ|HQ]; cbn [length].
  - by rewrite IH.
  - destruct HQ. by apply HPQ.
  - destruct HP. by apply HPQ.
  - exact IH.
Qed.

Lemma length_filter_False (l : list MaterialRequest) :
  length (filter (λ _ : MaterialRequest, False) l) = 0%nat.
Proof.
  induction l as [|x l IH]; [done|]. rewrite filter_cons.
  by destruct (decide False).
Qed.

(** X18. The number that the dashboard shows as pending for the user
    counts exactly the requests for which viewing the row opens a stage
    modal rather than the read-only view; for a requestor, an admin, the
    stores or nobody logged in it is zero. *)
Theorem getPendingCount_counts_stage_modals currentUser requests :
  getPendingCount currentUser requests
  = length (filter (λ r, Dashboard.handleView currentUser r
                         ≠ Dashboard.modal_view) requests)
  ∧ (role <$> currentUser
       ∉ [Some cmk; Some ppc; Some procurement; Some evaluation] →
     getPendingCount currentUser requests = 0%nat).
Proof.
  split.
  2: { intros Hrole. unfold getPendingCount.
       destruct currentUser as [u|]; [|done]. cbn in Hrole.
       destruct (role u); try done; exfalso; apply Hrole;
         repeat constructor. }
  unfold getPendingCount.
  destruct currentUser as [u|].
  2: { rewrite <- (length_filter_False requests). apply length_filter_ext.
       intros r. unfold Dashboard.handleView, Dashboard.has_role. cbn. tauto. }
  destruct (role u) eqn:Hrole;
    first [ apply length_filter_ext
          | rewrite <- (length_filter_False requests); apply length_filter_ext ];
    intros r; unfold Dashboard.handleView, Dashboard.has_role;
    cbn [fmap option_fmap option_map]; rewrite Hrole;
    destruct (status r); vm_compute;
    (split; intros H;
     first [ discriminate | reflexivity | by left | by right
           | destruct H as [H|H]; discriminate H
           | discriminate H
           | exfalso; apply H; reflexivity
           | destruct H ]).
Qed.

(** X19. A row that the data table marks as pending for the user is one
    for which viewing opens a stage modal. The converse fails in two cases
    only: an [ordered] request for procurement and a [delivered] request for
    evaluation open their modal without being marked. *)
Theorem isPendingForUser_and_handleView currentUser request :
  Dashboard.handleView currentUser request ≠ Dashboard.modal_view
  ↔ DataTable.isPendingForUser request (role <$> currentUser) = true
    ∨ (role <$> currentUser = Some procurement ∧ status request = ordered)
    ∨ (role <$> currentUser = Some evaluation ∧ status request = delivered).
Proof.
  unfold Dashboard.handleView, Dashboard.has_role, DataTable.isPendingForUser.
  destruct currentUser as [[uid uname upw urole uname']|];
    cbn [fmap option_fmap option_map role].
  2: { cbn. split; [done|]. intros [?|[[? _]|[? _]]]; done. }
  destruct urole, (status request); cbn; split; intros H; try done;
    try (destruct H as [?|[[? ?]|[? ?]]]; done);
    try (by left); try (right; left; done); try (right; right; done).
Qed.

(** ** The accounts *)

Lemma usernames_after_edit (l : list User) ide formData :
  NoDup (user_id <$> l) → NoDup (username <$> l) →
  (∀ u, u ∈ l → username u = UserManagement.form_username formData →
        user_id u = ide) →
  NoDup (username <$>
           ((λ u, if bool_decide (user_id u = ide)
                  then UserManagement.spread_form u formData else u) <$> l)).
Proof.
  induction l as [|x l IH]; intros Hids Hnames Hdup; [constructor|].
  rewrite !fmap_cons in *.
  apply NoDup_cons in Hids as [Hx_id Hids].
  apply NoDup_cons in Hnames as [Hx_name Hnames].
  apply NoDup_cons. split.
  2: { apply IH; [done..|]. intros u Hu. apply Hdup. by right. }
  intros Hin. apply list_elem_of_fmap in Hin as (y' & Hy' & Hin).
  apply list_elem_of_fmap in Hin as (y & -> & Hy).
  assert (user_id y ≠ user_id x) as Hxy.
  { intros Heq. apply Hx_id. rewrite <- Heq. apply list_elem_of_fmap. eauto. }
  assert (username y ≠ username x) as Hxy'.
  { intros Heq. apply Hx_name. rewrite <- Heq. apply list_elem_of_fmap. eauto. }
  assert (y ∈ x :: l) as Hy0 by by right.
  assert (x ∈ x :: l) as Hx0 by by left.
  repeat case_bool_decide; cbn [username UserManagement.spread_form] in Hy'.
  - congruence.
  - apply Hxy. rewrite (Hdup y Hy0) by done. done.
  - subst ide. apply Hxy. symmetry. apply (Hdup x Hx0). done.
  - congruence.
Qed.

(** X20. Saving the user form keeps the usernames of the accounts distinct
    (given that the ids are distinct): a new account or a renamed one never
    takes the username of another account. Editing keeps the ids of the
    accounts, and a submission that is turned down leaves the accounts as
    they were. *)
Theorem handleSubmit_keeps_usernames_unique users editingUser formData w :
  NoDup (username <$> users) → NoDup (user_id <$> users) →
  let res := eval (UserManagement.handleSubmit users editingUser formData) w in
  NoDup (username <$> res.2)
  ∧ (is_Some editingUser → user_id <$> res.2 = user_id <$> users)
  ∧ (toast_variant res.1 = variant_destructive → res.2 = users).
Proof.
  intros Hnames Hids. cbv zeta. unfold UserManagement.handleSubmit, eval.
  destruct (negb (truthy (UserManagement.form_username formData))
            || negb (truthy (UserManagement.form_password formData))
            || negb (truthy (UserManagement.form_name formData))); [done|].
  destruct (list_find _ users) as [[j found]|] eqn:Hfind; [done|].
  rewrite list_find_None, Forall_forall in Hfind.
  destruct editingUser as [e|];
    cbv [mret M_ret mbind M_bind dateNow]; cbn [fst snd].
  - split_and!; [| |done].
    + apply usernames_after_edit; [done..|].
      intros u Hu Hname. specialize (Hfind u Hu). cbn in Hfind.
      destruct (decide (user_id u = user_id e)) as [|Hne]; [done|].
      exfalso. apply Hfind. split; [done|]. congruence.
    + intros _. clear. induction users as [|u l IH]; [done|].
      rewrite !fmap_cons, IH. f_equal. by case_bool_decide.
  - split_and!; [|by intros [? [=]]|done].
    rewrite fmap_app. apply NoDup_app. split_and!; [done| |apply NoDup_singleton].
    intros x Hx Hx'%list_elem_of_singleton. subst x.
    apply list_elem_of_fmap in Hx as (u & Hname & Hu).
    apply (Hfind u Hu). cbn. split; [done|]. done.
Qed.

Lemma handleSubmit_keeps_usernames_unique_witness :
  let users := AuthContext.defaultUsers in
  let formData := {| UserManagement.form_username := "plant-head";
                     UserManagement.form_password := "cmk";
                     UserManagement.form_name := "Chandramauli Kumar";
                     UserManagement.form_role := cmk |} in
  let res := eval (UserManagement.handleSubmit users (Some chandramauli) formData)
               example_start in
  NoDup (username <$> users) ∧ NoDup (user_id <$> users)
  ∧ NoDup (username <$> res.2)
  ∧ (is_Some (Some chandramauli) → user_id <$> res.2 = user_id <$> users)
  ∧ (toast_variant res.1 = variant_destructive → res.2 = users).
Proof.
  cbv zeta.
  assert (NoDup (username <$> AuthContext.defaultUsers)) as Hnames
    by (refine (bool_decide_unpack _ _); vm_compute; exact I).
  assert (NoDup (user_id <$> AuthContext.defaultUsers)) as Hids
    by (refine (bool_decide_unpack _ _); vm_compute; exact I).
  split; [exact Hnames|]. split; [exact Hids|].
  exact (handleSubmit_keeps_usernames_unique AuthContext.defaultUsers
           (Some chandramauli)
           {| UserManagement.form_username := "plant-head";
              UserManagement.form_password := "cmk";
              UserManagement.form_name := "Chandramauli Kumar";
              UserManagement.form_role := cmk |}
           example_start Hnames Hids).
Defined.

(** X21. Deleting an account never removes the account of the user that is
    logged in: asked to, the handler raises a destructive toast and leaves
    the accounts as they were. Otherwise exactly the accounts of the given
    id go, the others stay in their order, and distinct usernames stay
    distinct. *)
Theorem handleDeleteUser_spares_current_user currentUser users userId :
  let res := UserManagement.handleDeleteUser currentUser users userId in
  (∀ c, currentUser = Some c → c ∈ users → c ∈ res.2)
  ∧ (Some userId = user_id <$> currentUser →
     res.2 = users ∧ toast_variant res.1 = variant_destructive)
  ∧ (Some userId ≠ user_id <$> currentUser →
     res.2 = filter (λ u, user_id u ≠ userId) users
     ∧ (∀ u, u ∈ res.2 ↔ u ∈ users ∧ user_id u ≠ userId))
  ∧ (NoDup (username <$> users) → NoDup (username <$> res.2)).
Proof.
  cbv zeta. unfold UserManagement.handleDeleteUser.
  case_bool_decide as Hself; cbn [fst snd].
  - split_and!; [done|done|done|done].
  - split_and!; [|done| |].
    + intros c -> Hc. apply list_elem_of_filter. split; [|done].
      intros Heq. apply Hself. cbn. by rewrite Heq.
    + intros _. split; [done|]. intros u. rewrite list_elem_of_filter. tauto.
    + intros Hnd. induction users as [|u l IH]; [done|].
      rewrite fmap_cons in Hnd. apply NoDup_cons in Hnd as [Hu Hnd].
      rewrite filter_cons. destruct (decide _); [|by apply IH].
      rewrite fmap_cons. apply NoDup_cons. split; [|by apply IH].
      intros Hin. apply Hu.
      apply list_elem_of_fmap in Hin as (v & Hv & Hin).
      apply list_elem_of_filter in Hin as [_ Hin].
      apply list_elem_of_fmap. eauto.
Qed.

(** X22. Logging in. With distinct usernames, the credentials of a stored
    account log into that very account: it becomes the user of the session
    and the item 'currentUser'. With the username of a stored account and
    another password, or a username that no account has, the login fails
    and the session is as it was: a user logged in before stays so. *)
Theorem login_own_account a users u password' :
  AuthContext.item_users a = Some users → NoDup (username <$> users) →
  u ∈ users →
  let res := AuthContext.login (username u) password' a in
  (if bool_decide (password' = password u)
   then res.1 = true ∧ AuthContext.auth_user res.2 = Some u
        ∧ AuthContext.item_currentUser res.2 = Some u
   else res = (false, a))
  ∧ AuthContext.item_users res.2 = Some users
  ∧ (∀ other, (∀ v, v ∈ users → username v ≠ other) →
       AuthContext.login other password' a = (false, a)).
Proof.
  intros Husers Hnd Hu. cbv zeta. unfold AuthContext.login.
  rewrite Husers. change (default [] (Some users)) with users.
  assert (∀ v, v ∈ users → username v = username u → v = u) as Hunique.
  { intros v Hv Heq.
    apply list_elem_of_lookup_1 in Hv as (i & Hi), Hu as (j & Hj).
    assert (i = j) as ->; [|congruence].
    eapply NoDup_lookup; [exact Hnd| |].
    - by rewrite list_lookup_fmap, Hi.
    - by rewrite list_lookup_fmap, Hj, Heq. }
  assert (∀ other,
            (∀ v, v ∈ users → username v = other → password v = password' →
                  False) →
            list_find (λ v, username v = other ∧ password v = password') users
            = None) as Hnone.
  { intros other Hother. apply list_find_None, Forall_forall.
    intros v Hv [Hname Hpw]. by apply (Hother v). }
  split_and!.
  - case_bool_decide as Hpw.
    + subst password'.
      assert (∃ i, list_find (λ v, username v = username u
                                   ∧ password v = password u) users
                   = Some (i, u)) as [i ->]; [|done].
      destruct (list_find (λ v, username v = username u
                                ∧ password v = password u) users)
        as [[i v]|] eqn:Hfind.
      * apply list_find_Some in Hfind as (Hi & [Hname _] & _).
        assert (v = u) as ->; [|by eexists].
        apply Hunique; [by eapply list_elem_of_lookup_2|done].
      * rewrite list_find_None, Forall_forall in Hfind.
        exfalso. by apply (Hfind u Hu).
    + rewrite Hnone; [done|].
      intros v Hv Hname Hpw'. apply Hpw.
      by rewrite (Hunique v Hv Hname) in Hpw'.
  - by destruct (list_find (λ v, username v = username u
                                 ∧ password v = password') users)
      as [[i v]|].
  - intros other Hother. rewrite Hnone; [done|].
    intros v Hv Hname _. by apply (Hother v).
Qed.

Lemma login_own_account_witness :
  let a := AuthContext.initialize
             {| AuthContext.item_users := None;
                AuthContext.item_currentUser := None;
                AuthContext.auth_user := None |} in
  let u := {| user_id := "2"; username := "cmk"; password := "cmk";
              role := cmk; name := "Chandramauli Kumar" |} in
  let res := AuthContext.login "cmk" "cmk" a in
  AuthContext.item_users a = Some AuthContext.defaultUsers
  ∧ NoDup (username <$> AuthContext.defaultUsers)
  ∧ u ∈ AuthContext.defaultUsers
  ∧ (res.1 = true ∧ AuthContext.auth_user res.2 = Some u
     ∧ AuthContext.item_currentUser res.2 = Some u)
  ∧ AuthContext.item_users res.2 = Some AuthContext.defaultUsers
  ∧ (∀ other, (∀ v, v ∈ AuthContext.defaultUsers → username v ≠ other) →
       AuthContext.login other "cmk" a = (false, a)).
Proof.
  cbv zeta.
  assert (NoDup (username <$> AuthContext.defaultUsers)) as Hnames
    by (refine (bool_decide_unpack _ _); vm_compute; exact I).
  assert ({| user_id := "2"; username := "cmk"; password := "cmk";
             role := cmk; name := "Chandramauli Kumar" |}
          ∈ AuthContext.defaultUsers) as Hin
    by (apply (list_elem_of_lookup_2 _ 1%nat); reflexivity).
  split; [reflexivity|]. split; [exact Hnames|]. split; [exact Hin|].
  exact (login_own_account
           (AuthContext.initialize
              {| AuthContext.item_users := None;
                 AuthContext.item_currentUser := None;
                 AuthContext.auth_user := None |})
           AuthContext.defaultUsers
           {| user_id := "2"; username := "cmk"; password := "cmk";
              role := cmk; name := "Chandramauli Kumar" |}
           "cmk" eq_refl Hnames Hin).
Defined.

(** ** The figures of the analytics page *)

Lemma count_cons s x l :
  Analytics.count s (x :: l)
  = ((if decide (status x = s) then 1 else 0) + Analytics.count s l)%nat.
Proof.
  unfold Analytics.count. rewrite filter_cons.
  by destruct (decide (status x = s)).
Qed.

Lemma sum_without_zeros (items : list (string * nat)) :
  sum_list (snd <$> filter (λ item, (0 < item.2)%nat) items)
  = sum_list (snd <$> items).
Proof.
  induction items as [|[n v] items IH]; [done|].
  rewrite filter_cons. destruct (decide _) as [Hv|Hv]; cbn in *; lia.
Qed.

Lemma status_slices (x : MaterialRequest) :
  let ind s := if decide (status x = s) then 1%nat else 0%nat in
  (ind pending_cmk + ind pending_ppc + ind pending_procurement + ind ordered
   + ind delivered + ind pending_evaluation + ind completed + ind rejected)%nat
  = if decide (status x ∈ session_status) then 1%nat else 0%nat.
Proof. cbv zeta. destruct (status x); vm_compute; reflexivity. Qed.

Lemma slices_sum (l : list MaterialRequest) :
  (Analytics.count pending_cmk l + Analytics.count pending_ppc l
   + Analytics.count pending_procurement l + Analytics.count ordered l
   + Analytics.count delivered l + Analytics.count pending_evaluation l
   + Analytics.count completed l + Analytics.count rejected l)%nat
  = length (filter (λ r, status r ∈ session_status) l).
Proof.
  induction l as [|x l IH]; [done|].
  rewrite !count_cons, filter_cons.
  pose proof (status_slices x) as Hx. cbv zeta in Hx.
  destruct (decide (status x ∈ session_status)); cbn [length]; lia.
Qed.

Lemma filter_all (P : MaterialRequest → Prop) `{!∀ r, base.Decision (P r)}
    (l : list MaterialRequest) :
  (∀ r, r ∈ l → P r) → filter P l = l.
Proof.
  induction l as [|x l IH]; intros HP; [done|].
  rewrite filter_cons, decide_True by (apply HP; by left).
  f_equal. apply IH. intros r Hr. apply HP. by right.
Qed.

(** X23. On the analytics page the pending figure, computed as the total
    less the completed and the rejected, is the number of requests that
    are neither. The slices of the status chart add up to the number of
    requests in the eight statuses that the chart lists, so that a request
    in any other status is in no slice; for the requests of a dashboard
    session, which are never in another status, they add up to the
    total. *)
Theorem analytics_figures requests :
  Analytics.pendingRequests requests
  = Z.of_nat (length (filter (λ r, status r ≠ completed ∧ status r ≠ rejected)
                        requests))
  ∧ sum_list (snd <$> Analytics.statusData requests)
    = length (filter (λ r, status r ∈ session_status) requests)
  ∧ (∀ w, reachable w → requests = requestsOf w →
       sum_list (snd <$> Analytics.statusData requests)
       = Analytics.totalRequests requests).
Proof.
  assert (sum_list (snd <$> Analytics.statusData requests)
          = length (filter (λ r, status r ∈ session_status) requests)) as Hsum.
  { unfold Analytics.statusData. rewrite sum_without_zeros.
    rewrite <- slices_sum.
    unfold Analytics.completedRequests, Analytics.rejectedRequests.
    cbn [fmap list_fmap snd sum_list sum_list_with]. unfold Datatypes.id.
    lia. }
  split_and!.
  - clear Hsum.
    unfold Analytics.pendingRequests, Analytics.totalRequests,
      Analytics.completedRequests, Analytics.rejectedRequests.
    induction requests as [|x l IH]; [done|].
    rewrite !count_cons, filter_cons. cbn [length].
    destruct (decide (status x = completed)) as [Hc|Hc],
             (decide (status x = rejected)) as [Hr|Hr],
             (decide (status x ≠ completed ∧ status x ≠ rejected)) as [Hn|Hn];
      cbn [length]; first [lia | congruence | tauto].
  - exact Hsum.
  - intros w Hreach ->. rewrite Hsum. unfold Analytics.totalRequests.
    rewrite filter_all; [done|].
    intros r Hr. by apply (reachable_status w).
Qed.

(** ** The session of a user *)

(** X24. Logging out ends the session: no user, no item 'currentUser', the
    accounts untouched; mounting the provider again restores nobody; and
    whether a later login succeeds does not depend on who was logged in. *)
Theorem logout_ends_session a :
  let a' := AuthContext.logout a in
  AuthContext.auth_user a' = None
  ∧ AuthContext.item_currentUser a' = None
  ∧ AuthContext.item_users a' = AuthContext.item_users a
  ∧ AuthContext.isAuthenticated a' = false
  ∧ AuthContext.auth_user (AuthContext.initialize a') = None
  ∧ ∀ username' password',
      (AuthContext.login username' password' a').1
      = (AuthContext.login username' password' a).1
      ∧ AuthContext.auth_user (AuthContext.login username' password' a').2
        = if (AuthContext.login username' password' a).1
          then AuthContext.auth_user (AuthContext.login username' password' a).2
          else None.
Proof.
  cbv zeta. split_and!; try reflexivity.
  intros username' password'. unfold AuthContext.login, AuthContext.logout.
  cbn [AuthContext.item_users].
  by destruct (list_find _ (default [] (AuthContext.item_users a)))
    as [[i v]|].
Qed.

(** X25. Mounting the provider. Accounts that are stored are left as they
    are, and the default accounts are stored when there are none; mounting
    twice is mounting once. The user of the item 'currentUser' is restored
    without a look at the stored accounts. In a browser without accounts,
    each of the seven default accounts can log in with its own password
    right after the mount. *)
Theorem initialize_seeds_accounts a :
  (is_Some (AuthContext.item_users a) →
   AuthContext.item_users (AuthContext.initialize a) = AuthContext.item_users a)
  ∧ AuthContext.initialize (AuthContext.initialize a) = AuthContext.initialize a
  ∧ (∀ savedUser, AuthContext.item_currentUser a = Some savedUser →
       AuthContext.auth_user (AuthContext.initialize a) = Some savedUser)
  ∧ (AuthContext.item_users a = None →
     AuthContext.item_users (AuthContext.initialize a)
     = Some AuthContext.defaultUsers
     ∧ ∀ u, u ∈ AuthContext.defaultUsers →
         let res := AuthContext.login (username u) (password u)
                      (AuthContext.initialize a) in
         res.1 = true ∧ AuthContext.auth_user res.2 = Some u
         ∧ AuthContext.item_currentUser res.2 = Some u).
Proof.
  split_and!.
  - by intros [users Husers]; unfold AuthContext.initialize; rewrite Husers.
  - unfold AuthContext.initialize. cbn.
    by destruct (AuthContext.item_currentUser a).
  - intros savedUser Hsaved. unfold AuthContext.initialize. cbn.
    by rewrite Hsaved.
  - intros Hnone. split.
    { unfold AuthContext.initialize. cbn. by rewrite Hnone. }
    intros u Hu. cbv zeta. unfold AuthContext.login, AuthContext.initialize.
    cbn [AuthContext.item_users]. rewrite Hnone.
    change (default [] (Some (default AuthContext.defaultUsers None)))
      with AuthContext.defaultUsers.
    unfold AuthContext.defaultUsers in Hu.
    repeat (apply elem_of_cons in Hu as [->|Hu];
            [vm_compute; by split_and!|]).
    by apply elem_of_nil in Hu.
Qed.

(** ** The cards of the user management page *)

(** X26. The cards of the roles count every account but those of the role
    [stores], for which there is no card: the six counts add up to the
    number of accounts of another role. The default accounts hold one
    account of the stores, so the cards of a fresh installation add up to
    six for seven accounts. *)
Theorem getRoleStats_leaves_stores_out users :
  sum_list (snd <$> UserManagement.getRoleStats users)
  = length (filter (λ u, role u ≠ stores) users)
  ∧ fst <$> UserManagement.getRoleStats users
    = [requestor; cmk; ppc; procurement; evaluation; admin]
  ∧ sum_list (snd <$> UserManagement.getRoleStats AuthContext.defaultUsers)
    = 6%nat
  ∧ length AuthContext.defaultUsers = 7%nat.
Proof.
  split_and!; [|reflexivity|vm_compute; reflexivity|reflexivity].
  unfold UserManagement.getRoleStats.
  cbn [fmap list_fmap snd sum_list sum_list_with].
  induction users as [|x users IH]; [done|].
  rewrite !filter_cons.
  destruct (role x) eqn:Hrole;
    repeat (destruct (decide _) as [?|?]; try congruence);
    cbn [length]; unfold Datatypes.id in *;
    first [ lia
          | exfalso;
            match goal with H : ¬ _ ≠ stores |- _ => apply H; discriminate end ].
Qed.
